(** * AutomatedTikToks: the timeline composition engine, embedded in Rocq

    The Python sources [lib/generate_video.py], [lib/generate_audio.py],
    [create_qna_tiktok.py] and [create_advice_tiktok.py] are translated
    function by function.  Exceptions become an explicit result type, the
    background folder, the written videos and the console become an explicit
    world that is threaded through the scripts, and the two sources of
    randomness ([random.choice] and [random.randrange]) draw from the
    entropy that this world carries. *)

From Stdlib Require Import ZArith QArith List String Ascii Bool Lia Lqa.
From Stdlib Require Import Floats.PrimFloat Floats.SpecFloat Floats.FloatOps.
From Stdlib Require DecimalString DecimalNat.
Import ListNotations.

Local Open Scope string_scope.
Local Open Scope list_scope.
Local Open Scope Z_scope.

Set Implicit Arguments.

(* ================================================================== *)
(** * The Python run time the sources rely on *)
(* ================================================================== *)

Module Py.

(** The exception classes the modelled code can raise. *)
Inductive exn : Type :=
| ValueError (msg : string)
| IndexError (msg : string)
| KeyError (key : string)
| IOError (msg : string)
| OverflowError (msg : string)
| NameError (name : string).

(** [str(type(err))] and [str(err)], as the scripts print them. *)
Definition type_name (e : exn) : string :=
  match e with
  | ValueError _ => "<class 'ValueError'>"
  | IndexError _ => "<class 'IndexError'>"
  | KeyError _ => "<class 'KeyError'>"
  | IOError _ => "<class 'OSError'>"
  | OverflowError _ => "<class 'OverflowError'>"
  | NameError _ => "<class 'NameError'>"
  end.

Definition message (e : exn) : string :=
  match e with
  | ValueError m | IndexError m | IOError m | OverflowError m => m
  | KeyError k => "'" ++ k ++ "'"
  | NameError n => "name '" ++ n ++ "' is not defined"
  end.

(** A call either returns a value or raises. *)
Inductive result (A : Type) : Type :=
| Ok (a : A)
| Raise (e : exn).

Arguments Ok {A} a.
Arguments Raise {A} e.

Definition is_ok {A} (r : result A) : bool :=
  match r with Ok _ => true | Raise _ => false end.

(** ** Strings *)

(** [s.startswith(p)] and [s.endswith(p)]. *)
Definition startswith (s p : string) : bool := String.prefix p s.

Definition endswith (s p : string) : bool :=
  (String.length p <=? String.length s)%nat
  && String.eqb (substring (String.length s - String.length p) (String.length p) s) p.

(** A character of a string is a code point below 256.  [c.isspace()] on
    these: tab, line feed, vertical tab, form feed, carriage return, the
    four separators 28..31, the blank, next line (U+0085) and the
    no-break space (U+00A0). *)
Definition isspace (c : ascii) : bool :=
  let n := nat_of_ascii c in
  ((9 <=? n) && (n <=? 13) || (28 <=? n) && (n <=? 32)
   || (n =? 133) || (n =? 160))%nat.

Fixpoint lstrip (s : string) : string :=
  match s with
  | EmptyString => EmptyString
  | String c s' => if isspace c then lstrip s' else s
  end.

Fixpoint rstrip (s : string) : string :=
  match s with
  | EmptyString => EmptyString
  | String c s' =>
      match rstrip s' with
      | EmptyString => if isspace c then EmptyString else String c EmptyString
      | r => String c r
      end
  end.

(** [s.strip()]: leading and trailing white space removed. *)
Definition strip (s : string) : string := rstrip (lstrip s).

(** [os.path.join(a, b)] of [posixpath]. *)
Definition join (a b : string) : string :=
  if startswith b "/" then b
  else if (String.eqb a "" || endswith a "/") then a ++ b
  else a ++ "/" ++ b.

(** [str(n)] for a non-negative integer. *)
Definition str_of_nat (n : nat) : string :=
  DecimalString.NilZero.string_of_uint (Nat.to_uint n).

(** ** The [random] module

    Every draw of the generator is [_randbelow(n)]; the entropy it consumes
    is the explicit argument [e], so that each value below [n] is the draw
    of some [e]. *)
Definition randbelow (e : nat) (n : Z) : Z := Z.of_nat e mod n.

(** [random.randrange(start, stop, step)]. *)
Definition randrange (e : nat) (start stop step : Z) : result Z :=
  let width := stop - start in
  if step =? 1 then
    if 0 <? width then Ok (start + randbelow e width)
    else Raise (ValueError "empty range for randrange()")
  else if step =? 0 then Raise (ValueError "zero step for randrange()")
  else
    let n := if 0 <? step then (width + step - 1) / step
             else (width + step + 1) / step in
    if n <=? 0 then Raise (ValueError "empty range for randrange()")
    else Ok (start + step * randbelow e n).

(** [random.choice(seq)]. *)
Definition choice {A} (e : nat) (seq : list A) : result A :=
  match seq with
  | [] => Raise (IndexError "Cannot choose from an empty sequence")
  | _ :: _ =>
      match nth_error seq (Z.to_nat (randbelow e (Z.of_nat (List.length seq)))) with
      | Some x => Ok x
      | None => Raise (IndexError "list index out of range")
      end
  end.

(** ** Numbers

    Durations and offsets are Python floats.  The code only adds, subtracts
    and compares them, converts integers to them in mixed expressions and
    truncates one of them with [int()], so it is written once against this
    interface and run at two instances: exact rationals, on which the
    general properties are proved, and IEEE binary64, on which the worked
    example is evaluated bit for bit. *)
Class PyFloat (F : Type) : Type := {
  fadd : F -> F -> F;
  fsub : F -> F -> F;
  fle : F -> F -> bool;
  flt : F -> F -> bool;
  (** [float(n)], the implicit conversion of an [int] operand *)
  of_int : Z -> F;
  (** [int(x)]: truncation toward zero; [None] where Python raises *)
  to_int : F -> option Z;
  (** the float literal whose decimal value is [n / d], as in [.8] *)
  literal : Z -> positive -> F
}.

(** [min(a, b)] of two arguments: [b] when [b < a], else [a]. *)
Definition min {F} `{PyFloat F} (a b : F) : F := if flt b a then b else a.

(** [int(x)] on an exact rational: the quotient rounded toward zero. *)
Definition Qtruncate (x : Q) : Z := Z.quot (Qnum x) (Z.pos (Qden x)).

#[export] Instance PyFloat_Q : PyFloat Q := {
  fadd := Qplus;
  fsub := Qminus;
  fle := Qle_bool;
  flt := fun a b => negb (Qle_bool b a);
  of_int := inject_Z;
  to_int := fun x => Some (Qtruncate x);
  literal := Qmake
}.

(** The integer value of a finite binary64 number, truncated. *)
Definition float_to_int (x : float) : option Z :=
  match Prim2SF x with
  | S754_zero _ => Some 0
  | S754_finite s m e =>
      let a := if 0 <=? e then Z.pos m * 2 ^ e else Z.pos m / 2 ^ (- e) in
      Some (if s then - a else a)
  | S754_infinity _ | S754_nan => None
  end.

(** [float(n)]: the nearest binary64 number, ties to even. *)
Definition float_of_int (n : Z) : float :=
  SF2Prim (binary_normalize prec emax n 0 false).

#[export] Instance PyFloat_binary64 : PyFloat float := {
  fadd := PrimFloat.add;
  fsub := PrimFloat.sub;
  fle := PrimFloat.leb;
  flt := PrimFloat.ltb;
  of_int := float_of_int;
  to_int := float_to_int;
  literal := fun n d => PrimFloat.div (float_of_int n) (float_of_int (Z.pos d))
}.

End Py.

Import Py.

Declare Scope py_scope.
Delimit Scope py_scope with py.
Notation "x +. y" := (fadd x y) (at level 50, left associativity) : py_scope.
Notation "x -. y" := (fsub x y) (at level 50, left associativity) : py_scope.
Notation "x <=.? y" := (fle x y) (at level 70, no associativity) : py_scope.
Local Open Scope py_scope.

(* ================================================================== *)
(** * lib/generate_audio.py: preparing a sentence for gTTS *)
(* ================================================================== *)

Module AudioText.

Definition star : ascii := "*"%char.

Fixpoint stars (k : nat) : string :=
  match k with
  | O => EmptyString
  | S k' => String star (stars k')
  end.

(** How [re.sub] rewrites a maximal run of [k] asterisks under the pattern
    [[\*]{lo,hi}] ([hi = None] for an open upper bound): matches are taken
    greedily from the left, each replaced by [repl]; asterisks that are too
    few to match stay. *)
Fixpoint sub_run (fuel : nat) (lo : nat) (hi : option nat) (repl : string)
    (k : nat) : string :=
  match fuel with
  | O => stars k
  | S fuel' =>
      if (k <? lo)%nat then stars k
      else
        let taken := match hi with Some h => Nat.min k h | None => k end in
        repl ++ sub_run fuel' lo hi repl (k - taken)
  end.

(** The scan of [re.sub('[\*]{lo,hi}', repl, s)]; [run] counts the
    asterisks read since the last other character. *)
Fixpoint sub_scan (lo : nat) (hi : option nat) (repl : string) (s : string)
    (run : nat) : string :=
  match s with
  | EmptyString => sub_run run lo hi repl run
  | String c s' =>
      if Ascii.eqb c star then sub_scan lo hi repl s' (S run)
      else sub_run run lo hi repl run ++ String c (sub_scan lo hi repl s' 0)
  end.

Definition re_sub_stars (lo : nat) (hi : option nat) (repl : string)
    (s : string) : string :=
  sub_scan lo hi repl s 0.

(** [AudioGenerator.sanitize_sentence_for_gtts]. *)
Definition sanitize_sentence_for_gtts (censored_sentence : string) : string :=
  let beeped_sentence := re_sub_stars 2 None "beep" censored_sentence in
  re_sub_stars 1 (Some 1%nat) "" censored_sentence.

(** The sentence the docstring announces: censored words read as beep,
    single asterisks removed. *)
Definition beeped (censored_sentence : string) : string :=
  re_sub_stars 1 (Some 1%nat) "" (re_sub_stars 2 None "beep" censored_sentence).

(** The claimed result, in the claim's words: every asterisk removed and
    nothing else changed. *)
Fixpoint remove_asterisks (s : string) : string :=
  match s with
  | EmptyString => EmptyString
  | String c s' =>
      if Ascii.eqb c star then remove_asterisks s'
      else String c (remove_asterisks s')
  end.

Fixpoint count_asterisks (s : string) : nat :=
  match s with
  | EmptyString => O
  | String c s' =>
      ((if Ascii.eqb c star then 1 else 0) + count_asterisks s')%nat
  end.

(** Whether the sentence holds a censored word: two asterisks in a row. *)
Fixpoint has_censored_run (s : string) : bool :=
  match s with
  | EmptyString => false
  | String a s' =>
      match s' with
      | EmptyString => false
      | String b _ => (Ascii.eqb a star && Ascii.eqb b star) || has_censored_run s'
      end
  end.

(** How many censored words the scan finds, [run] asterisks having been
    read since the last other character. *)
Fixpoint censored_words (s : string) (run : nat) : nat :=
  match s with
  | EmptyString => if (2 <=? run)%nat then 1 else 0
  | String c s' =>
      if Ascii.eqb c star then censored_words s' (S run)
      else ((if (2 <=? run)%nat then 1 else 0) + censored_words s' 0)%nat
  end.

(** [str.replace(old, '')] for a one-character [old]. *)
Fixpoint remove_char (old : ascii) (s : string) : string :=
  match s with
  | EmptyString => EmptyString
  | String c s' =>
      if Ascii.eqb c old then remove_char old s' else String c (remove_char old s')
  end.

End AudioText.

Import AudioText.

(* ================================================================== *)
(** * moviepy clips and the world the program runs in *)
(* ================================================================== *)

Section Engine.

Context {F : Type} `{PyFloat F}.

(** [textwrap.wrap(text, width, break_long_words=False)], cosmetic only. *)
Variable wrap : string -> Z -> list string.

(** A [TextClip] with the attributes the code sets on it.  moviepy leaves
    the duration of a text clip unset until [set_duration] is called. *)
Record TextClip : Type := {
  clip_text : string;
  clip_fontsize : Z;
  clip_pos_y : Z;
  clip_start : F;
  clip_duration : option F;
  clip_audio : option string
}.

(** A video clip: the window cut out of a background file, the text clips
    composited over it, and the clip's [duration] attribute.
    [CompositeVideoClip([video, c1, ..])] appends to [overlays]. *)
Record Video : Type := {
  source : string;
  window : Z * Z;
  volume_percent : Z;
  video_duration : F;
  overlays : list TextClip
}.

Definition composite (video : Video) (clips : list TextClip) : Video :=
  {| source := source video; window := window video;
     volume_percent := volume_percent video;
     video_duration := video_duration video;
     overlays := overlays video ++ clips |}.

Definition set_duration (video : Video) (d : F) : Video :=
  {| source := source video; window := window video;
     volume_percent := volume_percent video;
     video_duration := d;
     overlays := overlays video |}.

(** The background folder: its entries, each with the duration ffmpeg
    reports when the entry is a readable video, and the text of the marker
    file when that file exists. *)
Record Folder : Type := {
  entries : list (string * option F);
  marker : option string
}.

(** What the program can observe and change: the background folder, the
    entropy behind the [random] module, the videos written so far and the
    lines printed. *)
Record World : Type := {
  folder : Folder;
  entropy : nat -> nat;
  draws : nat;
  written : list (string * Video);
  stdout : list string
}.

(** Computations that read and change the world and may raise; what was
    changed before an exception stays changed. *)
Definition M (A : Type) : Type := World -> result A * World.

Definition ret {A} (a : A) : M A := fun w => (Ok a, w).

Definition raise {A} (e : exn) : M A := fun w => (Raise e, w).

Definition mbind {A B} (c : M A) (k : A -> M B) : M B :=
  fun w => match c w with
           | (Ok a, w') => k a w'
           | (Raise e, w') => (Raise e, w')
           end.

Definition lift {A} (r : result A) : M A := fun w => (r, w).

(** [try: c  except Exception as err: handler(err)]. *)
Definition try_except (c : M unit) (handler : exn -> M unit) : M unit :=
  fun w => match c w with
           | (Ok tt, w') => (Ok tt, w')
           | (Raise e, w') => handler e w'
           end.

Notation "x <-- c ;; k" := (mbind c (fun x => k))
  (at level 61, c at next level, right associativity).
Notation "c ;;; k" := (mbind c (fun _ => k))
  (at level 61, right associativity).

(** The entropy behind the next call of the [random] module. *)
Definition next_entropy : M nat :=
  fun w => (Ok (entropy w (draws w)),
            {| folder := folder w; entropy := entropy w; draws := S (draws w);
               written := written w; stdout := stdout w |}).

Definition get_folder : M Folder := fun w => (Ok (folder w), w).

Definition put_folder (fo : Folder) : M unit :=
  fun w => (Ok tt,
            {| folder := fo; entropy := entropy w; draws := draws w;
               written := written w; stdout := stdout w |}).

Definition print (line : string) : M unit :=
  fun w => (Ok tt,
            {| folder := folder w; entropy := entropy w; draws := draws w;
               written := written w; stdout := stdout w ++ [line] |}).

(** [video.write_videofile(output_path, ...)]. *)
Definition write_videofile (video : Video) (output_path : string) : M unit :=
  fun w => (Ok tt,
            {| folder := folder w; entropy := entropy w; draws := draws w;
               written := written w ++ [(output_path, video)];
               stdout := stdout w |}).

(** [os.listdir] of the background folder. *)
Definition listdir (fo : Folder) (marker_name : string) : list string :=
  map fst (entries fo)
  ++ match marker fo with Some _ => [marker_name] | None => [] end.

(** [VideoFileClip(path)] for a path inside the background folder [dir]:
    the whole file, nothing composited over it yet. *)
Definition VideoFileClip (dir path : string) : M Video :=
  fo <-- get_folder ;;
  match find (fun entry => String.eqb (join dir (fst entry)) path)
             (entries fo) with
  | Some (_, Some d) =>
      ret {| source := path; window := (0, 0); volume_percent := 100;
             video_duration := d; overlays := [] |}
  | _ =>
      raise (IOError ("MoviePy error: failed to read the duration of file "
                      ++ path))
  end.

(** [clip.subclip(t_start, t_end)] for [0 <= t_start <= t_end]: the new
    clip lasts [t_end - t_start]. *)
Definition subclip (video : Video) (t_start t_end : Z) : Video :=
  {| source := source video; window := (t_start, t_end);
     volume_percent := volume_percent video;
     video_duration := of_int (t_end - t_start);
     overlays := overlays video |}.

Definition volumex (video : Video) (percent : Z) : Video :=
  {| source := source video; window := window video;
     volume_percent := percent;
     video_duration := video_duration video;
     overlays := overlays video |}.

(** An entry of the audio-enriched submission:
    [{'text': .., 'audio_filepath': ..}], together with the duration that
    [AudioFileClip(audio_filepath).duration] reports for the file. *)
Record AudioItem : Type := {
  text : string;
  audio_filepath : string;
  audio_duration : F
}.

(* ================================================================== *)
(** * lib/generate_video.py: class VideoGenerator *)
(* ================================================================== *)

Record VideoGenerator : Type := {
  vid_path : string;
  title_buffer : F;
  last_used_vid_filename : string
}.

(** [VideoGenerator.__init__]. *)
Definition init (videos_path : string) (title_buffer : F) : VideoGenerator :=
  {| vid_path := videos_path;
     title_buffer := title_buffer;
     last_used_vid_filename := "last_used.txt" |}.

(** The candidate list built by the first loop of [pick_random_video]. *)
Definition mp4_files (self : VideoGenerator) (fo : Folder) : list string :=
  filter (fun maybe_vid => endswith maybe_vid ".mp4")
         (listdir fo (last_used_vid_filename self)).

(** [open(join(vid_path, last_used_vid_filename), 'r').read()]. *)
Definition read_marker (fo : Folder) : result string :=
  match marker fo with
  | Some txt => Ok txt
  | None => Raise (IOError "No such file or directory")
  end.

Definition write_marker (fo : Folder) (txt : string) : Folder :=
  {| entries := entries fo; marker := Some txt |}.

Definition pick_random_video (self : VideoGenerator) : M string :=
  fo <-- get_folder ;;
  let video_files := mp4_files self fo in
  match video_files with
  | [] => raise (ValueError ("There are no .mp4 files in " ++ vid_path self))
  | _ :: _ =>
      let video_files :=
        match read_marker fo with
        | Ok txt =>
            let last_video_file_used := strip txt in
            filter (fun vid => negb (String.eqb vid last_video_file_used))
                   video_files
        | Raise _ => video_files
        end in
      e <-- next_entropy ;;
      chosen_video <-- lift (choice e video_files) ;;
      put_folder (write_marker fo chosen_video) ;;;
      ret (join (vid_path self) chosen_video)
  end.

(** The resize to the vertical format and the spatial crop leave the time
    axis alone and are not modelled; the volume multiplier .2 is kept as a
    percentage. *)
Definition crop_video_to_tiktok_format (self : VideoGenerator)
    (video_filepath : string) (subclip_length : Z) : M Video :=
  video <-- VideoFileClip (vid_path self) video_filepath ;;
  match to_int (video_duration video) with
  | None => raise (OverflowError "cannot convert float to integer")
  | Some int_duration =>
      e <-- next_entropy ;;
      random_point <--
        lift (randrange e 0 (int_duration - subclip_length) subclip_length) ;;
      let subclip := subclip video random_point (random_point + subclip_length) in
      ret (volumex subclip 20)
  end.

Definition newline : string := String (ascii_of_nat 10) EmptyString.

Fixpoint process_text_loop (i : nat) (text_list : list string) (final_text : string)
  : string :=
  match text_list with
  | [] => final_text
  | block :: rest =>
      process_text_loop (S i) rest
        (if Nat.eqb i 0 then block else final_text ++ newline ++ block)
  end.

Definition process_text (text : string) (char_count : Z) : string :=
  process_text_loop 0 (wrap text char_count) "".

Definition end_msg_default : string :=
  "Like" ++ newline ++ "&" ++ newline ++ "Follow" ++ newline ++ "for more!".

(** The local [end_msg_duration] of [add_ending_message]. *)
Definition end_msg_duration (video : Video) (lst_msg_timestamp : F) : F :=
  let video_duration := video_duration video in
  min (video_duration -. lst_msg_timestamp) (of_int 3).

Definition add_ending_message (video : Video) (lst_msg_timestamp : F)
    (end_msg : string) : Video :=
  let end_msg_duration := end_msg_duration video lst_msg_timestamp in
  let endmsg_textclip :=
    {| clip_text := end_msg; clip_fontsize := 150; clip_pos_y := 500;
       clip_start := lst_msg_timestamp; clip_duration := None;
       clip_audio := None |} in
  set_duration (composite video [endmsg_textclip])
               (lst_msg_timestamp +. end_msg_duration).

Definition write_title_to_video (self : VideoGenerator) (video : Video)
    (title_info : AudioItem) (char_count : Z) : Video * F :=
  let processed_text := process_text (text title_info) char_count in
  let title_duration := audio_duration title_info in
  let title_textclip :=
    {| clip_text := processed_text; clip_fontsize := 70; clip_pos_y := 300;
       clip_start := of_int 0;
       clip_duration := Some (title_duration +. title_buffer self);
       clip_audio := Some (audio_filepath title_info) |} in
  (set_duration (composite video [title_textclip]) (video_duration video),
   title_duration +. title_buffer self).

(** The [for text_dict in texts_list] loop of [write_multi_text_to_video]:
    its state is [current_text_offset] and [text_clips]. *)
Fixpoint text_loop (texts_list : list AudioItem) (max_vid_length : F)
    (char_count : Z) (time_offset : F)
    (current_text_offset : F) (text_clips : list TextClip) : F * list TextClip :=
  match texts_list with
  | [] => (current_text_offset, text_clips)
  | text_dict :: rest =>
      let processed_text := process_text (text text_dict) (char_count + 8) in
      let text_duration := audio_duration text_dict in
      if current_text_offset +. text_duration <=.? max_vid_length then
        let text_vidclip :=
          {| clip_text := processed_text; clip_fontsize := 60; clip_pos_y := 320;
             clip_start := current_text_offset;
             clip_duration := Some text_duration;
             clip_audio := Some (audio_filepath text_dict) |} in
        text_loop rest max_vid_length char_count time_offset
                  (current_text_offset +. (text_duration +. time_offset))
                  (text_clips ++ [text_vidclip])
      else
        text_loop rest max_vid_length char_count time_offset
                  current_text_offset text_clips
  end.

Definition write_multi_text_to_video (video : Video) (title_offset : F)
    (texts_list : list AudioItem) (max_vid_length : F) (char_count : Z)
    (time_offset : F) : Video :=
  let '(current_text_offset, text_clips) :=
    text_loop texts_list max_vid_length char_count time_offset title_offset [] in
  let video := set_duration (composite video text_clips) (video_duration video) in
  add_ending_message video current_text_offset end_msg_default.

Definition make_filename (type : string) : string :=
  "finalized_" ++ type ++ ".mp4".

(** The audio-enriched submission handed over by [AudioGenerator]; a key
    that is absent raises [KeyError] when it is read. *)
Record Submission : Type := {
  sub_title : option AudioItem;
  sub_comments : option (list AudioItem);
  sub_postbody : option (list AudioItem)
}.

Definition getitem {A} (key : string) (field : option A) : M A :=
  match field with
  | Some v => ret v
  | None => raise (KeyError key)
  end.

Definition generate_video_from_qna_submission (self : VideoGenerator)
    (submission : Submission) (output_folder : string) (char_count : Z)
    (max_vid_length : Z) : M unit :=
  background_video <-- pick_random_video self ;;
  cropped_video <-- crop_video_to_tiktok_format self background_video max_vid_length ;;
  title <-- getitem "title" (sub_title submission) ;;
  let '(title_edited_vid, title_duration) :=
    write_title_to_video self cropped_video title char_count in
  comments <-- getitem "comments" (sub_comments submission) ;;
  let final_video :=
    write_multi_text_to_video title_edited_vid title_duration comments
                              (of_int max_vid_length) char_count (literal 5 10) in
  let output_filepath := join output_folder (make_filename "qna") in
  write_videofile final_video output_filepath.

Definition generate_video_from_advice_submission (self : VideoGenerator)
    (submission : Submission) (output_folder : string) (char_count : Z)
    (max_vid_length : Z) : M unit :=
  background_video <-- pick_random_video self ;;
  cropped_video <-- crop_video_to_tiktok_format self background_video max_vid_length ;;
  title <-- getitem "title" (sub_title submission) ;;
  let '(title_edited_vid, title_duration) :=
    write_title_to_video self cropped_video title char_count in
  postbody <-- getitem "postbody" (sub_postbody submission) ;;
  let final_video :=
    write_multi_text_to_video title_edited_vid title_duration postbody
                              (of_int max_vid_length) char_count (literal 1 10) in
  let output_filepath := join output_folder (make_filename "advice") in
  write_videofile final_video output_filepath.

(* ================================================================== *)
(** * lib/generate_audio.py: class AudioGenerator *)
(* ================================================================== *)

(** What [generate_audio_and_save] leaves on disk for a sanitized text: the
    duration of the recording that gTTS and ffmpeg produce, or the exception
    they raise.  The function is modelled as returning the dictionary entry
    its callers build from the path it returns; the folders of
    [create_audio_folder_struct] are taken to be creatable.  The audio
    folders and the mp3 files it creates and deletes are outside [World],
    which holds the background folder, the random generator, the written
    videos and the console: nothing is stated here about the audio files on
    disk. *)
Variable recording : string -> result F.

(** A post of the content JSON.  Keys may be missing. *)
Record Comment : Type := {
  comment : string;
  comment_score : Z
}.

Record Post : Type := {
  post_title : option string;
  post_body : option string;
  post_comments : option (list Comment)
}.

Definition generate_audio_and_save (text : string) (output_filepath : string)
    (filename : string) : M AudioItem :=
  let audio_filepath := join output_filepath filename in
  let sanitized_text := sanitize_sentence_for_gtts text in
  d <-- lift (recording sanitized_text) ;;
  ret {| text := text; audio_filepath := audio_filepath; audio_duration := d |}.

(** [split_post_body_into_text_list].  lib/generate_audio.py imports
    [typing], [join], [Path], [re], [gTTS] and the names of
    [moviepy.editor]; [textwrap.wrap] is not among them (it is imported in
    lib/generate_video.py only), so the call of [wrap] fails when the name
    is looked up, after the line breaks were removed. *)
Definition split_post_body_into_text_list (postbody : string) (char_in_chunk : Z)
  : result (list string) :=
  let postbody := remove_char (ascii_of_nat 10) (remove_char (ascii_of_nat 13) postbody) in
  Raise (NameError "wrap").

Fixpoint postbody_loop (postbody_dir : string) (i : nat) (chunks : list string)
    (postbody_audio_list : list AudioItem) : M (list AudioItem) :=
  match chunks with
  | [] => ret postbody_audio_list
  | chunk :: rest =>
      item <-- generate_audio_and_save chunk postbody_dir
                 ("postbody_" ++ str_of_nat i ++ ".mp3") ;;
      postbody_loop postbody_dir (S i) rest (postbody_audio_list ++ [item])
  end.

Definition generate_audio_from_advice_submission (base_output_path : string)
    (submission : Post) : M Submission :=
  submission_title <-- getitem "title" (post_title submission) ;;
  submission_body <-- getitem "postbody" (post_body submission) ;;
  let audio_dir := join base_output_path "audio" in
  let postbody_dir := join audio_dir "postbody" in
  title <-- generate_audio_and_save submission_title audio_dir "title.mp3" ;;
  postbody_list <-- lift (split_post_body_into_text_list submission_body 300) ;;
  postbody_audio_list <-- postbody_loop postbody_dir 0 postbody_list [] ;;
  ret {| sub_title := Some title; sub_comments := None;
         sub_postbody := Some postbody_audio_list |}.

Fixpoint comment_loop (comments_dir : string) (i : nat) (comments : list Comment)
    (comment_audio_list : list AudioItem) : M (list AudioItem) :=
  match comments with
  | [] => ret comment_audio_list
  | comment_dict :: rest =>
      if String.eqb (comment comment_dict) "" then
        comment_loop comments_dir (S i) rest comment_audio_list
      else
        item <-- generate_audio_and_save (comment comment_dict) comments_dir
                   ("comment_" ++ str_of_nat i ++ ".mp3") ;;
        comment_loop comments_dir (S i) rest (comment_audio_list ++ [item])
  end.

Definition generate_audio_from_qna_submission (base_output_path : string)
    (submission : Post) : M Submission :=
  submission_title <-- getitem "title" (post_title submission) ;;
  comments <-- getitem "comments" (post_comments submission) ;;
  let audio_dir := join base_output_path "audio" in
  let comments_dir := join audio_dir "comments" in
  title <-- generate_audio_and_save submission_title audio_dir "title.mp3" ;;
  comment_audio_list <-- comment_loop comments_dir 0 comments [] ;;
  ret {| sub_title := Some title; sub_comments := Some comment_audio_list;
         sub_postbody := None |}.

(* ================================================================== *)
(** * create_qna_tiktok.py and create_advice_tiktok.py *)
(* ================================================================== *)

(** The parsed command line. *)
Record Namespace : Type := {
  reddit_json : string;
  background_folder : string;
  output_folder : string;
  char_count : Z;
  max_vid_length : Z
}.

(** The fields of [datetime.now()] that name the output folders. *)
Record DateTime : Type := {
  day : nat; month : nat; year : nat; hour : nat; minute : nat
}.

Definition folder_name (kind : string) (now : DateTime) (i : nat) : string :=
  kind ++ "_" ++ str_of_nat (day now) ++ str_of_nat (month now)
       ++ str_of_nat (year now) ++ "_" ++ str_of_nat (hour now)
       ++ str_of_nat (minute now) ++ "_" ++ str_of_nat i.

(** The body of [for i, qna_post in enumerate(qna_contents)]. *)
Definition qna_step (args : Namespace) (now : DateTime) (video_gen : VideoGenerator)
    (i : nat) (qna_post : Post) : M unit :=
  let output_folder := join (output_folder args) (folder_name "qna" now i) in
  audio_info <-- generate_audio_from_qna_submission output_folder qna_post ;;
  generate_video_from_qna_submission video_gen audio_info output_folder
    (char_count args) (max_vid_length args) ;;;
  print ("Successfully Generated QnA Video for " ++ str_of_nat (i + 1) ++ " QnA post.").

Fixpoint qna_loop (args : Namespace) (now : DateTime) (video_gen : VideoGenerator)
    (i : nat) (qna_contents : list Post) : M unit :=
  match qna_contents with
  | [] => ret tt
  | qna_post :: rest =>
      qna_step args now video_gen i qna_post ;;;
      qna_loop args now video_gen (S i) rest
  end.

(** The [except Exception as err] block shared by the scripts. *)
Definition report (err : exn) : M unit :=
  print "---------------------------------------------------" ;;;
  print "Exception was raised during the execution of script" ;;;
  print ("Err Type: " ++ type_name err) ;;;
  print ("Err Msg: " ++ message err) ;;;
  print "---------------------------------------------------".

(** [generate_qna_tiktok_video(args)]; [now] is the clock reading and
    [json_file] what opening and parsing [args.reddit_json] yields. *)
Definition generate_qna_tiktok_video (args : Namespace) (now : DateTime)
    (json_file : result (list Post)) : M unit :=
  try_except
    (let video_gen := init (background_folder args) (literal 8 10) in
     qna_contents <-- lift json_file ;;
     qna_loop args now video_gen 0 qna_contents)
    report.

(** The body of [for i, advice_post in enumerate(advice_contents)]. *)
Definition advice_step (args : Namespace) (now : DateTime) (video_gen : VideoGenerator)
    (i : nat) (advice_post : Post) : M unit :=
  let output_folder := join (output_folder args) (folder_name "advice" now i) in
  audio_info <-- generate_audio_from_advice_submission output_folder advice_post ;;
  generate_video_from_advice_submission video_gen audio_info output_folder
    (char_count args) (max_vid_length args) ;;;
  print ("Successfully Generated Advice Video for " ++ str_of_nat (i + 1) ++ " post.").

Fixpoint advice_loop (args : Namespace) (now : DateTime) (video_gen : VideoGenerator)
    (i : nat) (advice_contents : list Post) : M unit :=
  match advice_contents with
  | [] => ret tt
  | advice_post :: rest =>
      advice_step args now video_gen i advice_post ;;;
      advice_loop args now video_gen (S i) rest
  end.

Definition generate_advice_tiktok_video (args : Namespace) (now : DateTime)
    (json_file : result (list Post)) : M unit :=
  try_except
    (let video_gen := init (background_folder args) (literal 8 10) in
     advice_contents <-- lift json_file ;;
     advice_loop args now video_gen 0 advice_contents)
    report.

End Engine.

Arguments TextClip F : clear implicits.
Arguments Video F : clear implicits.
Arguments Folder F : clear implicits.
Arguments World F : clear implicits.
Arguments M F A : clear implicits.
Arguments AudioItem F : clear implicits.
Arguments VideoGenerator F : clear implicits.
Arguments Submission F : clear implicits.

(* ================================================================== *)
(** * lib/generate_reddit_content.py and process_reddit_posts.py *)
(* ================================================================== *)

Module Reddit.

(** A top-level comment and a submission as PRAW hands them over.  The
    comments of a submission depend on the comment sort that was set and on
    the threshold given to [replace_more]. *)
Record RedditComment : Type := {
  body : string;
  score : Z
}.

Record RedditSubmission : Type := {
  title : string;
  selftext : string;
  comments : string -> Z -> list RedditComment
}.

(** What a call can raise here: [TypeError] from the binding of arguments,
    or one of the exceptions of the run time. *)
Inductive error : Type :=
| TypeError (msg : string)
| Exception (e : Py.exn).

Definition type_name (e : error) : string :=
  match e with
  | TypeError _ => "<class 'TypeError'>"
  | Exception e' => Py.type_name e'
  end.

Definition message (e : error) : string :=
  match e with
  | TypeError m => m
  | Exception e' => Py.message e'
  end.

Inductive outcome (A : Type) : Type :=
| Done (a : A)
| Failed (e : error).

Arguments Done {A} a.
Arguments Failed {A} e.

(** ** Calls with keyword arguments *)

Inductive value : Type :=
| VStr (s : string)
| VInt (z : Z).

(** The first keyword of a call that names no parameter of the function. *)
Fixpoint unexpected_keyword (params : list string) (keywords : list (string * value))
  : option string :=
  match keywords with
  | [] => None
  | (k, _) :: rest =>
      if existsb (String.eqb k) params then unexpected_keyword params rest
      else Some k
  end.

(** The value bound to a parameter: the keyword argument, else the default. *)
Definition str_arg (name default : string) (keywords : list (string * value))
  : string :=
  match find (fun kv => String.eqb (fst kv) name) keywords with
  | Some (_, VStr s) => s
  | _ => default
  end.

Definition int_arg (name : string) (default : Z) (keywords : list (string * value))
  : Z :=
  match find (fun kv => String.eqb (fst kv) name) keywords with
  | Some (_, VInt z) => z
  | _ => default
  end.

Section ContentGenerator.

(** [profanity.censor]. *)
Variable censor : string -> string.

(** [self.client.subreddit(sub_name).top(limit=.., time_filter=..)]: the
    answer of the Reddit API. *)
Variable top : string -> Z -> string -> list RedditSubmission.

(** The [for submission in subreddit.top(..)] loop of
    [get_top_advice_posts]. *)
Fixpoint advice_posts_loop (submissions : list RedditSubmission)
    (top_posts : list Post) : list Post :=
  match submissions with
  | [] => top_posts
  | submission :: rest =>
      let post_title := title submission in
      let post_selftext := selftext submission in
      advice_posts_loop rest
        (top_posts ++ [{| post_title := Some post_title;
                          post_body := Some post_selftext;
                          post_comments := None |}])
  end.

Definition get_top_advice_posts (sub_name : string) (post_limit : Z)
    (time_filter : string) : list Post :=
  advice_posts_loop (top sub_name post_limit time_filter) [].

(** The [for top_level_comment in submission.comments] loop; [len] counts
    the characters of the body. *)
Fixpoint comments_loop (top_level : list RedditComment)
    (comment_score_limit comment_char_limit : Z) (comments : list Comment)
  : list Comment :=
  match top_level with
  | [] => comments
  | top_level_comment :: rest =>
      if (comment_score_limit <? score top_level_comment)
         && (Z.of_nat (String.length (body top_level_comment)) <=? comment_char_limit)
      then
        comments_loop rest comment_score_limit comment_char_limit
          (comments ++ [{| comment := censor (body top_level_comment);
                           comment_score := score top_level_comment |}])
      else comments_loop rest comment_score_limit comment_char_limit comments
  end.

Fixpoint qna_posts_loop (submissions : list RedditSubmission)
    (comment_score_limit comment_char_limit comment_reply_threshold : Z)
    (comment_sort : string) (top_posts : list Post) : list Post :=
  match submissions with
  | [] => top_posts
  | submission :: rest =>
      let post_title := title submission in
      let comments :=
        comments_loop (comments submission comment_sort comment_reply_threshold)
                      comment_score_limit comment_char_limit [] in
      qna_posts_loop rest comment_score_limit comment_char_limit
        comment_reply_threshold comment_sort
        (top_posts ++ [{| post_title := Some post_title;
                          post_body := None;
                          post_comments := Some comments |}])
  end.

Definition get_top_qna_posts (sub_name : string) (post_limit : Z)
    (time_filter : string) (comment_score_limit comment_char_limit : Z)
    (comment_reply_threshold : Z) (comment_sort : string) : list Post :=
  qna_posts_loop (top sub_name post_limit time_filter) comment_score_limit
    comment_char_limit comment_reply_threshold comment_sort [].

(** The parameters of the two methods, after [self], and the methods called
    with keyword arguments: a keyword that names no parameter raises
    [TypeError], a parameter without keyword takes its default. *)
Definition get_top_advice_posts_params : list string :=
  ["sub_name"; "post_limit"; "time_filter"].

Definition get_top_qna_posts_params : list string :=
  ["sub_name"; "post_limit"; "time_filter"; "comment_score_limit";
   "comment_char_limit"; "comment_reply_threshold"; "comment_sort"].

Definition unexpected (fname k : string) : error :=
  TypeError (fname ++ "() got an unexpected keyword argument '" ++ k ++ "'").

Definition call_get_top_advice_posts (keywords : list (string * value))
  : outcome (list Post) :=
  match unexpected_keyword get_top_advice_posts_params keywords with
  | Some k => Failed (unexpected "get_top_advice_posts" k)
  | None =>
      Done (get_top_advice_posts (str_arg "sub_name" "AmItheAsshole" keywords)
                                 (int_arg "post_limit" 1 keywords)
                                 (str_arg "time_filter" "day" keywords))
  end.

Definition call_get_top_qna_posts (keywords : list (string * value))
  : outcome (list Post) :=
  match unexpected_keyword get_top_qna_posts_params keywords with
  | Some k => Failed (unexpected "get_top_qna_posts" k)
  | None =>
      Done (get_top_qna_posts (str_arg "sub_name" "askreddit" keywords)
                              (int_arg "post_limit" 1 keywords)
                              (str_arg "time_filter" "day" keywords)
                              (int_arg "comment_score_limit" 1000 keywords)
                              (int_arg "comment_char_limit" 250 keywords)
                              (int_arg "comment_reply_threshold" 50 keywords)
                              (str_arg "comment_sort" "confidence" keywords))
  end.

(** ** process_reddit_posts.py *)

(** The parsed command line of the script. *)
Record Namespace : Type := {
  credential_json : string;
  output_folder : string;
  subreddit : string;
  subreddit_type : string;
  post_limit : Z;
  time_filter : string;
  comment_score_min : Z;
  comment_char_limit : Z;
  comment_sort : string
}.

(** What the script leaves behind: the JSON files it wrote, in order, and
    the lines it printed. *)
Record Disk : Type := {
  json_files : list (string * list Post);
  console : list string
}.

(** [with open(path, 'w') as f: json.dump(content, f)]; [writable] tells
    whether the path can be opened for writing. *)
Definition dump (writable : string -> bool) (path : string) (content : list Post)
    (disk : Disk) : outcome Disk :=
  if writable path then
    Done {| json_files := json_files disk ++ [(path, content)];
            console := console disk |}
  else Failed (Exception (IOError "No such file or directory")).

Definition echo (line : string) (disk : Disk) : Disk :=
  {| json_files := json_files disk; console := console disk ++ [line] |}.

(** The body of the [try] block; [credentials] is what reading the
    credential file and building the client yields. *)
Definition generate_reddit_json_body (args : Namespace) (credentials : outcome unit)
    (writable : string -> bool) (disk : Disk) : outcome Disk :=
  match credentials with
  | Failed e => Failed e
  | Done _ =>
      let written :=
        if String.eqb (subreddit_type args) "qna" then
          let output_filepath := "reddit_qna_content.json" in
          let output_filepath :=
            if String.eqb (output_folder args) "" then output_filepath
            else join (output_folder args) "reddit_qna_content.json" in
          match call_get_top_qna_posts
                  [("sub_name", VStr (subreddit args));
                   ("post_limit", VInt (post_limit args));
                   ("time_filter", VStr (time_filter args));
                   ("comment_score_min", VInt (comment_score_min args));
                   ("comment_char_limit", VInt (comment_char_limit args));
                   ("comment_sort", VStr (comment_sort args))] with
          | Failed e => Failed e
          | Done qna_content => dump writable output_filepath qna_content disk
          end
        else if String.eqb (subreddit_type args) "advice" then
          let output_filepath := "reddit_advice_content.json" in
          let output_filepath :=
            if String.eqb (output_folder args) "" then output_filepath
            else join (output_folder args) "reddit_qna_content.json" in
          match call_get_top_advice_posts
                  [("sub_name", VStr (subreddit args));
                   ("post_limit", VInt (post_limit args));
                   ("time_filter", VStr (time_filter args))] with
          | Failed e => Failed e
          | Done advice_content => dump writable output_filepath advice_content disk
          end
        else Done disk in
      match written with
      | Failed e => Failed e
      | Done disk' =>
          Done (echo ("Successfully generated reddit content JSON as chosen "
                      ++ "output folder, please review to finalize text.") disk')
      end
  end.

Definition generate_reddit_json (args : Namespace) (credentials : outcome unit)
    (writable : string -> bool) (disk : Disk) : Disk :=
  match generate_reddit_json_body args credentials writable disk with
  | Done disk' => disk'
  | Failed err =>
      echo "---------------------------------------------------"
        (echo ("Err Msg: " ++ message err)
           (echo ("Err Type: " ++ type_name err)
              (echo "Exception was raised during the execution of script"
                 (echo "---------------------------------------------------" disk))))
  end.

End ContentGenerator.

End Reddit.

(* ================================================================== *)
(** * Vocabulary of the properties *)
(* ================================================================== *)

Section Vocabulary.

Context {F : Type} `{PyFloat F}.

(** The time axis of a video: start and duration of every overlay, in
    order, and the duration of the whole. *)
Definition timeline (v : Video F) : list (F * option F) * F :=
  (map (fun c => (clip_start c, clip_duration c)) (overlays v), video_duration v).

Definition last_clip (clips : list (TextClip F)) : option (TextClip F) :=
  List.last (map (@Some _) clips) None.

(** Where the cursor stands once [clips] have been admitted: behind the
    last of them and the gap that follows it, or at the end of the title. *)
Definition cursor_after (title_offset time_offset : F) (clips : list (TextClip F)) : F :=
  match last_clip clips with
  | Some c =>
      match clip_duration c with
      | Some d => clip_start c +. (d +. time_offset)
      | None => clip_start c
      end
  | None => title_offset
  end.

(** The planning part of both [generate_video_from_*_submission]: the
    title, the body and the closing card laid over a cropped background. *)
Definition plan (wrap : string -> Z -> list string) (self : VideoGenerator F)
    (cropped_video : Video F) (title : AudioItem F) (texts_list : list (AudioItem F))
    (max_vid_length : Z) (char_count : Z) (time_offset : F) : Video F :=
  let '(title_edited_vid, title_duration) :=
    write_title_to_video wrap self cropped_video title char_count in
  write_multi_text_to_video wrap title_edited_vid title_duration texts_list
                            (of_int max_vid_length) char_count time_offset.

(** A background as [crop_video_to_tiktok_format] returns it: a window of
    [length] seconds, volume lowered, nothing composited over it yet. *)
Definition background (path : string) (window : Z * Z) (length : Z) : Video F :=
  {| source := path; window := window; volume_percent := 20;
     video_duration := of_int length; overlays := [] |}.

(** The candidates of [pick_random_video] once the marker has been read. *)
Definition candidates (self : VideoGenerator F) (fo : Folder F) : list string :=
  match read_marker fo with
  | Ok txt => filter (fun vid => negb (String.eqb vid (strip txt))) (mp4_files self fo)
  | Raise _ => mp4_files self fo
  end.

(** A computation that leaves the written videos as they are, whatever
    its outcome. *)
Definition keeps_written {A} (c : M F A) : Prop :=
  forall w, written (snd (c w)) = written w.

(** A computation that has written nothing when it raises. *)
Definition raises_clean {A} (c : M F A) : Prop :=
  forall w e w', c w = (Raise e, w') -> written w' = written w.

(** The world after the [except] block has printed its report. *)
Definition reported (err : exn) (w : World F) : World F :=
  {| folder := folder w; entropy := entropy w; draws := draws w;
     written := written w;
     stdout := stdout w
               ++ ["---------------------------------------------------";
                   "Exception was raised during the execution of script";
                   ("Err Type: " ++ type_name err)%string;
                   ("Err Msg: " ++ message err)%string;
                   "---------------------------------------------------"] |}.

(** A silent item of a given duration, for the examples. *)
Definition item (name : string) (d : F) : AudioItem F :=
  {| text := name; audio_filepath := name ++ ".mp3"; audio_duration := d |}.

(** One line per block, for the examples: the text is not wrapped. *)
Definition no_wrap (text : string) (width : Z) : list string := [text].

(** ** The worked example *)

Definition example_segments : list (AudioItem F) :=
  [item "comment_0" (of_int 10); item "comment_1" (of_int 10);
   item "comment_2" (of_int 10)].

(** title.duration = 5, lead-in 0.8, three segments of 10 s, max_length 30,
    gap 0.5, over any background window of 30 s. *)
Definition example_plan (wrap : string -> Z -> list string) (path : string)
    (window : Z * Z) (cc : Z) : Video F :=
  plan wrap (init "videos" (literal 8 10)) (background path window 30)
       (item "title" (of_int 5)) example_segments 30 cc (literal 5 10).

(** The state of the segment loop when it ends. *)
Definition example_loop (wrap : string -> Z -> list string) (cc : Z)
  : F * list (TextClip F) :=
  text_loop wrap example_segments (of_int 30) cc (literal 5 10)
            (of_int 5 +. literal 8 10) [].

(** Where each overlay that has a duration ends. *)
Definition overlay_ends (v : Video F) : list F :=
  flat_map (fun c => match clip_duration c with
                     | Some d => [clip_start c +. d]
                     | None => []
                     end) (overlays v).

(** ** A batch for the examples *)

Definition example_args : Namespace :=
  {| reddit_json := "reddit_content.json"; background_folder := "videos";
     output_folder := "output"; char_count := 30; max_vid_length := 90 |}.

Definition example_now : DateTime :=
  {| day := 3; month := 11; year := 2026; hour := 9; minute := 5 |}.

(** A post without its title, and a complete one. *)
Definition untitled_post : Post :=
  {| post_title := None; post_body := Some "No title was given.";
     post_comments := Some [] |}.

Definition complete_post : Post :=
  {| post_title := Some "What is the best advice you got?";
     post_body := Some "I keep hearing the same thing.";
     post_comments := Some [{| comment := "Sleep on it."; comment_score := 1500 |};
                            {| comment := "Ask twice."; comment_score := 1200 |}] |}.

End Vocabulary.

(** A recording that lasts a tenth of a second per character. *)
Definition example_recording (sanitized_text : string) : result Q :=
  Ok (Z.of_nat (String.length sanitized_text) # 10).

(** Two backgrounds, no marker yet, nothing written or printed. *)
Definition example_world : World Q :=
  {| folder := {| entries := [("a.mp4", Some 200%Q); ("b.mp4", Some 300%Q)];
                  marker := None |};
     entropy := fun i => (2 * i + 1)%nat; draws := 0;
     written := []; stdout := [] |}.

(** Exact rationals in lowest terms, to compare computed time axes. *)
Definition Qtimeline (v : Video Q) : list (Q * option Q) * Q :=
  (map (fun p => (Qred (fst p), option_map Qred (snd p))) (fst (timeline v)),
   Qred (snd (timeline v))).

(** ** Further vocabulary *)

(** [small] is obtained from [big] by dropping elements, the order of the
    others being kept. *)
Inductive subseq {A : Type} : list A -> list A -> Prop :=
| subseq_nil : subseq [] []
| subseq_drop (x : A) (small big : list A) :
    subseq small big -> subseq small (x :: big)
| subseq_keep (x : A) (small big : list A) :
    subseq small big -> subseq (x :: small) (x :: big).

Section FurtherVocabulary.

Context {F : Type} `{PyFloat F}.

(** Clips that follow one another from [cursor]: each has a duration and
    starts where the one before it and the gap behind it ended. *)
Fixpoint chained (time_offset cursor : F) (clips : list (TextClip F)) : Prop :=
  match clips with
  | [] => True
  | c :: rest =>
      clip_start c = cursor
      /\ exists d, clip_duration c = Some d
                   /\ chained time_offset (cursor +. (d +. time_offset)) rest
  end.

(** What is shown and heard for an item, whatever its place on the time
    axis: wrapped text, duration, audio file. *)
Definition clip_content (c : TextClip F) : string * option F * option string :=
  (clip_text c, clip_duration c, clip_audio c).

Definition item_content (wrap : string -> Z -> list string) (char_count : Z)
    (t : AudioItem F) : string * option F * option string :=
  (process_text wrap (text t) (char_count + 8), Some (audio_duration t),
   Some (audio_filepath t)).

(** The comparisons of the loop when nothing is rejected: each item is
    tested at the cursor that the items before it and the gaps behind them
    leave, with the sums and the association of the code. *)
Fixpoint all_fit (texts : list (AudioItem F)) (max time_offset cursor : F) : bool :=
  match texts with
  | [] => true
  | t :: rest =>
      (cursor +. audio_duration t <=.? max)
      && all_fit rest max time_offset (cursor +. (audio_duration t +. time_offset))
  end.

(** The cursor behind the items when all of them are played. *)
Definition cursor_behind (texts : list (AudioItem F)) (time_offset cursor : F) : F :=
  fold_left (fun c t => c +. (audio_duration t +. time_offset)) texts cursor.

(** A computation that prints nothing, whatever its outcome. *)
Definition quiet {A} (c : M F A) : Prop :=
  forall w, stdout (snd (c w)) = stdout w.

(** Where the scripts put the video of the post at index [i], and what they
    print for it. *)
Definition qna_video_path (args : Namespace) (now : DateTime) (i : nat) : string :=
  join (join (output_folder args) (folder_name "qna" now i)) (make_filename "qna").

Definition qna_success_line (i : nat) : string :=
  "Successfully Generated QnA Video for " ++ str_of_nat (i + 1) ++ " QnA post.".

(** The audio item of the comment at position [i] of the post, for a
    recording that lasts [dur] of the sanitized text. *)
Definition comment_item (dur : string -> F) (comments_dir : string)
    (indexed : nat * Comment) : AudioItem F :=
  {| text := comment (snd indexed);
     audio_filepath :=
       join comments_dir ("comment_" ++ str_of_nat (fst indexed) ++ ".mp3");
     audio_duration := dur (sanitize_sentence_for_gtts (comment (snd indexed))) |}.

(** The elements of a list with their positions, counted from [i]. *)
Definition indexed_from {A} (i : nat) (l : list A) : list (nat * A) :=
  combine (seq i (List.length l)) l.

End FurtherVocabulary.

(** Time spans that do not overlap: from [t] on, each clip starts no
    earlier than the one before it ended. *)
Fixpoint sequential (t : Q) (clips : list (TextClip Q)) : Prop :=
  match clips with
  | [] => True
  | c :: rest =>
      (t <= clip_start c)%Q
      /\ sequential (match clip_duration c with
                     | Some d => (clip_start c + d)%Q
                     | None => clip_start c
                     end) rest
  end.


(* ================================================================== *)
(** * The segment loop and the closing card *)
(* ================================================================== *)

Section PlannerFacts.

Context {F : Type} `{PyFloat F}.
Variable wrap : string -> Z -> list string.

Lemma last_clip_snoc (clips : list (TextClip F)) c :
  last_clip (clips ++ [c]) = Some c.
Proof.
  unfold last_clip. rewrite map_app. simpl. apply last_last.
Qed.

(** The loop only appends to the clips it was given, and the cursor it
    returns stands behind the last admitted clip. *)
Lemma text_loop_invariant texts max cc gap title_offset :
  forall cur clips,
    cur = cursor_after title_offset gap clips ->
    Forall (fun c => clip_duration c <> None) clips ->
    let r := text_loop wrap texts max cc gap cur clips in
    fst r = cursor_after title_offset gap (snd r)
    /\ (exists admitted, snd r = clips ++ admitted)
    /\ Forall (fun c => clip_duration c <> None) (snd r).
Proof.
  induction texts as [|t rest IH]; intros cur clips Hcur Hall; simpl.
  - split; [assumption|]. split; [exists []; now rewrite app_nil_r | assumption].
  - destruct (cur +. audio_duration t <=.? max).
    + edestruct IH as (Hc & (adm & Ha) & Hf); cycle 2.
      * split; [exact Hc|]. split; [| exact Hf].
        eexists. rewrite Ha, <- app_assoc. reflexivity.
      * unfold cursor_after. rewrite last_clip_snoc. reflexivity.
      * apply Forall_app. split; [assumption|]. constructor; [discriminate | constructor].
    + apply IH; assumption.
Qed.

Lemma text_loop_cursor texts max cc gap title_offset :
  fst (text_loop wrap texts max cc gap title_offset [])
  = cursor_after title_offset gap (snd (text_loop wrap texts max cc gap title_offset [])).
Proof.
  apply (@text_loop_invariant texts max cc gap title_offset title_offset []).
  - reflexivity.
  - constructor.
Qed.

(** A rejected item leaves cursor and clips as they were: the loop goes on
    with the next item. *)
Lemma text_loop_rejected t rest max cc gap cur clips :
  (cur +. audio_duration t <=.? max) = false ->
  text_loop wrap (t :: rest) max cc gap cur clips
  = text_loop wrap rest max cc gap cur clips.
Proof. intros Hrej. simpl. rewrite Hrej. reflexivity. Qed.

Lemma write_multi_duration video title_offset texts max cc gap :
  video_duration (write_multi_text_to_video wrap video title_offset texts max cc gap)
  = let cursor := fst (text_loop wrap texts max cc gap title_offset []) in
    cursor +. min (video_duration video -. cursor) (of_int 3).
Proof.
  unfold write_multi_text_to_video.
  destruct (text_loop wrap texts max cc gap title_offset []) as [cur clips].
  reflexivity.
Qed.

Lemma write_multi_overlays video title_offset texts max cc gap :
  overlays (write_multi_text_to_video wrap video title_offset texts max cc gap)
  = let r := text_loop wrap texts max cc gap title_offset [] in
    overlays video ++ snd r
    ++ [{| clip_text := end_msg_default; clip_fontsize := 150; clip_pos_y := 500;
           clip_start := fst r; clip_duration := None; clip_audio := None |}].
Proof.
  unfold write_multi_text_to_video.
  destruct (text_loop wrap texts max cc gap title_offset []) as [cur clips].
  simpl. rewrite <- app_assoc. reflexivity.
Qed.

End PlannerFacts.

(** ** Order on the rationals, from the boolean tests of the code *)

Lemma Qle_bool_false (a b : Q) : Qle_bool a b = false -> (b < a)%Q.
Proof.
  intros Hf. apply Qnot_le_lt. intros Hle.
  apply Qle_bool_iff in Hle. congruence.
Qed.

Lemma Qmin_cases (a b : Q) :
  (a <= b /\ Py.min a b = a)%Q \/ (b < a /\ Py.min a b = b)%Q.
Proof.
  unfold Py.min; simpl.
  destruct (Qle_bool a b) eqn:E; simpl.
  - left. split; [now apply Qle_bool_iff | reflexivity].
  - right. split; [now apply Qle_bool_false | reflexivity].
Qed.

Local Open Scope Q_scope.

(** ** Segment admission *)

(** C1.  The segment loop has no early termination.  With the title ending
    at 5.8 s, a budget of 30 s and a gap of 0.5 s, the items of 10 s, 30 s
    and 10 s are treated as follows: the first is admitted at 5.8, the
    second fails the budget check at cursor 16.3, and the third, which is
    later and shorter, is still admitted at 16.3.  The result differs from
    the one obtained when the list stops at the rejected item. *)
Theorem C1_later_segment_admitted_after_rejection :
  let texts := [item "first" 10; item "long" 30; item "short" 10] in
  let title_offset := 5 +. literal 8 10 in
  let r := text_loop no_wrap texts 30 30%Z (literal 5 10) title_offset [] in
  ((163 # 10) +. 30 <=.? 30) = false
  /\ map (@clip_audio Q) (snd r) = [Some "first.mp3"; Some "short.mp3"]%string
  /\ map (fun c => Qred (clip_start c)) (snd r) = [29 # 5; 163 # 10]
  /\ snd r <> snd (text_loop no_wrap (firstn 2 texts) 30 30%Z (literal 5 10)
                              title_offset []).
Proof.
  cbv zeta. split; [reflexivity|]. split; [reflexivity|]. split; [reflexivity|].
  vm_compute. discriminate.
Qed.

(** ** The closing card *)

(** C3 (as amended).  The closing card is always emitted, as the last
    overlay; it starts exactly at the cursor, which stands behind the last
    admitted segment and its gap, or at the end of the title when nothing
    was admitted; its duration is min(max_length - closing_start, 3) and
    the video ends at closing_start plus that duration.  The duration is
    not clamped: it is non-negative exactly when the cursor has not passed
    max_length, and negative otherwise. *)
Theorem C3_closing_card (wrap : string -> Z -> list string) (video : Video Q)
    (title_offset : Q) (texts : list (AudioItem Q)) (max_length : Q) (cc : Z)
    (gap : Q) :
  video_duration video = max_length ->
  let r := text_loop wrap texts max_length cc gap title_offset [] in
  let cursor := fst r in
  let final := write_multi_text_to_video wrap video title_offset texts max_length cc gap in
  exists closing,
    overlays final = overlays video ++ snd r ++ [closing]
    /\ clip_start closing = cursor
    /\ cursor = cursor_after title_offset gap (snd r)
    /\ end_msg_duration video cursor = Py.min (max_length - cursor) 3
    /\ video_duration final = cursor + end_msg_duration video cursor
    /\ (0 <= end_msg_duration video cursor <-> cursor <= max_length)
    /\ (end_msg_duration video cursor < 0 <-> max_length < cursor).
Proof.
  intros Hdur r cursor final.
  eexists. split; [apply write_multi_overlays|].
  split; [reflexivity|].
  split; [apply text_loop_cursor|].
  assert (Hend : end_msg_duration video cursor = Py.min (max_length - cursor) 3).
  { unfold end_msg_duration. rewrite Hdur. reflexivity. }
  split; [exact Hend|].
  split.
  { unfold final. rewrite write_multi_duration. cbv zeta. rewrite Hdur.
    fold r. fold cursor. rewrite Hend. reflexivity. }
  rewrite Hend.
  destruct (Qmin_cases (max_length - cursor) 3) as [[Hle ->]|[Hlt ->]];
    split; split; intros; lra.
Qed.

Lemma C3_closing_card_witness :
  let video := background "clip.mp4" (0, 30)%Z 30 in
  video_duration video = 30
  /\ exists closing : TextClip Q,
       overlays (write_multi_text_to_video no_wrap video (58 # 10)
                   [item "a" 10; item "b" 10; item "c" 10] 30 30%Z (5 # 10))
       = overlays video
         ++ snd (text_loop no_wrap [item "a" 10; item "b" 10; item "c" 10]
                           30 30%Z (5 # 10) (58 # 10) [])
         ++ [closing].
Proof.
  intros video.
  assert (Hdur : video_duration video = 30) by reflexivity.
  split; [exact Hdur|].
  destruct (@C3_closing_card no_wrap video (58 # 10)
              [item "a" 10; item "b" 10; item "c" 10] 30 30%Z (5 # 10) Hdur)
    as (closing & Hov & _).
  exists closing. exact Hov.
Defined.

(** C3, the claim as stated fails: the duration of the closing card can be
    negative.  A title of 5 s with its 0.8 s lead-in under a budget of 5 s
    puts the cursor at 5.8; the closing card is emitted with start 5.8 and
    duration min(5 - 5.8, 3) = -0.8, and the video ends at 5, before the
    card starts. *)
Lemma C3_closing_duration_negative :
  let self := init "videos" (literal 8 10) in
  let cropped := background "videos/clip.mp4" (0, 5)%Z 5 in
  let title := item "title" 5 in
  let final := plan no_wrap self cropped title [] 5 30 (literal 5 10) in
  exists closing,
    last_clip (overlays final) = Some closing
    /\ Qred (clip_start closing) = 29 # 5
    /\ Qred (end_msg_duration cropped (clip_start closing)) = - (4 # 5)
    /\ end_msg_duration cropped (clip_start closing) < 0
    /\ Qred (video_duration final) = 5
    /\ ~ (0 <= video_duration final - clip_start closing).
Proof.
  cbv zeta. eexists. split; [vm_compute; reflexivity|].
  repeat split; try (vm_compute; congruence).
Qed.

(** ** The total duration *)

(** C8.  The assembled video never lasts longer than max_length.  It lasts
    exactly max_length when the admitted content and a full closing card of
    3 s reach it, and is strictly shorter only when they fall short of it,
    in which case it ends with the 3 s closing card: nothing is padded
    after the closing card. *)
Theorem C8_total_duration (wrap : string -> Z -> list string) (video : Video Q)
    (title_offset : Q) (texts : list (AudioItem Q)) (max_length : Q) (cc : Z)
    (gap : Q) :
  video_duration video = max_length ->
  let cursor := fst (text_loop wrap texts max_length cc gap title_offset []) in
  let total :=
    video_duration (write_multi_text_to_video wrap video title_offset texts
                                              max_length cc gap) in
  total <= max_length
  /\ total <= cursor + 3
  /\ (max_length <= cursor + 3 -> total == max_length)
  /\ (total < max_length -> cursor + 3 < max_length /\ total == cursor + 3).
Proof.
  intros Hdur cursor total.
  assert (Ht : total = cursor + Py.min (max_length - cursor) 3).
  { unfold total. rewrite write_multi_duration. cbv zeta. rewrite Hdur. reflexivity. }
  rewrite Ht.
  destruct (Qmin_cases (max_length - cursor) 3) as [[Hle ->]|[Hlt ->]];
    repeat split; intros; lra.
Qed.

Lemma C8_total_duration_witness :
  let video := background "clip.mp4" (0, 30)%Z 30 in
  video_duration video = 30
  /\ video_duration (write_multi_text_to_video no_wrap video (58 # 10)
                       [item "a" 10; item "b" 10; item "c" 10] 30 30%Z (5 # 10))
     <= 30.
Proof.
  intros video.
  assert (Hdur : video_duration video = 30) by reflexivity.
  split; [exact Hdur|].
  apply (@C8_total_duration no_wrap video (58 # 10)
           [item "a" 10; item "b" 10; item "c" 10] 30 30%Z (5 # 10) Hdur).
Defined.

(** ** The worked example *)

(** C7.  On the worked example the plan is: title over [0, 5.8); segment 1
    over [5.8, 15.8) and segment 2 over [16.3, 26.3); the loop ends with the
    cursor at 26.8 and two admitted segments, segment 3 being rejected since
    26.8 + 10 = 36.8 > 30; the closing card starts at 26.8, lasts
    min(30 - 26.8, 3) = 3 and the video ends at 29.8.  This holds in exact
    arithmetic, and bit for bit in the binary64 arithmetic of Python, where
    each decimal below stands for the float nearest to it. *)
Theorem C7_worked_example (wrap : string -> Z -> list string) (path : string)
    (window : Z * Z) (cc : Z) :
  (Qtimeline (example_plan wrap path window cc)
   = ([(0, Some (29 # 5)); (29 # 5, Some 10); (163 # 10, Some 10); (134 # 5, None)],
      149 # 5)
   /\ map Qred (overlay_ends (example_plan wrap path window cc))
      = [29 # 5; 79 # 5; 263 # 10]
   /\ Qred (fst (example_loop wrap cc)) = 134 # 5
   /\ List.length (snd (example_loop wrap cc)) = 2%nat
   /\ Qred ((134 # 5) + 10) = 184 # 5
   /\ ((134 # 5) +. 10 <=.? 30) = false
   /\ Qred (end_msg_duration (background path window 30) (134 # 5)) = 3)
  /\
  (timeline (example_plan (F := float) wrap path window cc)
   = ([(of_int 0, Some (literal 58 10)); (literal 58 10, Some (of_int 10));
       (literal 163 10, Some (of_int 10)); (literal 268 10, None)],
      literal 298 10)
   /\ overlay_ends (example_plan (F := float) wrap path window cc)
      = [literal 58 10; literal 158 10; literal 263 10]
   /\ fst (example_loop (F := float) wrap cc) = literal 268 10
   /\ List.length (snd (example_loop (F := float) wrap cc)) = 2%nat
   /\ literal 268 10 +. of_int 10 = (literal 368 10 : float)
   /\ ((literal 268 10 : float) +. of_int 10 <=.? of_int 30) = false
   /\ end_msg_duration (background path window 30) (literal 268 10 : float)
      = of_int 3).
Proof.
  split.
  - repeat (split; [vm_compute; reflexivity|]). vm_compute; reflexivity.
  - repeat (split; [vm_compute; reflexivity|]). vm_compute; reflexivity.
Qed.

(** The QnA run of three comments lasting 4 s, 6 s and 50 s after a title of
    3 s, under a budget of 20 s: the first two comments are admitted at 3.8
    and 8.3, the third is rejected, and the closing card runs from 14.8 for
    3 s. *)
Lemma qna_three_comments (wrap : string -> Z -> list string) (path : string)
    (window : Z * Z) (cc : Z) :
  Qtimeline (plan wrap (init "videos" (literal 8 10)) (background path window 20)
                  (item "title" 3%Q)
                  [item "comment_0" 4%Q; item "comment_1" 6%Q; item "comment_2" 50%Q]
                  20 cc (literal 5 10))
  = ([(0, Some (19 # 5)); (19 # 5, Some 4); (83 # 10, Some 6); (74 # 5, None)],
     89 # 5)%Q.
Proof. vm_compute. reflexivity. Qed.

(* ================================================================== *)
(** * Background selection *)
(* ================================================================== *)

Local Open Scope Z_scope.

(** ** [random.choice] and [os.path.join] *)

Lemma randbelow_range (e : nat) (n : Z) : 0 < n -> 0 <= randbelow e n < n.
Proof. intros Hn. unfold randbelow. apply Z.mod_pos_bound. exact Hn. Qed.

Lemma choice_nonempty {A} (e : nat) (seq : list A) :
  seq <> [] -> exists x, choice e seq = Ok x /\ In x seq.
Proof.
  intros Hne. destruct seq as [|a seq']; [congruence|].
  unfold choice.
  set (l := a :: seq').
  assert (Hlen : 0 < Z.of_nat (List.length l)) by (subst l; simpl; lia).
  pose proof (randbelow_range e Hlen) as Hr.
  destruct (nth_error l (Z.to_nat (randbelow e (Z.of_nat (List.length l))))) as [x|] eqn:E.
  - exists x. split; [reflexivity|]. eapply nth_error_In; eassumption.
  - apply nth_error_None in E. lia.
Qed.

Lemma choice_In {A} (e : nat) (seq : list A) (x : A) :
  choice e seq = Ok x -> In x seq.
Proof.
  intros Hc. destruct seq as [|a seq']; [discriminate|].
  destruct (@choice_nonempty A e (a :: seq')) as (y & Hy & Hin); [discriminate|].
  congruence.
Qed.

Lemma append_inv_head (a x y : string) : (a ++ x = a ++ y -> x = y)%string.
Proof.
  induction a as [|c a IH]; simpl; intros Heq; [assumption|].
  apply IH. now inversion Heq.
Qed.

(** Names that are no absolute paths are joined injectively. *)
Lemma join_inj (a b1 b2 : string) :
  startswith b1 "/" = false -> startswith b2 "/" = false ->
  join a b1 = join a b2 -> b1 = b2.
Proof.
  unfold join. intros -> ->.
  destruct (String.eqb a "" || endswith a "/"); intros Heq.
  - eapply append_inv_head; eassumption.
  - apply append_inv_head in Heq. now inversion Heq.
Qed.

Section SelectionFacts.

Context {F : Type} `{PyFloat F}.

Variable videos_path : string.
Variable buffer : F.

Let self : VideoGenerator F := init videos_path buffer.



Lemma candidates_incl (fo : Folder F) (c : string) :
  In c (candidates self fo) -> In c (mp4_files self fo).
Proof.
  unfold candidates. destruct (read_marker fo); [|tauto].
  intros Hin. apply filter_In in Hin. tauto.
Qed.

(** What a call does, in terms of the draw it makes. *)
Lemma pick_random_video_run (w : World F) :
  mp4_files self (folder w) <> [] ->
  pick_random_video self w
  = match choice (entropy w (draws w)) (candidates self (folder w)) with
    | Ok chosen =>
        (Ok (join videos_path chosen),
         {| folder := write_marker (folder w) chosen; entropy := entropy w;
            draws := S (draws w); written := written w; stdout := stdout w |})
    | Raise err =>
        (Raise err,
         {| folder := folder w; entropy := entropy w;
            draws := S (draws w); written := written w; stdout := stdout w |})
    end.
Proof.
  intros Hne. unfold pick_random_video, mbind, get_folder. cbn beta iota.
  fold (candidates self (folder w)).
  destruct (mp4_files self (folder w)) as [|v vs] eqn:Ef; [congruence|].
  unfold candidates. rewrite Ef.
  unfold next_entropy, lift, put_folder, ret. cbn.
  reflexivity.
Qed.

Lemma pick_random_video_ok (w w' : World F) (p : string) :
  pick_random_video self w = (Ok p, w') ->
  exists chosen,
    In chosen (candidates self (folder w))
    /\ p = join videos_path chosen
    /\ folder w' = write_marker (folder w) chosen.
Proof.
  intros Hrun.
  destruct (mp4_files self (folder w)) as [|v vs] eqn:Ef.
  - unfold pick_random_video, mbind, get_folder in Hrun. cbn beta iota in Hrun.
    rewrite Ef in Hrun. discriminate.
  - rewrite pick_random_video_run in Hrun by congruence.
    destruct (choice (entropy w (draws w)) (candidates self (folder w))) as [c|err] eqn:Ec;
      inversion Hrun; subst.
    exists c. split; [eapply choice_In; eassumption|]. split; reflexivity.
Qed.


End SelectionFacts.

(** With a single candidate the draw is forced. *)
Lemma choice_singleton {A} (e : nat) (x : A) : choice e [x] = Ok x.
Proof.
  unfold choice, randbelow. simpl List.length.
  rewrite Z.mod_1_r. reflexivity.
Qed.

(** A folder with one eligible file whose marker names that file leaves
    nothing to choose from. *)
Lemma pick_random_video_single_marked {F} `{PyFloat F} (videos_path : string)
    (buffer : F) (w : World F) (name txt : string) :
  mp4_files (init videos_path buffer) (folder w) = [name] ->
  marker (folder w) = Some txt ->
  strip txt = name ->
  fst (pick_random_video (init videos_path buffer) w)
  = Raise (IndexError "Cannot choose from an empty sequence").
Proof.
  intros Hfiles Hmark Hstrip.
  rewrite pick_random_video_run by (rewrite Hfiles; discriminate).
  unfold candidates, read_marker. rewrite Hmark, Hfiles, Hstrip. simpl.
  rewrite String.eqb_refl. reflexivity.
Qed.

(** C4.  With exactly one eligible background, selection succeeds only
    while the marker does not name it.  From a folder holding the single
    file clip.mp4 and no marker, the first call returns that file and
    records it; the second call, on the folder the first one left, filters
    the only candidate out and raises IndexError from [random.choice],
    whatever the entropy. *)
Theorem C4_single_background_second_call_raises (ent : nat -> nat) (n : nat) :
  let self := init "videos" (literal 8 10 : Q) in
  let w0 := {| folder := {| entries := [("clip.mp4", Some 120%Q)]; marker := None |};
               entropy := ent; draws := n; written := []; stdout := [] |} in
  exists w1,
    pick_random_video self w0 = (Ok "videos/clip.mp4", w1)
    /\ List.length (mp4_files self (folder w1)) = 1%nat
    /\ marker (folder w1) = Some "clip.mp4"
    /\ fst (pick_random_video self w1)
       = Raise (IndexError "Cannot choose from an empty sequence").
Proof.
  intros self w0. eexists. split.
  - unfold self. rewrite pick_random_video_run by (vm_compute; discriminate).
    replace (candidates (init "videos" (literal 8 10 : Q)) (folder w0))
      with ["clip.mp4"] by reflexivity.
    rewrite choice_singleton. reflexivity.
  - split; [reflexivity|]. split; [reflexivity|].
    apply pick_random_video_single_marked with (name := "clip.mp4") (txt := "clip.mp4");
      reflexivity.
Qed.




(* ================================================================== *)
(** * The background window *)
(* ================================================================== *)

(** The draw of [crop_video_to_tiktok_format]: for a positive length the
    start is a multiple of the length, and the range is empty as soon as
    the length reaches the whole seconds of the source. *)
Lemma randrange_window (e : nat) (whole length : Z) :
  0 < length ->
  randrange e 0 (whole - length) length
  = if length <? whole
    then Ok (length * (Z.of_nat e mod ((whole - 1) / length)))
    else Raise (ValueError "empty range for randrange()").
Proof.
  intros Hpos. unfold randrange, randbelow.
  rewrite Z.sub_0_r.
  destruct (Z.eqb_spec length 1) as [->|Hne1].
  - rewrite Z.div_1_r.
    destruct (Z.ltb_spec 0 (whole - 1)), (Z.ltb_spec 1 whole); try lia.
    + f_equal. lia.
    + reflexivity.
  - destruct (Z.eqb_spec length 0); [lia|].
    destruct (Z.ltb_spec 0 length); [|lia].
    replace (whole - length + length - 1) with (whole - 1) by lia.
    destruct (Z.ltb_spec length whole) as [Hlt|Hge].
    + assert (1 <= (whole - 1) / length) by (apply Z.div_le_lower_bound; lia).
      destruct (Z.leb_spec ((whole - 1) / length) 0); [lia|].
      f_equal.
    + assert ((whole - 1) / length < 1) by (apply Z.div_lt_upper_bound; lia).
      destruct (Z.leb_spec ((whole - 1) / length) 0); [reflexivity | lia].
Qed.

Lemma randrange_nonpositive_step (e : nat) (whole length : Z) :
  length <= 0 -> 0 <= whole ->
  is_ok (randrange e 0 (whole - length) length) = false.
Proof.
  intros Hle Hwhole. unfold randrange.
  destruct (Z.eqb_spec length 1); [lia|].
  destruct (Z.eqb_spec length 0); [reflexivity|].
  destruct (Z.ltb_spec 0 length); [lia|].
  rewrite Z.sub_0_r.
  replace (whole - length + length + 1) with (whole + 1) by lia.
  assert ((whole + 1) / length <= 0).
  { destruct (Z.leb_spec ((whole + 1) / length) 0) as [|Hpos]; [assumption|].
    exfalso.
    pose proof (Z.mod_neg_bound (whole + 1) length ltac:(lia)).
    pose proof (Z.div_mod (whole + 1) length ltac:(lia)).
    nia. }
  destruct (Z.leb_spec ((whole + 1) / length) 0); [reflexivity | lia].
Qed.

Section WindowFacts.

Context {F : Type} `{PyFloat F}.

(** What a call does, in terms of the draw it makes. *)
Lemma crop_run (self : VideoGenerator F) (w : World F) (path name : string)
    (length : Z) (d : F) (whole : Z) :
  find (fun entry => String.eqb (join (vid_path self) (fst entry)) path)
       (entries (folder w)) = Some (name, Some d) ->
  to_int d = Some whole ->
  crop_video_to_tiktok_format self path length w
  = let w' := {| folder := folder w; entropy := entropy w; draws := S (draws w);
                 written := written w; stdout := stdout w |} in
    match randrange (entropy w (draws w)) 0 (whole - length) length with
    | Ok start =>
        (Ok {| source := path; window := (start, start + length);
               volume_percent := 20;
               video_duration := of_int (start + length - start);
               overlays := [] |}, w')
    | Raise err => (Raise err, w')
    end.
Proof.
  intros Hfind Hint.
  unfold crop_video_to_tiktok_format, VideoFileClip, mbind, get_folder.
  cbn beta iota. rewrite Hfind. unfold ret. cbn beta iota.
  cbn [video_duration]. rewrite Hint.
  unfold next_entropy, lift. cbn beta iota.
  destruct (randrange (entropy w (draws w)) 0 (whole - length) length); reflexivity.
Qed.

(** The result alone: a background of the requested length, or the
    exception of the draw. *)
Lemma crop_result (self : VideoGenerator F) (w : World F) (path name : string)
    (length : Z) (d : F) (whole : Z) :
  find (fun entry => String.eqb (join (vid_path self) (fst entry)) path)
       (entries (folder w)) = Some (name, Some d) ->
  to_int d = Some whole ->
  fst (crop_video_to_tiktok_format self path length w)
  = match randrange (entropy w (draws w)) 0 (whole - length) length with
    | Ok start => Ok (background path (start, start + length) length)
    | Raise err => Raise err
    end.
Proof.
  intros Hfind Hint. rewrite (crop_run self w path length Hfind Hint). cbv zeta.
  destruct (randrange (entropy w (draws w)) 0 (whole - length) length) as [start|err];
    [|reflexivity].
  simpl. unfold background. rewrite Z.add_simpl_l. reflexivity.
Qed.

End WindowFacts.

(** ** Truncation of a non-negative rational *)

Lemma Qtruncate_le (x : Q) : (0 <= x)%Q -> (inject_Z (Qtruncate x) <= x)%Q.
Proof.
  destruct x as [n d]. unfold Qle, Qtruncate. simpl. intros Hn.
  rewrite Z.mul_1_r in *.
  rewrite Z.quot_div_nonneg by lia.
  rewrite Z.mul_comm. apply Z.mul_div_le. lia.
Qed.

Lemma Qtruncate_nonneg (x : Q) : (0 <= x)%Q -> 0 <= Qtruncate x.
Proof.
  destruct x as [n d]. unfold Qle, Qtruncate. simpl. intros Hn.
  rewrite Z.mul_1_r in *. apply Z.quot_pos; lia.
Qed.

(** C5 (as amended).  Let D >= 0 be the duration of the source, int(D) its
    whole seconds and T the target duration.  When 0 < T < int(D) the
    computation returns the window [start, start + T) of length T, where
    start is a non-negative multiple of T and start + T < int(D) <= D;
    every multiple of T with that property is the start for some draw of
    the generator.  The computation raises whenever T >= int(D), in
    particular whenever T >= D. *)
Theorem C5_window (self : VideoGenerator Q) (w : World Q) (path name : string)
    (T : Z) (D : Q) :
  find (fun entry => String.eqb (join (vid_path self) (fst entry)) path)
       (entries (folder w)) = Some (name, Some D) ->
  (0 <= D)%Q ->
  let r := fst (crop_video_to_tiktok_format self path T w) in
  let whole := Qtruncate D in
  (0 < T < whole ->
   exists k, 0 <= k
             /\ r = Ok (background path (T * k, T * k + T) T)
             /\ T * k + T < whole /\ (inject_Z whole <= D)%Q)
  /\ (0 < T -> forall k, 0 <= k -> T * k + T < whole ->
      entropy w (draws w) = Z.to_nat k ->
      r = Ok (background path (T * k, T * k + T) T))
  /\ (whole <= T -> is_ok r = false)
  /\ ((D <= inject_Z T)%Q -> is_ok r = false).
Proof.
  intros Hfind HD r whole.
  assert (Hwhole : (inject_Z whole <= D)%Q) by now apply Qtruncate_le.
  assert (Hwhole0 : 0 <= whole) by now apply Qtruncate_nonneg.
  assert (Hr : r = match randrange (entropy w (draws w)) 0 (whole - T) T with
                   | Ok start => Ok (background path (start, start + T) T)
                   | Raise err => Raise err
                   end).
  { exact (crop_result self w path T Hfind (eq_refl : to_int D = Some whole)). }
  assert (Hfail : whole <= T -> is_ok r = false).
  { intros Hle. rewrite Hr.
    destruct (Z.ltb_spec 0 T) as [Hpos|Hnp].
    - rewrite randrange_window by assumption.
      destruct (Z.ltb_spec T whole); [lia | reflexivity].
    - pose proof (@randrange_nonpositive_step (entropy w (draws w)) whole T
                    ltac:(lia) Hwhole0) as Hno.
      destruct (randrange (entropy w (draws w)) 0 (whole - T) T);
        [discriminate | reflexivity]. }
  split; [|split; [|split]].
  - intros [Hpos Hlt]. rewrite Hr, randrange_window by assumption.
    destruct (Z.ltb_spec T whole); [|lia].
    set (n := (whole - 1) / T).
    assert (Hn : 1 <= n) by (apply Z.div_le_lower_bound; lia).
    pose proof (Z.mod_pos_bound (Z.of_nat (entropy w (draws w))) n ltac:(lia)) as Hk.
    pose proof (Z.mul_div_le (whole - 1) T Hpos) as Hmul. fold n in Hmul.
    exists (Z.of_nat (entropy w (draws w)) mod n).
    split; [lia|]. split; [reflexivity|]. split; [nia | assumption].
  - intros Hpos k Hk Hfit He. rewrite Hr, randrange_window by assumption.
    destruct (Z.ltb_spec T whole); [|nia].
    rewrite He, Z2Nat.id by assumption.
    assert (k + 1 <= (whole - 1) / T) by (apply Z.div_le_lower_bound; lia).
    rewrite Z.mod_small by lia. reflexivity.
  - exact Hfail.
  - intros HDT. apply Hfail. rewrite Zle_Qle.
    eapply Qle_trans; eassumption.
Qed.

Lemma C5_window_witness :
  let self := init "videos" (literal 8 10 : Q) in
  let w := {| folder := {| entries := [("clip.mp4", Some (1005 # 10)%Q)];
                           marker := None |};
              entropy := fun _ => 2%nat; draws := 0; written := []; stdout := [] |} in
  (0 <= 1005 # 10)%Q
  /\ 0 < 30 < Qtruncate (1005 # 10)
  /\ exists k, 0 <= k
       /\ fst (crop_video_to_tiktok_format self "videos/clip.mp4" 30 w)
          = Ok (background "videos/clip.mp4" (30 * k, 30 * k + 30) 30).
Proof.
  intros self w.
  assert (HD : (0 <= 1005 # 10)%Q) by (vm_compute; discriminate).
  assert (HT : 0 < 30 < Qtruncate (1005 # 10)) by (vm_compute; split; reflexivity).
  split; [exact HD|]. split; [exact HT|].
  destruct (@C5_window self w "videos/clip.mp4" "clip.mp4" 30 (1005 # 10) eq_refl HD)
    as (Hany & _).
  destruct (Hany HT) as (k & Hk & Hr & _).
  exists k. split; assumption.
Defined.

(** C5, the claim as stated fails on two counts.  For a source of 100 s and
    a target of 30 s the second 1 lies in [0, 100 - 30], yet no draw starts
    the window there: the starts are 0, 30 and 60.  And for a source of
    10.5 s and a target of 10 s, which is strictly shorter, every draw
    raises. *)
Lemma C5_not_every_whole_second :
  let self := init "videos" (literal 8 10 : Q) in
  let world (d : Q) (ent : nat -> nat) (n : nat) : World Q :=
    {| folder := {| entries := [("clip.mp4", Some d)]; marker := None |};
       entropy := ent; draws := n; written := []; stdout := [] |} in
  (0 <= 1 <= 100 - 30
   /\ forall ent n v,
        fst (crop_video_to_tiktok_format self "videos/clip.mp4" 30 (world 100%Q ent n))
        = Ok v -> fst (window v) <> 1)
  /\ ((inject_Z 10 < 105 # 10)%Q
      /\ forall ent n,
           is_ok (fst (crop_video_to_tiktok_format self "videos/clip.mp4" 10
                         (world (105 # 10)%Q ent n))) = false).
Proof.
  intros self world. split; split.
  - lia.
  - intros ent n v Hv.
    rewrite (@crop_result Q _ self (world 100%Q ent n) "videos/clip.mp4" "clip.mp4"
               30 100%Q 100 ltac:(reflexivity) ltac:(reflexivity)) in Hv.
    rewrite randrange_window in Hv by lia.
    destruct (Z.ltb_spec 30 100); [|lia].
    set (k := Z.of_nat (ent n) mod ((100 - 1) / 30)) in Hv.
    assert (Hstart : fst (window v) = 30 * k) by now inversion Hv.
    lia.
  - reflexivity.
  - intros ent n.
    rewrite (@crop_result Q _ self (world (105 # 10)%Q ent n) "videos/clip.mp4"
               "clip.mp4" 10 (105 # 10)%Q 10 ltac:(reflexivity) ltac:(reflexivity)).
    rewrite randrange_window by lia. reflexivity.
Qed.

(* ================================================================== *)
(** * The pipelines *)
(* ================================================================== *)

Ltac break_match :=
  match goal with
  | |- context [match ?x with _ => _ end] => destruct x eqn:?
  end.

Create HintDb written.

Section PipelineFacts.

Context {F : Type} `{PyFloat F}.
Variable wrap : string -> Z -> list string.
Variable recording : string -> result F.

(** ** Which steps touch the written videos *)

Lemma keeps_ret {A} (a : A) : keeps_written (ret (F := F) a).
Proof. intros w. reflexivity. Qed.

Lemma keeps_raise {A} (e : exn) : keeps_written (raise (F := F) (A := A) e).
Proof. intros w. reflexivity. Qed.

Lemma keeps_lift {A} (r : result A) : keeps_written (lift (F := F) r).
Proof. intros w. reflexivity. Qed.

Lemma keeps_getitem {A} (key : string) (field : option A) :
  keeps_written (getitem (F := F) key field).
Proof. intros w. destruct field; reflexivity. Qed.

Lemma keeps_print (line : string) : keeps_written (print (F := F) line).
Proof. intros w. reflexivity. Qed.

Lemma keeps_mbind {A B} (c : M F A) (k : A -> M F B) :
  keeps_written c -> (forall a, keeps_written (k a)) -> keeps_written (mbind c k).
Proof.
  intros Hc Hk w. unfold mbind. specialize (Hc w).
  destruct (c w) as [[a|e] w1]; simpl in *.
  - rewrite Hk. exact Hc.
  - exact Hc.
Qed.

Lemma keeps_next_entropy : keeps_written (next_entropy (F := F)).
Proof. intros w. reflexivity. Qed.

Lemma keeps_get_folder : keeps_written (get_folder (F := F)).
Proof. intros w. reflexivity. Qed.

Lemma keeps_put_folder (fo : Folder F) : keeps_written (put_folder fo).
Proof. intros w. reflexivity. Qed.

Hint Resolve keeps_ret keeps_raise keeps_lift keeps_getitem keeps_print
  keeps_next_entropy keeps_get_folder keeps_put_folder : written.

Ltac keeps_steps :=
  repeat first
    [ apply keeps_mbind; [auto with written | intros]
    | progress auto with written
    | break_match ].

Lemma keeps_pick_random_video (self : VideoGenerator F) :
  keeps_written (pick_random_video self).
Proof. unfold pick_random_video. keeps_steps. Qed.

Lemma keeps_VideoFileClip (dir path : string) :
  keeps_written (VideoFileClip (F := F) dir path).
Proof. unfold VideoFileClip. keeps_steps. Qed.

Lemma keeps_crop (self : VideoGenerator F) (path : string) (length : Z) :
  keeps_written (crop_video_to_tiktok_format self path length).
Proof.
  unfold crop_video_to_tiktok_format.
  apply keeps_mbind; [apply keeps_VideoFileClip | intros video].
  keeps_steps.
Qed.

Lemma keeps_generate_audio_and_save (text output_filepath filename : string) :
  keeps_written (generate_audio_and_save recording text output_filepath filename).
Proof.
  apply keeps_mbind; [apply keeps_lift | intros; apply keeps_ret].
Qed.

Lemma keeps_comment_loop (dir : string) (comments : list Comment) :
  forall i acc, keeps_written (comment_loop recording dir i comments acc).
Proof.
  induction comments as [|c rest IH]; intros i acc; simpl.
  - apply keeps_ret.
  - destruct (String.eqb (comment c) ""); [apply IH|].
    apply keeps_mbind; [apply keeps_generate_audio_and_save | intros; apply IH].
Qed.

Lemma keeps_postbody_loop (dir : string) (chunks : list string) :
  forall i acc, keeps_written (postbody_loop recording dir i chunks acc).
Proof.
  induction chunks as [|c rest IH]; intros i acc; simpl.
  - apply keeps_ret.
  - apply keeps_mbind; [apply keeps_generate_audio_and_save | intros; apply IH].
Qed.

Hint Resolve keeps_pick_random_video keeps_crop keeps_generate_audio_and_save
  keeps_comment_loop keeps_postbody_loop : written.

Lemma keeps_generate_audio_from_qna_submission (base : string) (post : Post) :
  keeps_written (generate_audio_from_qna_submission recording base post).
Proof.
  unfold generate_audio_from_qna_submission.
  repeat (apply keeps_mbind; [auto with written | intros]). auto with written.
Qed.

Lemma keeps_generate_audio_from_advice_submission (base : string) (post : Post) :
  keeps_written (generate_audio_from_advice_submission recording base post).
Proof.
  unfold generate_audio_from_advice_submission.
  repeat (apply keeps_mbind; [auto with written | intros]). auto with written.
Qed.

Lemma clean_of_keeps {A} (c : M F A) : keeps_written c -> raises_clean c.
Proof. intros Hk w e w' Hrun. specialize (Hk w). now rewrite Hrun in Hk. Qed.

Lemma clean_mbind {A B} (c : M F A) (k : A -> M F B) :
  keeps_written c -> (forall a, raises_clean (k a)) -> raises_clean (mbind c k).
Proof.
  intros Hc Hk w e w' Hrun. unfold mbind in Hrun. specialize (Hc w).
  destruct (c w) as [[a|e0] w1]; simpl in *.
  - rewrite <- Hc. eapply Hk. eassumption.
  - now inversion Hrun; subst.
Qed.

Lemma clean_write_videofile (video : Video F) (path : string) :
  raises_clean (write_videofile video path).
Proof. intros w e w' Hrun. discriminate. Qed.

Lemma clean_generate_video_from_qna_submission (self : VideoGenerator F)
    (submission : Submission F) (out : string) (cc max : Z) :
  raises_clean (generate_video_from_qna_submission wrap self submission out cc max).
Proof.
  unfold generate_video_from_qna_submission.
  apply clean_mbind; [auto with written | intros bg].
  apply clean_mbind; [auto with written | intros cropped].
  apply clean_mbind; [auto with written | intros title].
  destruct (write_title_to_video wrap self cropped title cc) as [v off].
  apply clean_mbind; [auto with written | intros comments].
  apply clean_write_videofile.
Qed.

Lemma clean_generate_video_from_advice_submission (self : VideoGenerator F)
    (submission : Submission F) (out : string) (cc max : Z) :
  raises_clean (generate_video_from_advice_submission wrap self submission out cc max).
Proof.
  unfold generate_video_from_advice_submission.
  apply clean_mbind; [auto with written | intros bg].
  apply clean_mbind; [auto with written | intros cropped].
  apply clean_mbind; [auto with written | intros title].
  destruct (write_title_to_video wrap self cropped title cc) as [v off].
  apply clean_mbind; [auto with written | intros postbody].
  apply clean_write_videofile.
Qed.

(** The loop body writes before it prints, and printing cannot fail: a
    body that raises has written nothing. *)
Lemma clean_then_print {A} (c : M F A) (line : string) :
  raises_clean c -> raises_clean (mbind c (fun _ => print line)).
Proof.
  intros Hc w e w' Hrun. unfold mbind in Hrun.
  destruct (c w) as [[a|e0] w1] eqn:Ec.
  - discriminate.
  - inversion Hrun; subst. eapply Hc. eassumption.
Qed.

Lemma clean_qna_step (args : Namespace) (now : DateTime) (video_gen : VideoGenerator F)
    (i : nat) (post : Post) :
  raises_clean (qna_step wrap recording args now video_gen i post).
Proof.
  unfold qna_step.
  apply clean_mbind; [apply keeps_generate_audio_from_qna_submission | intros info].
  apply clean_then_print. apply clean_generate_video_from_qna_submission.
Qed.

Lemma clean_advice_step (args : Namespace) (now : DateTime)
    (video_gen : VideoGenerator F) (i : nat) (post : Post) :
  raises_clean (advice_step wrap recording args now video_gen i post).
Proof.
  unfold advice_step.
  apply clean_mbind; [apply keeps_generate_audio_from_advice_submission | intros info].
  apply clean_then_print. apply clean_generate_video_from_advice_submission.
Qed.

(** ** The loops stop at the first failure *)

Lemma qna_loop_stops (args : Namespace) (now : DateTime) (video_gen : VideoGenerator F)
    (pre : list Post) :
  forall (i : nat) (w w1 w2 : World F) (bad : Post) (post : list Post) (e : exn),
    qna_loop wrap recording args now video_gen i pre w = (Ok tt, w1) ->
    qna_step wrap recording args now video_gen (i + List.length pre) bad w1
    = (Raise e, w2) ->
    qna_loop wrap recording args now video_gen i (pre ++ bad :: post) w
    = (Raise e, w2).
Proof.
  induction pre as [|p pre IH]; intros i w w1 w2 bad post e Hpre Hbad; simpl in *.
  - inversion Hpre; subst. rewrite Nat.add_0_r in Hbad.
    unfold mbind. rewrite Hbad. reflexivity.
  - unfold mbind in *.
    destruct (qna_step wrap recording args now video_gen i p w) as [[[]|e0] w0];
      [|discriminate].
    eapply IH; [eassumption|].
    now rewrite Nat.add_succ_comm.
Qed.

Lemma advice_loop_stops (args : Namespace) (now : DateTime)
    (video_gen : VideoGenerator F) (pre : list Post) :
  forall (i : nat) (w w1 w2 : World F) (bad : Post) (post : list Post) (e : exn),
    advice_loop wrap recording args now video_gen i pre w = (Ok tt, w1) ->
    advice_step wrap recording args now video_gen (i + List.length pre) bad w1
    = (Raise e, w2) ->
    advice_loop wrap recording args now video_gen i (pre ++ bad :: post) w
    = (Raise e, w2).
Proof.
  induction pre as [|p pre IH]; intros i w w1 w2 bad post e Hpre Hbad; simpl in *.
  - inversion Hpre; subst. rewrite Nat.add_0_r in Hbad.
    unfold mbind. rewrite Hbad. reflexivity.
  - unfold mbind in *.
    destruct (advice_step wrap recording args now video_gen i p w) as [[[]|e0] w0];
      [|discriminate].
    eapply IH; [eassumption|].
    now rewrite Nat.add_succ_comm.
Qed.

Lemma report_run (err : exn) (w : World F) : report err w = (Ok tt, reported err w).
Proof.
  unfold report, reported, mbind, print. cbn.
  repeat rewrite <- app_assoc. reflexivity.
Qed.

End PipelineFacts.

Section VideoPipelineFacts.

Context {F : Type} `{PyFloat F}.
Variable wrap : string -> Z -> list string.

Lemma crop_ok (self : VideoGenerator F) (path : string) (length : Z)
    (w w' : World F) (v : Video F) :
  crop_video_to_tiktok_format self path length w = (Ok v, w') ->
  exists start, v = background path (start, start + length) length.
Proof.
  intros Hrun.
  unfold crop_video_to_tiktok_format, VideoFileClip, mbind, get_folder in Hrun.
  cbn beta iota in Hrun.
  destruct (find _ (entries (folder w))) as [[name [d|]]|];
    unfold ret, raise in Hrun; cbn in Hrun; try discriminate.
  destruct (to_int d); cbn in Hrun; try discriminate.
  destruct (randrange (entropy w (draws w)) 0 (z - length) length) as [start|];
    cbn in Hrun; try discriminate.
  inversion Hrun; subst. exists start.
  unfold background, volumex, subclip. cbn [source window overlays].
  rewrite Z.add_simpl_l. reflexivity.
Qed.

(** A run that returns has written exactly one video: the plan of the
    submission over some window of the requested length. *)
Lemma generate_video_from_qna_submission_ok (self : VideoGenerator F)
    (submission : Submission F) (out : string) (cc max : Z) (w w' : World F) :
  generate_video_from_qna_submission wrap self submission out cc max w = (Ok tt, w') ->
  exists path window title comments,
    sub_title submission = Some title
    /\ sub_comments submission = Some comments
    /\ written w'
       = written w
         ++ [(join out (make_filename "qna"),
              plan wrap self (background path window max) title comments max cc
                   (literal 5 10))].
Proof.
  intros Hrun. unfold generate_video_from_qna_submission in Hrun.
  unfold mbind at 1 in Hrun.
  pose proof (keeps_pick_random_video self w) as Hw1.
  destruct (pick_random_video self w) as [[bg|e] w1]; [|discriminate].
  unfold mbind at 1 in Hrun.
  pose proof (keeps_crop self bg max w1) as Hw2.
  destruct (crop_video_to_tiktok_format self bg max w1) as [[cropped|e] w2] eqn:Hcrop;
    [|discriminate].
  apply crop_ok in Hcrop. destruct Hcrop as [start ->].
  destruct (sub_title submission) as [title|]; [|discriminate].
  unfold mbind at 1 in Hrun. unfold getitem at 1, ret at 1 in Hrun.
  cbv beta iota in Hrun.
  exists bg, (start, start + max), title.
  unfold plan.
  destruct (write_title_to_video wrap self _ title cc) as [edited off].
  destruct (sub_comments submission) as [comments|]; [|discriminate].
  exists comments. split; [reflexivity|]. split; [reflexivity|].
  unfold mbind, getitem, ret, write_videofile in Hrun. inversion Hrun; subst.
  simpl in *. now rewrite Hw2, Hw1.
Qed.

Lemma generate_video_from_advice_submission_ok (self : VideoGenerator F)
    (submission : Submission F) (out : string) (cc max : Z) (w w' : World F) :
  generate_video_from_advice_submission wrap self submission out cc max w
  = (Ok tt, w') ->
  exists path window title postbody,
    sub_title submission = Some title
    /\ sub_postbody submission = Some postbody
    /\ written w'
       = written w
         ++ [(join out (make_filename "advice"),
              plan wrap self (background path window max) title postbody max cc
                   (literal 1 10))].
Proof.
  intros Hrun. unfold generate_video_from_advice_submission in Hrun.
  unfold mbind at 1 in Hrun.
  pose proof (keeps_pick_random_video self w) as Hw1.
  destruct (pick_random_video self w) as [[bg|e] w1]; [|discriminate].
  unfold mbind at 1 in Hrun.
  pose proof (keeps_crop self bg max w1) as Hw2.
  destruct (crop_video_to_tiktok_format self bg max w1) as [[cropped|e] w2] eqn:Hcrop;
    [|discriminate].
  apply crop_ok in Hcrop. destruct Hcrop as [start ->].
  destruct (sub_title submission) as [title|]; [|discriminate].
  unfold mbind at 1 in Hrun. unfold getitem at 1, ret at 1 in Hrun.
  cbv beta iota in Hrun.
  exists bg, (start, start + max), title.
  unfold plan.
  destruct (write_title_to_video wrap self _ title cc) as [edited off].
  destruct (sub_postbody submission) as [postbody|]; [|discriminate].
  exists postbody. split; [reflexivity|]. split; [reflexivity|].
  unfold mbind, getitem, ret, write_videofile in Hrun. inversion Hrun; subst.
  simpl in *. now rewrite Hw2, Hw1.
Qed.

(** The plan reads the background only through its length. *)
Lemma plan_background_irrelevant (self : VideoGenerator F) (title : AudioItem F)
    (texts : list (AudioItem F)) (max cc : Z) (gap : F)
    (path1 path2 : string) (window1 window2 : Z * Z) :
  let v1 := plan wrap self (background path1 window1 max) title texts max cc gap in
  let v2 := plan wrap self (background path2 window2 max) title texts max cc gap in
  overlays v1 = overlays v2 /\ video_duration v1 = video_duration v2.
Proof.
  cbv zeta. unfold plan, write_title_to_video.
  rewrite !write_multi_overlays, !write_multi_duration. split; reflexivity.
Qed.

End VideoPipelineFacts.

(** C9.  Planning is deterministic.  Two runs of a pipeline variant on the
    same submission with the same generator settings, character width and
    max_length each write one video, and the two videos carry the same
    overlays (texts, audio, start offsets, durations, closing card) and the
    same total duration, whatever the two worlds are: the background
    folders, the markers and the entropy of the random module may all
    differ.  Randomness only reaches the choice of the background file and
    of its window. *)
Theorem C9_planning_deterministic {F : Type} `{PyFloat F}
    (wrap : string -> Z -> list string) (self : VideoGenerator F)
    (submission : Submission F) (out : string) (cc max : Z)
    (w1 w2 w1' w2' : World F) :
  (generate_video_from_qna_submission wrap self submission out cc max w1 = (Ok tt, w1') ->
   generate_video_from_qna_submission wrap self submission out cc max w2 = (Ok tt, w2') ->
   exists v1 v2,
     written w1' = written w1 ++ [(join out (make_filename "qna"), v1)]
     /\ written w2' = written w2 ++ [(join out (make_filename "qna"), v2)]
     /\ overlays v1 = overlays v2
     /\ video_duration v1 = video_duration v2
     /\ timeline v1 = timeline v2)
  /\
  (generate_video_from_advice_submission wrap self submission out cc max w1 = (Ok tt, w1') ->
   generate_video_from_advice_submission wrap self submission out cc max w2 = (Ok tt, w2') ->
   exists v1 v2,
     written w1' = written w1 ++ [(join out (make_filename "advice"), v1)]
     /\ written w2' = written w2 ++ [(join out (make_filename "advice"), v2)]
     /\ overlays v1 = overlays v2
     /\ video_duration v1 = video_duration v2
     /\ timeline v1 = timeline v2).
Proof.
  split; intros Hrun1 Hrun2.
  - apply generate_video_from_qna_submission_ok in Hrun1, Hrun2.
    destruct Hrun1 as (p1 & win1 & t1 & c1 & Ht1 & Hc1 & Hw1).
    destruct Hrun2 as (p2 & win2 & t2 & c2 & Ht2 & Hc2 & Hw2).
    assert (t2 = t1) by congruence. assert (c2 = c1) by congruence. subst t2 c2.
    destruct (plan_background_irrelevant wrap self t1 c1 max cc (literal 5 10)
                p1 p2 win1 win2) as [Hov Hdur].
    eexists. eexists. split; [exact Hw1|]. split; [exact Hw2|].
    split; [exact Hov|]. split; [exact Hdur|].
    unfold timeline. now rewrite Hov, Hdur.
  - apply generate_video_from_advice_submission_ok in Hrun1, Hrun2.
    destruct Hrun1 as (p1 & win1 & t1 & c1 & Ht1 & Hc1 & Hw1).
    destruct Hrun2 as (p2 & win2 & t2 & c2 & Ht2 & Hc2 & Hw2).
    assert (t2 = t1) by congruence. assert (c2 = c1) by congruence. subst t2 c2.
    destruct (plan_background_irrelevant wrap self t1 c1 max cc (literal 1 10)
                p1 p2 win1 win2) as [Hov Hdur].
    eexists. eexists. split; [exact Hw1|]. split; [exact Hw2|].
    split; [exact Hov|]. split; [exact Hdur|].
    unfold timeline. now rewrite Hov, Hdur.
Qed.

Lemma C9_planning_deterministic_witness :
  let self := init "videos" (literal 8 10 : Q) in
  let submission :=
    {| sub_title := Some (item "title" 3%Q);
       sub_comments := Some [item "comment_0" 4%Q; item "comment_1" 6%Q;
                             item "comment_2" 50%Q];
       sub_postbody := None |} in
  let w1 := {| folder := {| entries := [("a.mp4", Some 200%Q); ("b.mp4", Some 300%Q)];
                            marker := Some "a.mp4" |};
               entropy := fun i => (3 * i + 1)%nat; draws := 0;
               written := []; stdout := [] |} in
  let w2 := {| folder := {| entries := [("c.mp4", Some (1505 # 10)%Q)];
                            marker := None |};
               entropy := fun _ => 5%nat; draws := 7;
               written := []; stdout := [] |} in
  let run := generate_video_from_qna_submission no_wrap self submission "out" 30 20 in
  run w1 = (Ok tt, snd (run w1))
  /\ run w2 = (Ok tt, snd (run w2))
  /\ exists v1 v2,
       written (snd (run w1)) = [("out/finalized_qna.mp4", v1)]
       /\ written (snd (run w2)) = [("out/finalized_qna.mp4", v2)]
       /\ window v1 <> window v2
       /\ timeline v1 = timeline v2.
Proof.
  intros self submission w1 w2 run.
  assert (H1 : run w1 = (Ok tt, snd (run w1))) by reflexivity.
  assert (H2 : run w2 = (Ok tt, snd (run w2))) by reflexivity.
  split; [exact H1|]. split; [exact H2|].
  destruct (@C9_planning_deterministic Q _ no_wrap self submission "out" 30 20
              w1 w2 (snd (run w1)) (snd (run w2))) as [Hqna _].
  destruct (Hqna H1 H2) as (v1 & v2 & Hw1 & Hw2 & _ & _ & Htl).
  exists v1, v2. split; [exact Hw1|]. split; [exact Hw2|]. split; [|exact Htl].
  assert (E1 : written (snd (run w1)) = [("out/finalized_qna.mp4", v1)]) by exact Hw1.
  assert (E2 : written (snd (run w2)) = [("out/finalized_qna.mp4", v2)]) by exact Hw2.
  vm_compute in E1, E2. inversion E1; inversion E2. subst v1 v2.
  vm_compute. discriminate.
Defined.

(** Every video a pipeline writes stays within the budget it was given. *)
Lemma written_video_within_budget (wrap : string -> Z -> list string)
    (self : VideoGenerator Q) (submission : Submission Q) (out : string)
    (cc max : Z) (w w' : World Q) :
  generate_video_from_qna_submission wrap self submission out cc max w = (Ok tt, w')
  \/ generate_video_from_advice_submission wrap self submission out cc max w
     = (Ok tt, w') ->
  exists path v,
    written w' = written w ++ [(path, v)]
    /\ (video_duration v <= inject_Z max)%Q.
Proof.
  assert (Hplan : forall path window title texts gap,
             (video_duration (plan wrap self (background path window max) title
                                   texts max cc gap) <= inject_Z max)%Q).
  { intros path window title texts gap. unfold plan, write_title_to_video.
    rewrite write_multi_duration. cbv zeta.
    set (c := fst (text_loop _ _ _ _ _ _ _)).
    change (c + Py.min (inject_Z max - c) 3 <= inject_Z max)%Q.
    destruct (Qmin_cases (inject_Z max - c) 3) as [[Hle ->]|[Hlt ->]]; lra. }
  intros [Hrun|Hrun].
  - apply generate_video_from_qna_submission_ok in Hrun.
    destruct Hrun as (path & window & title & comments & _ & _ & Hw).
    eexists. eexists. split; [exact Hw | apply Hplan].
  - apply generate_video_from_advice_submission_ok in Hrun.
    destruct Hrun as (path & window & title & postbody & _ & _ & Hw).
    eexists. eexists. split; [exact Hw | apply Hplan].
Qed.

(** C2 (as amended).  In either pipeline variant a failure while processing
    one submission is caught and reported once, and ends the batch: when the
    submissions before it succeed and the body of the loop raises on it, the
    script returns normally in the world the failure left, with the report
    printed; the videos written are those of the submissions before the
    failing one, and the submissions after it are not processed, whatever
    they are.  In the advice variant the audio of a post never returns, so
    the failing submission is the first one there. *)
Theorem C2_batch_stops_at_first_failure {F : Type} `{PyFloat F}
    (wrap : string -> Z -> list string) (recording : string -> result F)
    (args : Namespace) (now : DateTime) (pre : list Post) (bad : Post)
    (post : list Post) (e : exn) (w w1 w2 : World F) :
  let video_gen := init (background_folder args) (literal 8 10) in
  (qna_loop wrap recording args now video_gen 0 pre w = (Ok tt, w1) ->
   qna_step wrap recording args now video_gen (List.length pre) bad w1 = (Raise e, w2) ->
   generate_qna_tiktok_video wrap recording args now (Ok (pre ++ bad :: post)) w
   = (Ok tt, reported e w2)
   /\ written (reported e w2) = written w1)
  /\
  (advice_loop wrap recording args now video_gen 0 pre w = (Ok tt, w1) ->
   advice_step wrap recording args now video_gen (List.length pre) bad w1 = (Raise e, w2) ->
   generate_advice_tiktok_video wrap recording args now (Ok (pre ++ bad :: post)) w
   = (Ok tt, reported e w2)
   /\ written (reported e w2) = written w1).
Proof.
  intros video_gen. split; intros Hpre Hbad.
  - split.
    + unfold generate_qna_tiktok_video, try_except, mbind at 1, lift.
      fold video_gen.
      erewrite qna_loop_stops; [apply report_run | exact Hpre | exact Hbad].
    + simpl. eapply clean_qna_step. eassumption.
  - split.
    + unfold generate_advice_tiktok_video, try_except, mbind at 1, lift.
      fold video_gen.
      erewrite advice_loop_stops; [apply report_run | exact Hpre | exact Hbad].
    + simpl. eapply clean_advice_step. eassumption.
Qed.

Lemma C2_batch_stops_at_first_failure_witness :
  let video_gen := init "videos" (literal 8 10 : Q) in
  let w1 := snd (qna_loop no_wrap example_recording example_args example_now
                          video_gen 0 [complete_post] example_world) in
  let w2 := snd (qna_step no_wrap example_recording example_args example_now
                          video_gen 1 untitled_post w1) in
  (qna_loop no_wrap example_recording example_args example_now video_gen 0
            [complete_post] example_world = (Ok tt, w1)
   /\ qna_step no_wrap example_recording example_args example_now video_gen 1
               untitled_post w1 = (Raise (KeyError "title"), w2)
   /\ generate_qna_tiktok_video no_wrap example_recording example_args example_now
        (Ok ([complete_post] ++ untitled_post :: [complete_post; complete_post]))
        example_world
      = (Ok tt, reported (KeyError "title") w2)
   /\ List.length (written (reported (KeyError "title") w2)) = 1%nat)
  /\
  (advice_loop no_wrap example_recording example_args example_now video_gen 0
               [] example_world = (Ok tt, example_world)
   /\ advice_step no_wrap example_recording example_args example_now video_gen 0
                  complete_post example_world
      = (Raise (NameError "wrap"), example_world)
   /\ generate_advice_tiktok_video no_wrap example_recording example_args example_now
        (Ok ([] ++ complete_post :: [untitled_post; complete_post])) example_world
      = (Ok tt, reported (NameError "wrap") example_world)
   /\ written (reported (NameError "wrap") example_world) = []).
Proof.
  intros video_gen w1 w2.
  assert (Hpre : qna_loop no_wrap example_recording example_args example_now
                   video_gen 0 [complete_post] example_world = (Ok tt, w1))
    by reflexivity.
  assert (Hbad : qna_step no_wrap example_recording example_args example_now
                   video_gen (List.length [complete_post]) untitled_post w1
                 = (Raise (KeyError "title"), w2))
    by reflexivity.
  assert (Hpre' : advice_loop no_wrap example_recording example_args example_now
                    video_gen 0 [] example_world = (Ok tt, example_world))
    by reflexivity.
  assert (Hbad' : advice_step no_wrap example_recording example_args example_now
                    video_gen (List.length (@nil Post)) complete_post example_world
                  = (Raise (NameError "wrap"), example_world))
    by reflexivity.
  split.
  - split; [exact Hpre|]. split; [exact Hbad|].
    destruct (@C2_batch_stops_at_first_failure Q _ no_wrap example_recording
                example_args example_now [complete_post] untitled_post
                [complete_post; complete_post] (KeyError "title")
                example_world w1 w2) as [Hqna _].
    destruct (Hqna Hpre Hbad) as [Hrun Hwritten].
    split; [exact Hrun|].
    rewrite Hwritten. reflexivity.
  - split; [exact Hpre'|]. split; [exact Hbad'|].
    destruct (@C2_batch_stops_at_first_failure Q _ no_wrap example_recording
                example_args example_now [] complete_post
                [untitled_post; complete_post] (NameError "wrap")
                example_world example_world example_world) as [_ Hadvice].
    destruct (Hadvice Hpre' Hbad') as [Hrun Hwritten].
    split; [exact Hrun|].
    rewrite Hwritten. reflexivity.
Defined.

(** C2, the claim as stated fails: processing does not continue after a
    failure.  In a batch of a post without title followed by a complete
    post, the first raises KeyError; the script prints its report and
    returns, and nothing is written or printed for the second.  In the QnA
    variant the same complete post is processed and written when it comes
    first.  In the advice variant the complete post fails on its own when
    it comes first (the audio generator looks up [wrap], which its module
    does not import), and that single report is again all that is printed:
    the post behind it is not processed. *)
Lemma C2_later_submissions_not_processed :
  let qna := generate_qna_tiktok_video no_wrap example_recording example_args
                                       example_now in
  let advice := generate_advice_tiktok_video no_wrap example_recording example_args
                                             example_now in
  let report_lines :=
    ["---------------------------------------------------";
     "Exception was raised during the execution of script";
     "Err Type: <class 'KeyError'>";
     "Err Msg: 'title'";
     "---------------------------------------------------"]%string in
  (written (snd (qna (Ok [untitled_post; complete_post]) example_world)) = []
   /\ stdout (snd (qna (Ok [untitled_post; complete_post]) example_world))
      = report_lines
   /\ map fst (written (snd (qna (Ok [complete_post; untitled_post]) example_world)))
      = ["output/qna_3112026_95_0/finalized_qna.mp4"]%string)
  /\
  (written (snd (advice (Ok [untitled_post; complete_post]) example_world)) = []
   /\ stdout (snd (advice (Ok [untitled_post; complete_post]) example_world))
      = report_lines
   /\ written (snd (advice (Ok [complete_post; untitled_post]) example_world)) = []
   /\ stdout (snd (advice (Ok [complete_post; untitled_post]) example_world))
      = ["---------------------------------------------------";
         "Exception was raised during the execution of script";
         "Err Type: <class 'NameError'>";
         "Err Msg: name 'wrap' is not defined";
         "---------------------------------------------------"]%string).
Proof.
  cbv zeta.
  split; (split; [vm_compute; reflexivity|]); (split; [vm_compute; reflexivity|]).
  - vm_compute; reflexivity.
  - split; vm_compute; reflexivity.
Qed.

(* ================================================================== *)
(** * The sentence handed to gTTS *)
(* ================================================================== *)

Local Open Scope nat_scope.

Lemma string_length_append (a b : string) :
  String.length (a ++ b) = String.length a + String.length b.
Proof. induction a as [|c a IH]; simpl; [reflexivity | now rewrite IH]. Qed.

Lemma remove_asterisks_append (a b : string) :
  remove_asterisks (a ++ b) = (remove_asterisks a ++ remove_asterisks b)%string.
Proof.
  induction a as [|c a IH]; simpl; [reflexivity|].
  destruct (Ascii.eqb c star); simpl; now rewrite IH.
Qed.

Lemma remove_asterisks_stars (k : nat) : remove_asterisks (stars k) = "".
Proof. induction k as [|k IH]; simpl; [reflexivity | exact IH]. Qed.

(** The pattern [[\\*]{1}] with the empty replacement erases a run. *)
Lemma sub_run_single (fuel : nat) :
  forall k, k <= fuel -> sub_run fuel 1 (Some 1) "" k = "".
Proof.
  induction fuel as [|fuel IH]; intros k Hk; simpl.
  - replace k with 0 by lia. reflexivity.
  - destruct (Nat.ltb_spec k 1).
    + replace k with 0 by lia. reflexivity.
    + apply IH. lia.
Qed.

Lemma sub_scan_single (s : string) :
  forall run, sub_scan 1 (Some 1) "" s run = remove_asterisks s.
Proof.
  induction s as [|c s IH]; intros run; simpl.
  - now apply sub_run_single.
  - destruct (Ascii.eqb c star).
    + apply IH.
    + rewrite sub_run_single by lia. simpl. now rewrite IH.
Qed.

(** The pattern [[\\*]{2,}] rewrites a run of two or more to one beep. *)
Lemma sub_run_beep (k : nat) :
  sub_run k 2 None "beep" k = if k <? 2 then stars k else "beep"%string.
Proof.
  destruct k as [|k]; [reflexivity|].
  simpl sub_run. destruct (Nat.ltb_spec (S k) 2); [reflexivity|].
  rewrite Nat.sub_diag. destruct k; reflexivity.
Qed.

Lemma remove_asterisks_length (s : string) :
  String.length (remove_asterisks s) + count_asterisks s = String.length s.
Proof.
  induction s as [|c s IH]; simpl; [reflexivity|].
  destruct (Ascii.eqb c star); simpl; lia.
Qed.

Lemma remove_asterisks_clean (s : string) :
  count_asterisks (remove_asterisks s) = 0.
Proof.
  induction s as [|c s IH]; simpl; [reflexivity|].
  destruct (Ascii.eqb c star) eqn:E; simpl; [exact IH|].
  rewrite E. exact IH.
Qed.

Lemma remove_asterisks_filter (s : string) :
  list_ascii_of_string (remove_asterisks s)
  = filter (fun c => negb (Ascii.eqb c star)) (list_ascii_of_string s).
Proof.
  induction s as [|c s IH]; simpl; [reflexivity|].
  destruct (Ascii.eqb c star); simpl; now rewrite IH.
Qed.

(** Each censored word adds the four letters of beep to what is left when
    the asterisks are gone. *)
Lemma beeped_scan_length (s : string) :
  forall run,
    String.length (remove_asterisks (sub_scan 2 None "beep" s run))
    = String.length (remove_asterisks s) + 4 * censored_words s run.
Proof.
  induction s as [|c s IH]; intros run; cbn [sub_scan censored_words].
  - rewrite sub_run_beep.
    destruct (Nat.ltb_spec run 2), (Nat.leb_spec 2 run); try lia.
    + rewrite remove_asterisks_stars. reflexivity.
    + reflexivity.
  - cbn [remove_asterisks]. destruct (Ascii.eqb c star) eqn:E.
    + apply IH.
    + rewrite remove_asterisks_append, string_length_append.
      cbn [remove_asterisks]. rewrite E. cbn [String.length].
      rewrite IH, sub_run_beep.
      destruct (Nat.ltb_spec run 2), (Nat.leb_spec 2 run); try lia.
      * rewrite remove_asterisks_stars. cbn [String.length]. lia.
      * change (String.length (remove_asterisks "beep")) with 4. lia.
Qed.

Lemma censored_words_found (s : string) :
  forall run,
    2 <= run
    \/ (1 <= run /\ exists s', s = String star s')
    \/ has_censored_run s = true ->
    1 <= censored_words s run.
Proof.
  induction s as [|c s IH]; intros run Hrun.
  - cbn [censored_words]. destruct Hrun as [Hrun|[(_ & s' & Hs)|Hs]]; try discriminate.
    destruct (Nat.leb_spec 2 run); lia.
  - cbn [censored_words]. destruct (Ascii.eqb_spec c star) as [->|Hc].
    + apply IH. destruct Hrun as [Hrun|[(Hrun & _)|Hs]].
      * left. lia.
      * left. lia.
      * cbn [has_censored_run] in Hs. destruct s as [|b s]; [discriminate|].
        apply orb_true_iff in Hs. destruct Hs as [Hs|Hs].
        -- apply andb_true_iff in Hs. destruct Hs as [_ Hb].
           apply Ascii.eqb_eq in Hb. subst b.
           right. left. split; [lia|]. now exists s.
        -- right. right. exact Hs.
    + destruct Hrun as [Hrun|[(_ & s' & Hs)|Hs]].
      * destruct (Nat.leb_spec 2 run); lia.
      * inversion Hs. congruence.
      * assert (1 <= censored_words s 0); [|lia].
        apply IH. right. right.
        cbn [has_censored_run] in Hs. destruct s as [|b s]; [discriminate|].
        apply orb_true_iff in Hs. destruct Hs as [Hs|Hs]; [|exact Hs].
        apply andb_true_iff in Hs. destruct Hs as [Ha _].
        apply Ascii.eqb_eq in Ha. congruence.
Qed.

(** C10.  [sanitize_sentence_for_gtts] returns its input with every
    asterisk removed and nothing else changed: the characters of the result
    are the characters of the input other than the asterisk, in order, so
    the result is shorter by the number of asterisks and holds none.  A
    censored run is deleted, not read as beep: whenever the input holds two
    asterisks in a row, the result differs from the sentence with the beep
    substitution applied, which the function computes and discards. *)
Theorem C10_sanitize_removes_asterisks (s : string) :
  sanitize_sentence_for_gtts s = remove_asterisks s
  /\ list_ascii_of_string (sanitize_sentence_for_gtts s)
     = filter (fun c => negb (Ascii.eqb c star)) (list_ascii_of_string s)
  /\ String.length (sanitize_sentence_for_gtts s) + count_asterisks s = String.length s
  /\ count_asterisks (sanitize_sentence_for_gtts s) = 0
  /\ (has_censored_run s = true ->
      String.length (sanitize_sentence_for_gtts s) < String.length (beeped s)
      /\ sanitize_sentence_for_gtts s <> beeped s).
Proof.
  assert (Hs : sanitize_sentence_for_gtts s = remove_asterisks s).
  { unfold sanitize_sentence_for_gtts, re_sub_stars. apply sub_scan_single. }
  rewrite Hs. split; [reflexivity|].
  split; [apply remove_asterisks_filter|].
  split; [apply remove_asterisks_length|].
  split; [apply remove_asterisks_clean|].
  intros Hrun.
  assert (Hlen : String.length (remove_asterisks s) < String.length (beeped s)).
  { unfold beeped, re_sub_stars. rewrite sub_scan_single, beeped_scan_length.
    pose proof (@censored_words_found s 0 (or_intror (or_intror Hrun))). lia. }
  split; [exact Hlen|].
  intros Heq. rewrite Heq in Hlen. lia.
Qed.

Lemma C10_sanitize_removes_asterisks_witness :
  has_censored_run "what the **** is *this*" = true
  /\ sanitize_sentence_for_gtts "what the **** is *this*" = "what the  is this"%string
  /\ beeped "what the **** is *this*" = "what the beep is this"%string
  /\ sanitize_sentence_for_gtts "what the **** is *this*"
     <> beeped "what the **** is *this*".
Proof.
  assert (Hrun : has_censored_run "what the **** is *this*" = true) by reflexivity.
  split; [exact Hrun|]. split; [reflexivity|]. split; [reflexivity|].
  apply (C10_sanitize_removes_asterisks "what the **** is *this*"). exact Hrun.
Defined.

(* ================================================================== *)
(** * Further properties of the segment loop *)
(* ================================================================== *)

Section AdmissionFacts.

Context {F : Type} `{PyFloat F}.
Variable wrap : string -> Z -> list string.

(** Planning a list in two parts is planning the whole list: the loop
    over [first ++ second] ends in the state that the loop over [second]
    reaches from the state the loop over [first] ended in. *)
Lemma text_loop_app (first second : list (AudioItem F)) (max : F) (cc : Z)
    (gap : F) :
  forall cur clips,
    text_loop wrap (first ++ second) max cc gap cur clips
    = text_loop wrap second max cc gap
        (fst (text_loop wrap first max cc gap cur clips))
        (snd (text_loop wrap first max cc gap cur clips)).
Proof.
  induction first as [|t rest IH]; intros cur clips; simpl.
  - reflexivity.
  - destruct (cur +. audio_duration t <=.? max); apply IH.
Qed.

(** What the loop adds to the clips it was given. *)
Lemma text_loop_spec (texts : list (AudioItem F)) (max : F) (cc : Z) (gap : F) :
  forall cur clips,
  exists new kept,
    snd (text_loop wrap texts max cc gap cur clips) = clips ++ new
    /\ subseq kept texts
    /\ map clip_content new = map (item_content wrap cc) kept
    /\ chained gap cur new
    /\ Forall (fun c => exists d, clip_duration c = Some d
                                  /\ (clip_start c +. d <=.? max) = true) new.
Proof.
  induction texts as [|t rest IH]; intros cur clips.
  - exists [], []. simpl. rewrite app_nil_r.
    repeat split; constructor.
  - simpl. destruct (cur +. audio_duration t <=.? max) eqn:Hfit.
    + destruct (IH (cur +. (audio_duration t +. gap))
                   (clips ++ [{| clip_text := process_text wrap (text t) (cc + 8);
                                 clip_fontsize := 60; clip_pos_y := 320;
                                 clip_start := cur;
                                 clip_duration := Some (audio_duration t);
                                 clip_audio := Some (audio_filepath t) |}]))
        as (new & kept & Hsnd & Hsub & Hcontent & Hchain & Hall).
      eexists (_ :: new), (t :: kept).
      split; [rewrite Hsnd, <- app_assoc; reflexivity|].
      split; [now constructor|].
      split; [simpl; now rewrite Hcontent|].
      split.
      * simpl. split; [reflexivity|]. eexists. split; [reflexivity | exact Hchain].
      * constructor; [|exact Hall]. eexists. split; [reflexivity | exact Hfit].
    + destruct (IH cur clips) as (new & kept & Hsnd & Hsub & Hcontent & Hchain & Hall).
      exists new, kept. repeat split; try assumption. now constructor.
Qed.

(** X1.  Budget: every segment the loop admits ends no later than
    [max_vid_length], by the very comparison of the code. *)
Theorem admitted_within_budget (texts : list (AudioItem F)) (max : F) (cc : Z)
    (gap title_offset : F) :
  Forall (fun c => exists d, clip_duration c = Some d
                             /\ (clip_start c +. d <=.? max) = true)
         (snd (text_loop wrap texts max cc gap title_offset [])).
Proof.
  destruct (text_loop_spec texts max cc gap title_offset [])
    as (new & kept & Hsnd & _ & _ & _ & Hall).
  rewrite Hsnd. exact Hall.
Qed.

(** X2.  Contiguity: the admitted segments follow one another from the end
    of the title; each starts exactly where the previous one and the gap
    behind it ended, whether or not items were rejected in between. *)
Theorem admitted_contiguous (texts : list (AudioItem F)) (max : F) (cc : Z)
    (gap title_offset : F) :
  chained gap title_offset (snd (text_loop wrap texts max cc gap title_offset [])).
Proof.
  destruct (text_loop_spec texts max cc gap title_offset [])
    as (new & kept & Hsnd & _ & _ & Hchain & _).
  rewrite Hsnd. exact Hchain.
Qed.

(** X3.  Admission keeps the order and the content of the items: the
    admitted clips are the clips of a subsequence of the input list, in the
    order of the list, each with the wrapped text, the audio file and the
    full duration of its item.  No item is repeated, reordered or cut. *)
Theorem admitted_subsequence (texts : list (AudioItem F)) (max : F) (cc : Z)
    (gap title_offset : F) :
  exists kept,
    subseq kept texts
    /\ map clip_content (snd (text_loop wrap texts max cc gap title_offset []))
       = map (item_content wrap cc) kept.
Proof.
  destruct (text_loop_spec texts max cc gap title_offset [])
    as (new & kept & Hsnd & Hsub & Hcontent & _ & _).
  exists kept. rewrite Hsnd. split; assumption.
Qed.

(** X4.  When no item fits behind the title, nothing is admitted and the
    cursor stays at the end of the title: the video shows its overlays and
    the closing card, which starts where the title ended. *)
Theorem nothing_admitted_when_nothing_fits (video : Video F)
    (texts : list (AudioItem F)) (max : F) (cc : Z) (gap title_offset : F) :
  Forall (fun t => (title_offset +. audio_duration t <=.? max) = false) texts ->
  text_loop wrap texts max cc gap title_offset [] = (title_offset, [])
  /\ map (@clip_start F)
         (overlays (write_multi_text_to_video wrap video title_offset texts
                                              max cc gap))
     = map (@clip_start F) (overlays video) ++ [title_offset].
Proof.
  intros Hnone.
  assert (Hloop : text_loop wrap texts max cc gap title_offset [] = (title_offset, [])).
  { induction Hnone as [|t rest Ht _ IH]; simpl; [reflexivity|].
    rewrite Ht. exact IH. }
  split; [exact Hloop|].
  rewrite write_multi_overlays. cbv zeta. rewrite Hloop. simpl.
  rewrite map_app. reflexivity.
Qed.

End AdmissionFacts.

Lemma nothing_admitted_when_nothing_fits_witness :
  let texts := [item "long" 40%Q; item "longer" 55%Q] in
  let video : Video Q := background "clip.mp4" (0, 30)%Z 30%Z in
  Forall (fun t => ((58 # 10)%Q +. audio_duration t <=.? 30%Q) = false) texts
  /\ text_loop no_wrap texts 30%Q 30 (5 # 10)%Q (58 # 10)%Q [] = ((58 # 10)%Q, []).
Proof.
  intros texts video.
  assert (Hnone : Forall (fun t => ((58 # 10)%Q +. audio_duration t <=.? 30%Q) = false)
                         texts)
    by (repeat constructor).
  split; [exact Hnone|].
  apply (@nothing_admitted_when_nothing_fits Q _ no_wrap video texts 30%Q 30
           (5 # 10)%Q (58 # 10)%Q Hnone).
Defined.

Section AdmissionComplete.

Context {F : Type} `{PyFloat F}.
Variable wrap : string -> Z -> list string.

Lemma text_loop_fit (texts : list (AudioItem F)) (max : F) (cc : Z) (gap : F) :
  forall cur clips,
  exists new,
    snd (text_loop wrap texts max cc gap cur clips) = clips ++ new
    /\ (List.length new <= List.length texts)%nat
    /\ (all_fit texts max gap cur = true ->
        map clip_content new = map (item_content wrap cc) texts
        /\ fst (text_loop wrap texts max cc gap cur clips)
           = cursor_behind texts gap cur)
    /\ (all_fit texts max gap cur = false ->
        (List.length new < List.length texts)%nat).
Proof.
  induction texts as [|t rest IH]; intros cur clips.
  - exists []. cbn. rewrite app_nil_r.
    split; [reflexivity|]. split; [apply le_n|].
    split; [intros _; split; reflexivity | discriminate].
  - cbn [text_loop all_fit].
    destruct (cur +. audio_duration t <=.? max) eqn:Hfit; cbn [andb].
    + destruct (IH (cur +. (audio_duration t +. gap))
                   (clips ++ [{| clip_text := process_text wrap (text t) (cc + 8);
                                 clip_fontsize := 60; clip_pos_y := 320;
                                 clip_start := cur;
                                 clip_duration := Some (audio_duration t);
                                 clip_audio := Some (audio_filepath t) |}]))
        as (new & Hsnd & Hlen & Hall & Hsome).
      eexists (_ :: new).
      split; [rewrite Hsnd, <- app_assoc; reflexivity|].
      split; [cbn [List.length]; apply le_n_S; exact Hlen|].
      split.
      * intros Hrest. destruct (Hall Hrest) as [Hcontent Hcursor].
        split; [cbn [map]; rewrite Hcontent; reflexivity | exact Hcursor].
      * intros Hrest. cbn [List.length]. apply le_n_S. exact (Hsome Hrest).
    + destruct (IH cur clips) as (new & Hsnd & Hlen & _ & _).
      exists new. split; [exact Hsnd|].
      split; [cbn [List.length]; apply le_S; exact Hlen|].
      split; [discriminate|].
      intros _. cbn [List.length]. apply le_n_S. exact Hlen.
Qed.

(** X5.  Nothing is dropped exactly when every item passes the comparison
    of the loop at the cursor that the items before it and their gaps
    leave.  Then every item is admitted, in order and with its own content,
    and the cursor ends behind the last item and its gap; otherwise fewer
    clips than items are admitted.  The sums are those of the code, in its
    association, for every number type: at binary64 an item that fits in
    exact arithmetic can fail the comparison by the rounding of the sums
    before it. *)
Theorem all_admitted_when_all_fit (texts : list (AudioItem F)) (max : F) (cc : Z)
    (gap title_offset : F) :
  let r := text_loop wrap texts max cc gap title_offset [] in
  (all_fit texts max gap title_offset = true ->
   map clip_content (snd r) = map (item_content wrap cc) texts
   /\ List.length (snd r) = List.length texts
   /\ fst r = cursor_behind texts gap title_offset)
  /\ (all_fit texts max gap title_offset = false ->
      (List.length (snd r) < List.length texts)%nat).
Proof.
  intros r.
  destruct (text_loop_fit texts max cc gap title_offset [])
    as (new & Hsnd & _ & Hall & Hsome).
  unfold r. rewrite Hsnd. cbn [app]. split.
  - intros Hfit. destruct (Hall Hfit) as [Hcontent Hcursor].
    split; [exact Hcontent|]. split; [|exact Hcursor].
    rewrite <- (length_map clip_content), Hcontent. apply length_map.
  - exact Hsome.
Qed.

End AdmissionComplete.

(** The same offsets, durations, gap and budget in the two arithmetics: in
    exact arithmetic 10.1 + 7.78 + 0.5 + 1.62 is 20 and both items are
    admitted; at binary64 the cursor behind the first item is
    18.380000000000003 and the second item is rejected. *)
Lemma all_admitted_when_all_fit_witness :
  let exact := [item "a" (778 # 100)%Q; item "b" (162 # 100)%Q] in
  let binary := [item "a" (literal 778 100 : float); item "b" (literal 162 100)] in
  (all_fit exact 20%Q (5 # 10)%Q (101 # 10)%Q = true
   /\ List.length (snd (text_loop no_wrap exact 20%Q 30%Z (5 # 10)%Q (101 # 10)%Q []))
      = 2%nat)
  /\ (all_fit binary (of_int 20) (literal 5 10) (literal 101 10) = false
      /\ (List.length (snd (text_loop no_wrap binary (of_int 20) 30%Z (literal 5 10)
                                      (literal 101 10) []))
          < 2)%nat).
Proof.
  intros exact binary. split.
  - assert (Hfit : all_fit exact 20%Q (5 # 10)%Q (101 # 10)%Q = true)
      by (vm_compute; reflexivity).
    split; [exact Hfit|].
    destruct (@all_admitted_when_all_fit Q _ no_wrap exact 20%Q 30%Z (5 # 10)%Q
                (101 # 10)%Q) as [Hall _].
    exact (proj1 (proj2 (Hall Hfit))).
  - assert (Hfit : all_fit binary (of_int 20) (literal 5 10) (literal 101 10) = false)
      by (vm_compute; reflexivity).
    split; [exact Hfit|].
    destruct (@all_admitted_when_all_fit float _ no_wrap binary (of_int 20) 30%Z
                (literal 5 10) (literal 101 10)) as [_ Hsome].
    exact (Hsome Hfit).
Defined.

Local Open Scope Q_scope.

Lemma last_clip_nonempty (c : TextClip Q) (rest : list (TextClip Q)) :
  exists x, last_clip (c :: rest) = Some x.
Proof.
  destruct (@exists_last _ (c :: rest)) as (front & x & Heq); [discriminate|].
  exists x. rewrite Heq. apply last_clip_snoc.
Qed.

Lemma cursor_after_cons (gap cur cur' : Q) (c c' : TextClip Q)
    (rest : list (TextClip Q)) :
  cursor_after cur gap (c :: c' :: rest) = cursor_after cur' gap (c' :: rest).
Proof.
  unfold cursor_after.
  change (last_clip (c :: c' :: rest)) with (last_clip (c' :: rest)).
  destruct (last_clip_nonempty c' rest) as [x ->]. reflexivity.
Qed.

Lemma chained_sequential (gap : Q) (clips : list (TextClip Q)) :
  0 <= gap ->
  forall cur t closing,
    chained gap cur clips -> t <= cur ->
    clip_start closing = cursor_after cur gap clips ->
    sequential t (clips ++ [closing]).
Proof.
  intros Hgap. induction clips as [|c rest IH]; intros cur t closing Hch Ht Hclose.
  - simpl. split; [|exact I]. rewrite Hclose. exact Ht.
  - destruct Hch as (Hstart & d & Hd & Hrest). cbn [app sequential].
    split; [rewrite Hstart; exact Ht|].
    rewrite Hd. apply (IH (cur +. (d +. gap))).
    + exact Hrest.
    + rewrite Hstart. cbn [fadd PyFloat_Q]. lra.
    + rewrite Hclose. destruct rest as [|c' rest'].
      * unfold cursor_after, last_clip. cbn. rewrite Hd, Hstart. reflexivity.
      * apply cursor_after_cons.
Qed.

(** X6.  The overlays of a plan never overlap in time when the gap is not
    negative: the title starts at 0, the first admitted segment starts no
    earlier than the title ends, each admitted segment starts no earlier
    than the previous one ends, and the closing card starts no earlier
    than the last segment ends. *)
Theorem plan_overlays_sequential (wrap : string -> Z -> list string)
    (self : VideoGenerator Q) (path : string) (window : Z * Z)
    (title : AudioItem Q) (texts : list (AudioItem Q)) (max cc : Z) (gap : Q) :
  0 <= gap ->
  sequential 0 (overlays (plan wrap self (background path window max) title
                               texts max cc gap)).
Proof.
  intros Hgap. unfold plan, write_title_to_video.
  rewrite write_multi_overlays. cbv zeta.
  cbn [overlays set_duration composite background app sequential clip_start
       clip_duration].
  split; [vm_compute; discriminate|].
  eapply chained_sequential.
  - exact Hgap.
  - destruct (text_loop_spec wrap texts (of_int max) cc gap
                (audio_duration title +. title_buffer self) [])
      as (new & kept & Hsnd & _ & _ & Hchain & _).
    rewrite Hsnd. exact Hchain.
  - cbn [fadd PyFloat_Q of_int]. unfold inject_Z. lra.
  - cbn [clip_start]. apply text_loop_cursor.
Qed.

Lemma plan_overlays_sequential_witness :
  0 <= 5 # 10
  /\ sequential 0
       (overlays (plan no_wrap (init "videos" (8 # 10)) (background "clip.mp4"
                    (0, 30)%Z 30) (item "title" 5)
                    [item "a" 10; item "b" 30; item "c" 10] 30 30%Z (5 # 10))).
Proof.
  assert (Hgap : 0 <= 5 # 10) by (vm_compute; discriminate).
  split; [exact Hgap|].
  apply (@plan_overlays_sequential no_wrap (init "videos" (8 # 10)) "clip.mp4"
           (0, 30)%Z (item "title" 5) [item "a" 10; item "b" 30; item "c" 10]
           30 30 (5 # 10) Hgap).
Defined.

(* ================================================================== *)
(** * Further properties of the background selection and of the window *)
(* ================================================================== *)

Local Open Scope Z_scope.

Section SelectionOutcome.

Context {F : Type} `{PyFloat F}.

Variable videos_path : string.
Variable buffer : F.

Lemma pick_random_video_empty (w : World F) :
  mp4_files (init videos_path buffer) (folder w) = [] ->
  pick_random_video (init videos_path buffer) w
  = (Raise (ValueError ("There are no .mp4 files in " ++ videos_path)), w).
Proof.
  intros Hnone. unfold pick_random_video, mbind, get_folder. cbn beta iota.
  rewrite Hnone. reflexivity.
Qed.

(** X7.  The outcome of a selection is decided by the candidates.  Without
    any .mp4 entry the call raises ValueError and touches nothing, not even
    the random generator.  With .mp4 entries that the marker all excludes it
    raises IndexError and leaves folder and marker as they were.  In every
    other case it returns a path. *)
Theorem pick_random_video_outcome (w : World F) :
  let self := init videos_path buffer in
  (mp4_files self (folder w) = [] ->
   pick_random_video self w
   = (Raise (ValueError ("There are no .mp4 files in " ++ videos_path)), w))
  /\ (mp4_files self (folder w) <> [] -> candidates self (folder w) = [] ->
      fst (pick_random_video self w)
      = Raise (IndexError "Cannot choose from an empty sequence")
      /\ folder (snd (pick_random_video self w)) = folder w)
  /\ (candidates self (folder w) <> [] ->
      exists p, fst (pick_random_video self w) = Ok p).
Proof.
  intros self. split; [apply pick_random_video_empty|]. split.
  - intros Hsome Hnone. unfold self.
    rewrite pick_random_video_run by exact Hsome.
    fold self. rewrite Hnone. split; reflexivity.
  - intros Hcand.
    assert (Hsome : mp4_files self (folder w) <> []).
    { intros Hnil. apply Hcand. unfold candidates. rewrite Hnil.
      destruct (read_marker (folder w)); reflexivity. }
    unfold self. rewrite pick_random_video_run by exact Hsome. fold self.
    destruct (choice_nonempty (entropy w (draws w)) Hcand) as (x & Hx & _).
    rewrite Hx. eexists. reflexivity.
Qed.


(** X9.  No candidate is starved: for every candidate there is a draw of
    the random generator on which the selection returns it. *)
Theorem pick_random_video_reaches (w : World F) (name : string) :
  let self := init videos_path buffer in
  In name (candidates self (folder w)) ->
  exists e : nat,
    forall ent : nat -> nat,
      ent (draws w) = e ->
      fst (pick_random_video self
             {| folder := folder w; entropy := ent; draws := draws w;
                written := written w; stdout := stdout w |})
      = Ok (join videos_path name).
Proof.
  intros self Hin.
  destruct (In_nth_error _ _ Hin) as [n Hn].
  assert (Hlt : (n < List.length (candidates self (folder w)))%nat).
  { apply nth_error_Some. rewrite Hn. discriminate. }
  exists n. intros ent Hent.
  assert (Hsome : mp4_files self (folder w) <> []).
  { intros Hnil. unfold candidates in Hin. rewrite Hnil in Hin.
    destruct (read_marker (folder w)); exact Hin. }
  unfold self. rewrite pick_random_video_run by exact Hsome. fold self.
  cbn [folder entropy draws]. rewrite Hent.
  assert (Hchoice : choice n (candidates self (folder w)) = Ok name).
  { unfold choice, randbelow.
    destruct (candidates self (folder w)) as [|c cs] eqn:Hc; [inversion Hin|].
    rewrite Z.mod_small by lia. rewrite Nat2Z.id, Hn. reflexivity. }
  rewrite Hchoice. reflexivity.
Qed.

(** X10.  Cutting the window never touches the folder: whatever the
    outcome, entries, marker, written videos and console are as before, and
    at most one draw was made. *)
Theorem crop_leaves_world (self : VideoGenerator F) (path : string) (length : Z)
    (w : World F) :
  let w' := snd (crop_video_to_tiktok_format self path length w) in
  folder w' = folder w
  /\ written w' = written w
  /\ stdout w' = stdout w
  /\ (draws w <= draws w' <= S (draws w))%nat.
Proof.
  unfold crop_video_to_tiktok_format, VideoFileClip, mbind, get_folder.
  cbn beta iota.
  destruct (find _ (entries (folder w))) as [[name [d|]]|];
    unfold ret, raise; cbn; try (repeat split; lia).
  destruct (to_int d); cbn; try (repeat split; lia).
  destruct (randrange (entropy w (draws w)) 0 (z - length) length);
    cbn; repeat split; lia.
Qed.

(** X11.  A path that names no entry of the folder, or an entry that is no
    readable video, cannot be cut: the call raises IOError before any draw
    and leaves the world as it was. *)
Theorem crop_unreadable_raises (self : VideoGenerator F) (path : string)
    (length : Z) (w : World F) :
  (forall name d,
     find (fun entry => String.eqb (join (vid_path self) (fst entry)) path)
          (entries (folder w)) <> Some (name, Some d)) ->
  exists msg,
    crop_video_to_tiktok_format self path length w = (Raise (IOError msg), w).
Proof.
  intros Hnone.
  unfold crop_video_to_tiktok_format, VideoFileClip, mbind, get_folder.
  cbn beta iota.
  destruct (find _ (entries (folder w))) as [[name [d|]]|] eqn:Hfind.
  - exfalso. eapply Hnone. reflexivity.
  - eexists. reflexivity.
  - eexists. reflexivity.
Qed.

End SelectionOutcome.

Lemma pick_random_video_outcome_witness :
  let w : World Q :=
    {| folder := {| entries := [("notes.txt", None)]; marker := Some "clip.mp4" |};
       entropy := fun _ => 0%nat; draws := 0; written := []; stdout := [] |} in
  mp4_files (init "videos" (8 # 10)%Q) (folder w) = []
  /\ pick_random_video (init "videos" (8 # 10)%Q) w
     = (Raise (ValueError "There are no .mp4 files in videos"), w).
Proof.
  intros w.
  assert (Hnone : mp4_files (init "videos" (8 # 10)%Q) (folder w) = []) by reflexivity.
  split; [exact Hnone|].
  destruct (@pick_random_video_outcome Q "videos" (8 # 10)%Q w) as [Hvalue _].
  exact (Hvalue Hnone).
Defined.


Lemma pick_random_video_reaches_witness :
  let self := init "videos" (8 # 10)%Q in
  In "a.mp4" (candidates self (folder example_world))
  /\ exists e : nat,
       forall ent : nat -> nat,
         ent 0%nat = e ->
         fst (pick_random_video self
                {| folder := folder example_world; entropy := ent; draws := 0;
                   written := []; stdout := [] |})
         = Ok "videos/a.mp4".
Proof.
  intros self.
  assert (Hin : In "a.mp4" (candidates self (folder example_world)))
    by (left; reflexivity).
  split; [exact Hin|].
  exact (@pick_random_video_reaches Q "videos" (8 # 10)%Q example_world "a.mp4" Hin).
Defined.

Lemma crop_unreadable_raises_witness :
  let self := init "videos" (8 # 10)%Q in
  (forall name d,
     find (fun entry => String.eqb (join (vid_path self) (fst entry)) "videos/c.mp4")
          (entries (folder example_world)) <> Some (name, Some d))
  /\ exists msg,
       crop_video_to_tiktok_format self "videos/c.mp4" 30 example_world
       = (Raise (IOError msg), example_world).
Proof.
  intros self.
  assert (Hnone : forall name d,
             find (fun entry => String.eqb (join (vid_path self) (fst entry))
                                           "videos/c.mp4")
                  (entries (folder example_world)) <> Some (name, Some d))
    by (intros name d; vm_compute; discriminate).
  split; [exact Hnone|].
  exact (@crop_unreadable_raises Q _ self "videos/c.mp4" 30 example_world Hnone).
Defined.

(* ================================================================== *)
(** * Further properties of the text layout *)
(* ================================================================== *)

Lemma string_append_assoc (a b c : string) :
  ((a ++ b) ++ c = a ++ (b ++ c))%string.
Proof. induction a as [|x a IH]; simpl; [reflexivity | now rewrite IH]. Qed.

Lemma string_append_nil_r (a : string) : (a ++ "" = a)%string.
Proof. induction a as [|x a IH]; simpl; [reflexivity | now rewrite IH]. Qed.

(** Past the first block, the loop appends a newline and the block. *)
Lemma process_text_loop_later (blocks : list string) :
  forall (i : nat) (final_text : string),
    process_text_loop (S i) blocks final_text
    = fold_left (fun acc block => acc ++ newline ++ block)%string blocks final_text.
Proof.
  induction blocks as [|b rest IH]; intros i final_text; [reflexivity|].
  cbn [process_text_loop Nat.eqb fold_left]. apply IH.
Qed.

Lemma fold_newline_prefix (blocks : list string) :
  forall prefix acc : string,
    fold_left (fun acc block => acc ++ newline ++ block)%string blocks
              (prefix ++ acc)%string
    = (prefix
       ++ fold_left (fun acc block => acc ++ newline ++ block)%string blocks acc)%string.
Proof.
  induction blocks as [|b rest IH]; intros prefix acc; [reflexivity|].
  cbn [fold_left]. rewrite string_append_assoc. apply IH.
Qed.

Lemma fold_newline_concat (rest : list string) :
  forall b : string,
    fold_left (fun acc block => acc ++ newline ++ block)%string rest b
    = String.concat newline (b :: rest).
Proof.
  induction rest as [|b' rest IH]; intros b; [reflexivity|].
  cbn [fold_left]. rewrite <- string_append_assoc, fold_newline_prefix, IH.
  rewrite string_append_assoc. reflexivity.
Qed.

(** X12.  [process_text] joins the blocks that [wrap] returns with single
    newlines: no newline before the first block or after the last, and the
    empty string when there is no block. *)
Theorem process_text_joins (wrap : string -> Z -> list string) (text : string)
    (char_count : Z) :
  process_text wrap text char_count
  = String.concat newline (wrap text char_count).
Proof.
  unfold process_text.
  destruct (wrap text char_count) as [|b rest]; [reflexivity|].
  cbn [process_text_loop Nat.eqb].
  rewrite process_text_loop_later. apply fold_newline_concat.
Qed.

(* ================================================================== *)
(** * Further properties of the pipelines *)
(* ================================================================== *)

Create HintDb quiet.

Section QuietFacts.

Context {F : Type} `{PyFloat F}.
Variable wrap : string -> Z -> list string.
Variable recording : string -> result F.

Lemma quiet_ret {A} (a : A) : quiet (ret (F := F) a).
Proof. intros w. reflexivity. Qed.

Lemma quiet_raise {A} (e : exn) : quiet (raise (F := F) (A := A) e).
Proof. intros w. reflexivity. Qed.

Lemma quiet_lift {A} (r : result A) : quiet (lift (F := F) r).
Proof. intros w. reflexivity. Qed.

Lemma quiet_getitem {A} (key : string) (field : option A) :
  quiet (getitem (F := F) key field).
Proof. intros w. destruct field; reflexivity. Qed.

Lemma quiet_next_entropy : quiet (next_entropy (F := F)).
Proof. intros w. reflexivity. Qed.

Lemma quiet_get_folder : quiet (get_folder (F := F)).
Proof. intros w. reflexivity. Qed.

Lemma quiet_put_folder (fo : Folder F) : quiet (put_folder fo).
Proof. intros w. reflexivity. Qed.

Lemma quiet_write_videofile (video : Video F) (path : string) :
  quiet (write_videofile video path).
Proof. intros w. reflexivity. Qed.

Lemma quiet_mbind {A B} (c : M F A) (k : A -> M F B) :
  quiet c -> (forall a, quiet (k a)) -> quiet (mbind c k).
Proof.
  intros Hc Hk w. unfold mbind. specialize (Hc w).
  destruct (c w) as [[a|e] w1]; simpl in *.
  - rewrite Hk. exact Hc.
  - exact Hc.
Qed.

Hint Resolve quiet_ret quiet_raise quiet_lift quiet_getitem quiet_next_entropy
  quiet_get_folder quiet_put_folder quiet_write_videofile : quiet.

Ltac quiet_steps :=
  repeat first
    [ apply quiet_mbind; [auto with quiet | intros]
    | progress auto with quiet
    | break_match ].

Lemma quiet_pick_random_video (self : VideoGenerator F) :
  quiet (pick_random_video self).
Proof. unfold pick_random_video. quiet_steps. Qed.

Lemma quiet_VideoFileClip (dir path : string) :
  quiet (VideoFileClip (F := F) dir path).
Proof. unfold VideoFileClip. quiet_steps. Qed.

Lemma quiet_crop (self : VideoGenerator F) (path : string) (length : Z) :
  quiet (crop_video_to_tiktok_format self path length).
Proof.
  unfold crop_video_to_tiktok_format.
  apply quiet_mbind; [apply quiet_VideoFileClip | intros video].
  quiet_steps.
Qed.

Lemma quiet_generate_audio_and_save (text output_filepath filename : string) :
  quiet (generate_audio_and_save recording text output_filepath filename).
Proof.
  apply quiet_mbind; [apply quiet_lift | intros; apply quiet_ret].
Qed.

Lemma quiet_comment_loop (dir : string) (comments : list Comment) :
  forall i acc, quiet (comment_loop recording dir i comments acc).
Proof.
  induction comments as [|c rest IH]; intros i acc; simpl.
  - apply quiet_ret.
  - destruct (String.eqb (comment c) ""); [apply IH|].
    apply quiet_mbind; [apply quiet_generate_audio_and_save | intros; apply IH].
Qed.

Lemma quiet_postbody_loop (dir : string) (chunks : list string) :
  forall i acc, quiet (postbody_loop recording dir i chunks acc).
Proof.
  induction chunks as [|c rest IH]; intros i acc; simpl.
  - apply quiet_ret.
  - apply quiet_mbind; [apply quiet_generate_audio_and_save | intros; apply IH].
Qed.

Hint Resolve quiet_pick_random_video quiet_crop quiet_generate_audio_and_save
  quiet_comment_loop quiet_postbody_loop : quiet.

Lemma quiet_generate_audio_from_qna_submission (base : string) (post : Post) :
  quiet (generate_audio_from_qna_submission recording base post).
Proof.
  unfold generate_audio_from_qna_submission.
  repeat (apply quiet_mbind; [auto with quiet | intros]). auto with quiet.
Qed.

Lemma quiet_generate_audio_from_advice_submission (base : string) (post : Post) :
  quiet (generate_audio_from_advice_submission recording base post).
Proof.
  unfold generate_audio_from_advice_submission.
  repeat (apply quiet_mbind; [auto with quiet | intros]). auto with quiet.
Qed.

Lemma quiet_generate_video_from_qna_submission (self : VideoGenerator F)
    (submission : Submission F) (out : string) (cc max : Z) :
  quiet (generate_video_from_qna_submission wrap self submission out cc max).
Proof.
  unfold generate_video_from_qna_submission.
  apply quiet_mbind; [auto with quiet | intros bg].
  apply quiet_mbind; [auto with quiet | intros cropped].
  apply quiet_mbind; [auto with quiet | intros title].
  destruct (write_title_to_video wrap self cropped title cc) as [v off].
  apply quiet_mbind; [auto with quiet | intros comments].
  apply quiet_write_videofile.
Qed.

Lemma quiet_generate_video_from_advice_submission (self : VideoGenerator F)
    (submission : Submission F) (out : string) (cc max : Z) :
  quiet (generate_video_from_advice_submission wrap self submission out cc max).
Proof.
  unfold generate_video_from_advice_submission.
  apply quiet_mbind; [auto with quiet | intros bg].
  apply quiet_mbind; [auto with quiet | intros cropped].
  apply quiet_mbind; [auto with quiet | intros title].
  destruct (write_title_to_video wrap self cropped title cc) as [v off].
  apply quiet_mbind; [auto with quiet | intros postbody].
  apply quiet_write_videofile.
Qed.

(** A body of the loop that returns has written one video, at the path of
    its index, and printed one line. *)
Lemma qna_step_ok (args : Namespace) (now : DateTime) (video_gen : VideoGenerator F)
    (i : nat) (post : Post) (w w' : World F) :
  qna_step wrap recording args now video_gen i post w = (Ok tt, w') ->
  exists v,
    written w' = written w ++ [(qna_video_path args now i, v)]
    /\ stdout w' = stdout w ++ [qna_success_line i].
Proof.
  unfold qna_step. intros Hrun. unfold mbind at 1 in Hrun.
  pose proof (keeps_generate_audio_from_qna_submission recording
                (join (output_folder args) (folder_name "qna" now i)) post w) as Hw1.
  pose proof (quiet_generate_audio_from_qna_submission
                (join (output_folder args) (folder_name "qna" now i)) post w) as Hs1.
  destruct (generate_audio_from_qna_submission recording _ post w)
    as [[info|e] w1]; [|discriminate].
  unfold mbind at 1 in Hrun.
  pose proof (quiet_generate_video_from_qna_submission video_gen info
                (join (output_folder args) (folder_name "qna" now i))
                (char_count args) (max_vid_length args) w1) as Hs2.
  destruct (generate_video_from_qna_submission wrap video_gen info _ _ _ w1)
    as [[[]|e] w2] eqn:Hvideo; [|discriminate].
  apply generate_video_from_qna_submission_ok in Hvideo.
  destruct Hvideo as (path & window & title & comments & _ & _ & Hw2).
  unfold print in Hrun. inversion Hrun; subst w'. simpl in *.
  eexists. split.
  - rewrite Hw2, Hw1. reflexivity.
  - rewrite Hs2, Hs1. reflexivity.
Qed.

(** The advice audio never returns: a key is missing, the recording of the
    title fails, or the name [wrap] is looked up.  The step of the advice
    loop therefore fails on every post, before a background is selected. *)
Lemma generate_audio_from_advice_submission_raises (base : string) (post : Post)
    (w : World F) :
  exists e,
    generate_audio_from_advice_submission recording base post w = (Raise e, w).
Proof.
  unfold generate_audio_from_advice_submission, mbind, getitem.
  destruct (post_title post) as [title|]; [|eexists; reflexivity].
  destruct (post_body post) as [body|]; [|eexists; reflexivity].
  unfold ret at 1 2. unfold generate_audio_and_save, mbind, lift.
  destruct (recording (sanitize_sentence_for_gtts title)); eexists; reflexivity.
Qed.

Lemma advice_step_raises (args : Namespace) (now : DateTime)
    (video_gen : VideoGenerator F) (i : nat) (post : Post) (w : World F) :
  exists e,
    advice_step wrap recording args now video_gen i post w = (Raise e, w).
Proof.
  unfold advice_step. unfold mbind at 1.
  destruct (generate_audio_from_advice_submission_raises
              (join (output_folder args) (folder_name "advice" now i)) post w)
    as [e ->].
  now exists e.
Qed.

Lemma advice_loop_raises (args : Namespace) (now : DateTime)
    (video_gen : VideoGenerator F) (i : nat) (post : Post) (rest : list Post)
    (w : World F) :
  exists e,
    advice_loop wrap recording args now video_gen i (post :: rest) w = (Raise e, w)
    /\ advice_step wrap recording args now video_gen i post w = (Raise e, w).
Proof.
  destruct (advice_step_raises args now video_gen i post w) as [e He].
  exists e. split; [|exact He].
  cbn [advice_loop]. unfold mbind. rewrite He. reflexivity.
Qed.

Lemma advice_loop_name_error (args : Namespace) (now : DateTime)
    (video_gen : VideoGenerator F) (i : nat) (post : Post) (rest : list Post)
    (title body : string) (d : F) (w : World F) :
  post_title post = Some title -> post_body post = Some body ->
  recording (sanitize_sentence_for_gtts title) = Ok d ->
  advice_loop wrap recording args now video_gen i (post :: rest) w
  = (Raise (NameError "wrap"), w).
Proof.
  intros Ht Hb Hd. cbn [advice_loop].
  unfold advice_step, generate_audio_from_advice_submission, generate_audio_and_save,
    mbind, getitem, lift, ret.
  rewrite Ht, Hb, Hd. reflexivity.
Qed.

Lemma qna_loop_ok (args : Namespace) (now : DateTime) (video_gen : VideoGenerator F)
    (posts : list Post) :
  forall (i : nat) (w w' : World F),
    qna_loop wrap recording args now video_gen i posts w = (Ok tt, w') ->
    map fst (written w')
    = map fst (written w)
      ++ map (qna_video_path args now) (seq i (List.length posts))
    /\ stdout w' = stdout w ++ map qna_success_line (seq i (List.length posts)).
Proof.
  induction posts as [|p rest IH]; intros i w w' Hrun.
  - inversion Hrun; subst. simpl. now rewrite !app_nil_r.
  - cbn [qna_loop] in Hrun. unfold mbind in Hrun.
    destruct (qna_step wrap recording args now video_gen i p w)
      as [[[]|e] w1] eqn:Hstep; [|discriminate].
    apply qna_step_ok in Hstep. destruct Hstep as (v & Hw1 & Hs1).
    apply IH in Hrun. destruct Hrun as [Hw' Hs'].
    cbn [List.length seq map]. split.
    + rewrite Hw', Hw1, map_app, <- app_assoc. reflexivity.
    + rewrite Hs', Hs1, <- app_assoc. reflexivity.
Qed.

End QuietFacts.

Section PipelineOutcome.

Context {F : Type} `{PyFloat F}.
Variable wrap : string -> Z -> list string.
Variable recording : string -> result F.

Lemma crop_keeps_folder (self : VideoGenerator F) (path : string) (length : Z)
    (w : World F) :
  folder (snd (crop_video_to_tiktok_format self path length w)) = folder w.
Proof.
  unfold crop_video_to_tiktok_format, VideoFileClip, mbind, get_folder.
  cbn beta iota.
  destruct (find _ (entries (folder w))) as [[name [d|]]|];
    unfold ret, raise; cbn; try reflexivity.
  destruct (to_int d); cbn; try reflexivity.
  destruct (randrange (entropy w (draws w)) 0 (z - length) length); reflexivity.
Qed.

(** What a successful run of the QnA variant has done. *)
Lemma generate_video_from_qna_submission_inv (videos_path : string) (buffer : F)
    (submission : Submission F) (out : string) (cc max : Z) (w w' : World F) :
  generate_video_from_qna_submission wrap (init videos_path buffer) submission
    out cc max w = (Ok tt, w') ->
  exists name start title comments,
    In name (mp4_files (init videos_path buffer) (folder w))
    /\ sub_title submission = Some title
    /\ sub_comments submission = Some comments
    /\ written w'
       = written w
         ++ [(join out (make_filename "qna"),
              plan wrap (init videos_path buffer)
                   (background (join videos_path name) (start, start + max) max)
                   title comments max cc (literal 5 10))]
    /\ marker (folder w') = Some name.
Proof.
  intros Hrun. unfold generate_video_from_qna_submission in Hrun.
  unfold mbind at 1 in Hrun.
  pose proof (keeps_pick_random_video (init videos_path buffer) w) as Hw1.
  destruct (pick_random_video (init videos_path buffer) w) as [[bg|e] w1] eqn:Hpick;
    [|discriminate].
  apply pick_random_video_ok in Hpick. destruct Hpick as (name & Hin & -> & Hfo).
  unfold mbind at 1 in Hrun.
  pose proof (keeps_crop (init videos_path buffer) (join videos_path name) max w1)
    as Hw2.
  pose proof (crop_keeps_folder (init videos_path buffer) (join videos_path name)
                max w1) as Hf2.
  destruct (crop_video_to_tiktok_format (init videos_path buffer) _ max w1)
    as [[cropped|e] w2] eqn:Hcrop; [|discriminate].
  apply crop_ok in Hcrop. destruct Hcrop as [start ->].
  destruct (sub_title submission) as [title|]; [|discriminate].
  unfold mbind at 1 in Hrun. unfold getitem at 1, ret at 1 in Hrun.
  cbv beta iota in Hrun.
  exists name, start, title.
  unfold plan.
  destruct (write_title_to_video wrap (init videos_path buffer) _ title cc)
    as [edited off].
  destruct (sub_comments submission) as [comments|]; [|discriminate].
  exists comments. split; [now apply candidates_incl|].
  split; [reflexivity|]. split; [reflexivity|].
  unfold mbind, getitem, ret, write_videofile in Hrun. inversion Hrun; subst.
  simpl in *. split; [now rewrite Hw2, Hw1|].
  rewrite Hf2, Hfo. reflexivity.
Qed.

Lemma generate_video_from_advice_submission_inv (videos_path : string) (buffer : F)
    (submission : Submission F) (out : string) (cc max : Z) (w w' : World F) :
  generate_video_from_advice_submission wrap (init videos_path buffer) submission
    out cc max w = (Ok tt, w') ->
  exists name start title postbody,
    In name (mp4_files (init videos_path buffer) (folder w))
    /\ sub_title submission = Some title
    /\ sub_postbody submission = Some postbody
    /\ written w'
       = written w
         ++ [(join out (make_filename "advice"),
              plan wrap (init videos_path buffer)
                   (background (join videos_path name) (start, start + max) max)
                   title postbody max cc (literal 1 10))]
    /\ marker (folder w') = Some name.
Proof.
  intros Hrun. unfold generate_video_from_advice_submission in Hrun.
  unfold mbind at 1 in Hrun.
  pose proof (keeps_pick_random_video (init videos_path buffer) w) as Hw1.
  destruct (pick_random_video (init videos_path buffer) w) as [[bg|e] w1] eqn:Hpick;
    [|discriminate].
  apply pick_random_video_ok in Hpick. destruct Hpick as (name & Hin & -> & Hfo).
  unfold mbind at 1 in Hrun.
  pose proof (keeps_crop (init videos_path buffer) (join videos_path name) max w1)
    as Hw2.
  pose proof (crop_keeps_folder (init videos_path buffer) (join videos_path name)
                max w1) as Hf2.
  destruct (crop_video_to_tiktok_format (init videos_path buffer) _ max w1)
    as [[cropped|e] w2] eqn:Hcrop; [|discriminate].
  apply crop_ok in Hcrop. destruct Hcrop as [start ->].
  destruct (sub_title submission) as [title|]; [|discriminate].
  unfold mbind at 1 in Hrun. unfold getitem at 1, ret at 1 in Hrun.
  cbv beta iota in Hrun.
  exists name, start, title.
  unfold plan.
  destruct (write_title_to_video wrap (init videos_path buffer) _ title cc)
    as [edited off].
  destruct (sub_postbody submission) as [postbody|]; [|discriminate].
  exists postbody. split; [now apply candidates_incl|].
  split; [reflexivity|]. split; [reflexivity|].
  unfold mbind, getitem, ret, write_videofile in Hrun. inversion Hrun; subst.
  simpl in *. split; [now rewrite Hw2, Hw1|].
  rewrite Hf2, Hfo. reflexivity.
Qed.

(** Once the background is picked, a run that raises leaves the folder as
    the selection left it. *)
Lemma after_pick_folder {A} (self : VideoGenerator F) (max : Z)
    (k : Video F -> M F A) (w : World F) (p : string) (w1 : World F) :
  pick_random_video self w = (Ok p, w1) ->
  (forall v w2, folder (snd (k v w2)) = folder w2) ->
  folder (snd (mbind (pick_random_video self)
                     (fun bg => mbind (crop_video_to_tiktok_format self bg max) k) w))
  = folder w1.
Proof.
  intros Hpick Hk. unfold mbind at 1. rewrite Hpick. unfold mbind.
  pose proof (crop_keeps_folder self p max w1) as Hcrop.
  destruct (crop_video_to_tiktok_format self p max w1) as [[v|e] w2]; simpl in *.
  - rewrite Hk. exact Hcrop.
  - exact Hcrop.
Qed.

(** X13.  A submission that lacks a key is never rendered.  When the title
    or the list of texts is missing, the run raises, writes no video and
    prints nothing; but it is not undone: when the selection of the
    background succeeded, the marker it wrote stays in the folder. *)
Theorem missing_key_is_not_rendered (self : VideoGenerator F)
    (submission : Submission F) (out : string) (cc max : Z) (w : World F) :
  (sub_title submission = None \/ sub_comments submission = None ->
   let run := generate_video_from_qna_submission wrap self submission out cc max w in
   is_ok (fst run) = false
   /\ written (snd run) = written w
   /\ stdout (snd run) = stdout w
   /\ (forall p w1, pick_random_video self w = (Ok p, w1) ->
                    folder (snd run) = folder w1))
  /\
  (sub_title submission = None \/ sub_postbody submission = None ->
   let run := generate_video_from_advice_submission wrap self submission out cc max w in
   is_ok (fst run) = false
   /\ written (snd run) = written w
   /\ stdout (snd run) = stdout w
   /\ (forall p w1, pick_random_video self w = (Ok p, w1) ->
                    folder (snd run) = folder w1)).
Proof.
  split; intros Hmissing run.
  - assert (Hfail : is_ok (fst run) = false).
    { destruct run as [[[]|e] w'] eqn:Hrun; [|reflexivity].
      apply generate_video_from_qna_submission_ok in Hrun.
      destruct Hrun as (? & ? & ? & ? & Ht & Hc & _).
      destruct Hmissing; congruence. }
    split; [exact Hfail|]. split.
    { destruct run as [[[]|e] w'] eqn:Hrun; [discriminate|].
      eapply clean_generate_video_from_qna_submission. exact Hrun. }
    split; [apply quiet_generate_video_from_qna_submission|].
    intros p w1 Hpick. unfold run, generate_video_from_qna_submission.
    apply after_pick_folder with (p := p); [exact Hpick|].
    intros v w2. unfold mbind, getitem, ret, raise.
    destruct (sub_title submission) as [title|]; [|reflexivity].
    destruct (write_title_to_video wrap self v title cc) as [edited off].
    destruct (sub_comments submission) as [comments|]; [|reflexivity].
    destruct Hmissing; discriminate.
  - assert (Hfail : is_ok (fst run) = false).
    { destruct run as [[[]|e] w'] eqn:Hrun; [|reflexivity].
      apply generate_video_from_advice_submission_ok in Hrun.
      destruct Hrun as (? & ? & ? & ? & Ht & Hc & _).
      destruct Hmissing; congruence. }
    split; [exact Hfail|]. split.
    { destruct run as [[[]|e] w'] eqn:Hrun; [discriminate|].
      eapply clean_generate_video_from_advice_submission. exact Hrun. }
    split; [apply quiet_generate_video_from_advice_submission|].
    intros p w1 Hpick. unfold run, generate_video_from_advice_submission.
    apply after_pick_folder with (p := p); [exact Hpick|].
    intros v w2. unfold mbind, getitem, ret, raise.
    destruct (sub_title submission) as [title|]; [|reflexivity].
    destruct (write_title_to_video wrap self v title cc) as [edited off].
    destruct (sub_postbody submission) as [postbody|]; [|reflexivity].
    destruct Hmissing; discriminate.
Qed.

(** X14.  A QnA batch without failure yields one video and one line per
    post, in the order of the posts: the video of the post at index i goes to
    <output>/qna_<date>_<time>_<i>/finalized_qna.mp4, the line says i + 1,
    and no report is printed. *)
Theorem batch_writes_one_video_per_post (args : Namespace) (now : DateTime)
    (posts : list Post) (w w' : World F) :
  let video_gen := init (background_folder args) (literal 8 10) in
  qna_loop wrap recording args now video_gen 0 posts w = (Ok tt, w') ->
  generate_qna_tiktok_video wrap recording args now (Ok posts) w = (Ok tt, w')
  /\ map fst (written w')
     = map fst (written w)
       ++ map (qna_video_path args now) (seq 0 (List.length posts))
  /\ stdout w' = stdout w ++ map qna_success_line (seq 0 (List.length posts)).
Proof.
  intros video_gen Hloop. split.
  - unfold generate_qna_tiktok_video, try_except, mbind at 1, lift.
    fold video_gen. rewrite Hloop. reflexivity.
  - eapply qna_loop_ok. exact Hloop.
Qed.

(** X15.  The scripts never let an exception escape: whatever the content
    file holds and whatever fails, both return normally.  When the content
    file itself cannot be read or parsed, the report is all that happens:
    folder, random generator and written videos are untouched. *)
Theorem scripts_never_raise (args : Namespace) (now : DateTime)
    (json_file : result (list Post)) (w : World F) :
  fst (generate_qna_tiktok_video wrap recording args now json_file w) = Ok tt
  /\ fst (generate_advice_tiktok_video wrap recording args now json_file w) = Ok tt
  /\ (forall err, json_file = Raise err ->
      generate_qna_tiktok_video wrap recording args now json_file w
      = (Ok tt, reported err w)
      /\ generate_advice_tiktok_video wrap recording args now json_file w
         = (Ok tt, reported err w)).
Proof.
  split; [|split].
  - unfold generate_qna_tiktok_video, try_except.
    match goal with |- context [match ?c w with _ => _ end] => destruct (c w) as [[[]|e] w1] end.
    + reflexivity.
    + rewrite report_run. reflexivity.
  - unfold generate_advice_tiktok_video, try_except.
    match goal with |- context [match ?c w with _ => _ end] => destruct (c w) as [[[]|e] w1] end.
    + reflexivity.
    + rewrite report_run. reflexivity.
  - intros err ->. split.
    + unfold generate_qna_tiktok_video, try_except, mbind, lift. apply report_run.
    + unfold generate_advice_tiktok_video, try_except, mbind, lift. apply report_run.
Qed.

End PipelineOutcome.

Lemma plan_within_budget (wrap : string -> Z -> list string)
    (self : VideoGenerator Q) (path : string) (window : Z * Z)
    (title : AudioItem Q) (texts : list (AudioItem Q)) (max cc : Z) (gap : Q) :
  (video_duration (plan wrap self (background path window max) title texts
                        max cc gap)
   <= inject_Z max)%Q.
Proof.
  unfold plan, write_title_to_video. rewrite write_multi_duration. cbv zeta.
  set (c := fst (text_loop _ _ _ _ _ _ _)).
  change (c + Py.min (inject_Z max - c) 3 <= inject_Z max)%Q.
  destruct (Qmin_cases (inject_Z max - c) 3) as [[Hle ->]|[Hlt ->]]; lra.
Qed.

(** X16.  What a successful run of a pipeline variant leaves behind: exactly
    one more video, named finalized_<type>.mp4 in the output folder; it is
    the plan of the title and texts of the submission over a window of
    [max_vid_length] seconds of one of the .mp4 files of the folder, it
    lasts at most [max_vid_length], and the name of that file is now the
    marker. *)
Theorem pipeline_writes_one_video (wrap : string -> Z -> list string)
    (videos_path : string) (buffer : Q) (submission : Submission Q)
    (out : string) (cc max : Z) (w w' : World Q) :
  let self := init videos_path buffer in
  (generate_video_from_qna_submission wrap self submission out cc max w = (Ok tt, w') ->
   exists name start title comments v,
     In name (mp4_files self (folder w))
     /\ sub_title submission = Some title
     /\ sub_comments submission = Some comments
     /\ v = plan wrap self (background (join videos_path name) (start, start + max) max)
                 title comments max cc (5 # 10)%Q
     /\ written w' = written w ++ [(join out "finalized_qna.mp4", v)]
     /\ marker (folder w') = Some name
     /\ (video_duration v <= inject_Z max)%Q)
  /\
  (generate_video_from_advice_submission wrap self submission out cc max w = (Ok tt, w') ->
   exists name start title postbody v,
     In name (mp4_files self (folder w))
     /\ sub_title submission = Some title
     /\ sub_postbody submission = Some postbody
     /\ v = plan wrap self (background (join videos_path name) (start, start + max) max)
                 title postbody max cc (1 # 10)%Q
     /\ written w' = written w ++ [(join out "finalized_advice.mp4", v)]
     /\ marker (folder w') = Some name
     /\ (video_duration v <= inject_Z max)%Q).
Proof.
  intros self. split; intros Hrun.
  - apply generate_video_from_qna_submission_inv in Hrun.
    destruct Hrun as (name & start & title & comments & Hin & Ht & Hc & Hw & Hm).
    exists name, start, title, comments. eexists.
    split; [exact Hin|]. split; [exact Ht|]. split; [exact Hc|].
    split; [reflexivity|]. split; [exact Hw|]. split; [exact Hm|].
    apply plan_within_budget.
  - apply generate_video_from_advice_submission_inv in Hrun.
    destruct Hrun as (name & start & title & postbody & Hin & Ht & Hc & Hw & Hm).
    exists name, start, title, postbody. eexists.
    split; [exact Hin|]. split; [exact Ht|]. split; [exact Hc|].
    split; [reflexivity|]. split; [exact Hw|]. split; [exact Hm|].
    apply plan_within_budget.
Qed.

Lemma pipeline_writes_one_video_witness :
  let self := init "videos" (8 # 10)%Q in
  let submission :=
    {| sub_title := Some (item "title" 3%Q);
       sub_comments := Some [item "comment_0" 4%Q; item "comment_1" 6%Q];
       sub_postbody := None |} in
  let run := generate_video_from_qna_submission no_wrap self submission "out" 30 20 in
  run example_world = (Ok tt, snd (run example_world))
  /\ exists name v,
       In name (mp4_files self (folder example_world))
       /\ written (snd (run example_world)) = [("out/finalized_qna.mp4", v)]
       /\ marker (folder (snd (run example_world))) = Some name
       /\ (video_duration v <= 20)%Q.
Proof.
  intros self submission run.
  assert (Hrun : run example_world = (Ok tt, snd (run example_world))) by reflexivity.
  split; [exact Hrun|].
  destruct (@pipeline_writes_one_video no_wrap "videos" (8 # 10)%Q submission "out"
              30 20 example_world (snd (run example_world))) as [Hqna _].
  destruct (Hqna Hrun) as (name & start & title & comments & v & Hin & _ & _ & _
                           & Hw & Hm & Hd).
  exists name, v. repeat split; assumption.
Defined.

Lemma missing_key_is_not_rendered_witness :
  let self := init "videos" (8 # 10)%Q in
  let submission : Submission Q :=
    {| sub_title := None; sub_comments := Some [item "comment_0" 4%Q];
       sub_postbody := None |} in
  let run := generate_video_from_qna_submission no_wrap self submission "out" 30 20
               example_world in
  (sub_title submission = None \/ sub_comments submission = None)
  /\ is_ok (fst run) = false
  /\ written (snd run) = []
  /\ marker (folder (snd run)) = Some "b.mp4".
Proof.
  intros self submission run.
  assert (Hmissing : sub_title submission = None \/ sub_comments submission = None)
    by (left; reflexivity).
  split; [exact Hmissing|].
  destruct (@missing_key_is_not_rendered Q _ no_wrap self submission "out" 30 20
              example_world) as [Hqna _].
  destruct (Hqna Hmissing) as (Hfail & Hw & _ & Hfolder).
  split; [exact Hfail|]. split; [exact Hw|].
  fold run in Hfolder.
  rewrite (Hfolder "videos/b.mp4" (snd (pick_random_video self example_world))
             eq_refl).
  reflexivity.
Defined.

Lemma batch_writes_one_video_per_post_witness :
  let video_gen := init "videos" (literal 8 10 : Q) in
  let posts := [complete_post; complete_post] in
  let w' := snd (qna_loop no_wrap example_recording example_args example_now
                          video_gen 0 posts example_world) in
  qna_loop no_wrap example_recording example_args example_now video_gen 0 posts
           example_world = (Ok tt, w')
  /\ map fst (written w')
     = ["output/qna_3112026_95_0/finalized_qna.mp4";
        "output/qna_3112026_95_1/finalized_qna.mp4"]%string
  /\ stdout w'
     = ["Successfully Generated QnA Video for 1 QnA post.";
        "Successfully Generated QnA Video for 2 QnA post."]%string.
Proof.
  intros video_gen posts w'.
  assert (Hloop : qna_loop no_wrap example_recording example_args example_now
                    video_gen 0 posts example_world = (Ok tt, w')) by reflexivity.
  split; [exact Hloop|].
  destruct (@batch_writes_one_video_per_post Q _ no_wrap example_recording
              example_args example_now posts example_world w' Hloop)
    as (_ & Hw & Hs).
  split; [rewrite Hw | rewrite Hs]; reflexivity.
Defined.

Lemma scripts_never_raise_witness :
  Raise (IOError "No such file or directory")
  = (Raise (IOError "No such file or directory") : result (list Post))
  /\ generate_qna_tiktok_video no_wrap example_recording example_args example_now
       (Raise (IOError "No such file or directory")) example_world
     = (Ok tt, reported (IOError "No such file or directory") example_world).
Proof.
  split; [reflexivity|].
  destruct (@scripts_never_raise Q _ no_wrap example_recording example_args
              example_now (Raise (IOError "No such file or directory"))
              example_world) as (_ & _ & Hmissing).
  exact (proj1 (Hmissing _ eq_refl)).
Defined.

(* ================================================================== *)
(** * Further properties of the audio generation *)
(* ================================================================== *)

Local Open Scope nat_scope.

Lemma to_uint_nonnil (n : nat) : Nat.to_uint n <> Decimal.Nil.
Proof.
  intros Hnil.
  pose proof (DecimalNat.Unsigned.of_to n) as Hof. rewrite Hnil in Hof.
  simpl in Hof. subst n. discriminate.
Qed.

Lemma str_of_nat_inj (n m : nat) : str_of_nat n = str_of_nat m -> n = m.
Proof.
  unfold str_of_nat. intros Heq.
  apply DecimalNat.Unsigned.to_uint_inj.
  assert (Hsome : Some (Nat.to_uint n) = Some (Nat.to_uint m)).
  { rewrite <- (DecimalString.NilZero.usu _ (to_uint_nonnil n)).
    rewrite <- (DecimalString.NilZero.usu _ (to_uint_nonnil m)).
    now rewrite Heq. }
  now inversion Hsome.
Qed.

Lemma indexed_from_cons {A} (i : nat) (x : A) (l : list A) :
  indexed_from i (x :: l) = (i, x) :: indexed_from (S i) l.
Proof. reflexivity. Qed.

Lemma indexed_from_positions {A} (l : list A) :
  forall i, map fst (indexed_from i l) = seq i (List.length l).
Proof.
  induction l as [|x l IH]; intros i; [reflexivity|].
  rewrite indexed_from_cons. simpl. now rewrite IH.
Qed.

Section AudioFacts.

Context {F : Type} `{PyFloat F}.

(** A recording that never fails and lasts [dur] of the text it is given. *)
Variable dur : string -> F.

Let recording : string -> result F := fun sanitized_text => Ok (dur sanitized_text).

Lemma generate_audio_and_save_run (text output_filepath filename : string)
    (w : World F) :
  generate_audio_and_save recording text output_filepath filename w
  = (Ok {| text := text; audio_filepath := join output_filepath filename;
           audio_duration := dur (sanitize_sentence_for_gtts text) |}, w).
Proof. reflexivity. Qed.

Lemma comment_loop_run (dir : string) (comments : list Comment) :
  forall (i : nat) (acc : list (AudioItem F)) (w : World F),
    comment_loop recording dir i comments acc w
    = (Ok (acc ++ map (comment_item dur dir)
                      (filter (fun ic => negb (String.eqb (comment (snd ic)) ""))
                              (indexed_from i comments))), w).
Proof.
  induction comments as [|c rest IH]; intros i acc w.
  - simpl. now rewrite app_nil_r.
  - rewrite indexed_from_cons. cbn [comment_loop filter snd].
    destruct (String.eqb (comment c) "") eqn:Hempty; cbn [negb].
    + apply IH.
    + unfold mbind. rewrite generate_audio_and_save_run.
      rewrite IH. cbn [map]. rewrite <- app_assoc. reflexivity.
Qed.

(** X17.  What the audio of a QnA post returns when no recording fails:
    one item for the title and one for every comment whose text is not empty,
    in the order of the post.  An item keeps the text as it is in the post,
    with its asterisks, while its recording is made from the sanitized text.
    The file of a comment is numbered by the position of the comment in the
    post, so an empty comment leaves a gap in the numbering. *)
Theorem qna_audio_items (base : string) (title : string) (comments : list Comment)
    (body : option string) (w : World F) :
  let audio_dir := join base "audio" in
  fst (generate_audio_from_qna_submission recording base
         {| post_title := Some title; post_body := body;
            post_comments := Some comments |} w)
  = Ok {| sub_title :=
            Some {| text := title;
                    audio_filepath := join audio_dir "title.mp3";
                    audio_duration := dur (sanitize_sentence_for_gtts title) |};
          sub_comments :=
            Some (map (comment_item dur (join audio_dir "comments"))
                      (filter (fun ic => negb (String.eqb (comment (snd ic)) ""))
                              (indexed_from 0 comments)));
          sub_postbody := None |}.
Proof.
  unfold generate_audio_from_qna_submission. cbn [post_title post_comments].
  unfold mbind, getitem. unfold ret at 1 2.
  rewrite generate_audio_and_save_run, comment_loop_run. reflexivity.
Qed.

End AudioFacts.

Section AdviceAudio.

Context {F : Type} `{PyFloat F}.
Variable recording : string -> result F.

(** X18.  The audio of an advice post never returns.  Without a title or a
    body the look-up of the key raises KeyError.  With both, the title is
    recorded first, and a failure of that recording is what is raised; when
    the recording succeeds the body is split next, and the call of [wrap],
    a name that lib/generate_audio.py does not import, raises NameError
    before any piece of the body is recorded. *)
Theorem advice_audio_never_returns (base : string) (post : Post) (w : World F) :
  let run := fst (generate_audio_from_advice_submission recording base post w) in
  is_ok run = false
  /\ (post_title post = None -> run = Raise (KeyError "title"))
  /\ (forall title, post_title post = Some title -> post_body post = None ->
      run = Raise (KeyError "postbody"))
  /\ (forall title body e,
        post_title post = Some title -> post_body post = Some body ->
        recording (sanitize_sentence_for_gtts title) = Raise e ->
        run = Raise e)
  /\ (forall title body d,
        post_title post = Some title -> post_body post = Some body ->
        recording (sanitize_sentence_for_gtts title) = Ok d ->
        run = Raise (NameError "wrap")).
Proof.
  intros run.
  destruct post as [[title|] [body|] comments]; cbn [post_title post_body].
  - assert (Hrun : run = match recording (sanitize_sentence_for_gtts title) with
                         | Ok _ => Raise (NameError "wrap")
                         | Raise e => Raise e
                         end).
    { unfold run, generate_audio_from_advice_submission, generate_audio_and_save,
        mbind, getitem, lift, ret. cbn [post_title post_body].
      destruct (recording (sanitize_sentence_for_gtts title)); reflexivity. }
    rewrite Hrun. clear Hrun run.
    split; [destruct (recording _); reflexivity|].
    split; [discriminate|]. split; [discriminate|].
    split; intros t b x Ht _ Hx; inversion Ht; subst t; rewrite Hx; reflexivity.
  - split; [reflexivity|]. split; [discriminate|]. split; [reflexivity|].
    split; intros; discriminate.
  - split; [reflexivity|]. split; [reflexivity|]. split; [discriminate|].
    split; intros; discriminate.
  - split; [reflexivity|]. split; [reflexivity|]. split; [discriminate|].
    split; intros; discriminate.
Qed.

End AdviceAudio.

Lemma advice_audio_never_returns_witness :
  post_title complete_post = Some "What is the best advice you got?"%string
  /\ post_body complete_post = Some "I keep hearing the same thing."%string
  /\ example_recording (sanitize_sentence_for_gtts "What is the best advice you got?")
     = Ok (32 # 10)%Q
  /\ fst (generate_audio_from_advice_submission example_recording "out" complete_post
            example_world)
     = Raise (NameError "wrap").
Proof.
  assert (Ht : post_title complete_post = Some "What is the best advice you got?"%string)
    by reflexivity.
  assert (Hb : post_body complete_post = Some "I keep hearing the same thing."%string)
    by reflexivity.
  assert (Hr : example_recording
                 (sanitize_sentence_for_gtts "What is the best advice you got?")
               = Ok (32 # 10)%Q) by reflexivity.
  split; [exact Ht|]. split; [exact Hb|]. split; [exact Hr|].
  destruct (@advice_audio_never_returns Q example_recording "out" complete_post
              example_world) as (_ & _ & _ & _ & Hname).
  exact (Hname _ _ _ Ht Hb Hr).
Defined.


Lemma string_append_inv_tail (c : string) :
  forall a b : string, (a ++ c = b ++ c)%string -> a = b.
Proof.
  assert (Hlen : forall x y : string,
             String.length (x ++ y) = String.length x + String.length y).
  { intros x y. induction x as [|ch x IH]; simpl; [reflexivity | now rewrite IH]. }
  induction a as [|x a IH]; intros b Heq.
  - destruct b as [|y b]; [reflexivity|].
    apply (f_equal String.length) in Heq. simpl in Heq. rewrite Hlen in Heq. lia.
  - destruct b as [|y b].
    + apply (f_equal String.length) in Heq. simpl in Heq. rewrite Hlen in Heq. lia.
    + simpl in Heq. inversion Heq. f_equal. now apply IH.
Qed.

Lemma NoDup_map_fst_filter {A B} (p : A * B -> bool) (l : list (A * B)) :
  NoDup (map fst l) -> NoDup (map fst (filter p l)).
Proof.
  induction l as [|x l IH]; intros Hnd; [constructor|].
  inversion Hnd as [|? ? Hnotin Hrest]; subst. simpl.
  destruct (p x); [|now apply IH].
  simpl. constructor; [|now apply IH].
  intros Hin. apply Hnotin.
  apply in_map_iff in Hin. destruct Hin as (y & Hy & Hin).
  apply filter_In in Hin. apply in_map_iff. exists y. tauto.
Qed.

Lemma NoDup_map_injective {A B} (f : A -> B) (l : list A) :
  (forall x y, f x = f y -> x = y) -> NoDup l -> NoDup (map f l).
Proof.
  intros Hinj Hnd. induction Hnd as [|x l Hnotin _ IH]; simpl; constructor.
  - intros Hin. apply in_map_iff in Hin. destruct Hin as (y & Hy & Hin).
    apply Hinj in Hy. now subst y.
  - exact IH.
Qed.

(** X19.  No two comments of a post are recorded to the same file: when no
    recording fails, the audio files of the comment items are pairwise
    distinct, and there are as many items as comments with a text, whatever
    the comments are and whichever of them are empty. *)
Theorem comment_files_distinct {F : Type} `{PyFloat F} (dur : string -> F)
    (base : string) (title : string) (comments : list Comment)
    (body : option string) (w w' : World F) (info : Submission F)
    (items : list (AudioItem F)) :
  generate_audio_from_qna_submission (fun sanitized_text => Ok (dur sanitized_text))
    base {| post_title := Some title; post_body := body;
            post_comments := Some comments |} w
  = (Ok info, w') ->
  sub_comments info = Some items ->
  NoDup (map (@audio_filepath F) items)
  /\ List.length items
     = List.length (filter (fun c => negb (String.eqb (comment c) "")) comments).
Proof.
  unfold generate_audio_from_qna_submission. cbn [post_title post_comments].
  unfold mbind, getitem. unfold ret at 1 2.
  rewrite generate_audio_and_save_run, comment_loop_run.
  intros Hrun Hitems. inversion Hrun; subst info w'. clear Hrun.
  cbn [sub_comments] in Hitems. inversion Hitems; subst items. clear Hitems. split.
  - rewrite map_map. cbn [comment_item audio_filepath].
    set (dir := join (join base "audio") "comments").
    set (kept := filter _ (indexed_from 0 comments)).
    assert (Hnd : NoDup (map fst kept)).
    { apply NoDup_map_fst_filter. rewrite indexed_from_positions. apply seq_NoDup. }
    rewrite <- (map_map fst (fun i => join dir ("comment_" ++ str_of_nat i ++ ".mp3"))).
    apply NoDup_map_injective; [|exact Hnd].
    intros i j Heq. apply join_inj in Heq; try reflexivity.
    apply append_inv_head in Heq. apply string_append_inv_tail in Heq.
    now apply str_of_nat_inj.
  - rewrite length_map. generalize 0.
    induction comments as [|c rest IH]; intros i; [reflexivity|].
    rewrite indexed_from_cons. cbn [filter snd].
    destruct (String.eqb (comment c) ""); cbn [negb List.length]; now rewrite IH.
Qed.

Lemma comment_files_distinct_witness :
  let comments := [{| comment := "first"; comment_score := 2000%Z |};
                   {| comment := ""; comment_score := 1800%Z |};
                   {| comment := "third"; comment_score := 1500%Z |}] in
  let post := {| post_title := Some "title"; post_body := None;
                 post_comments := Some comments |} in
  exists (info : Submission Q) (items : list (AudioItem Q)),
    generate_audio_from_qna_submission
      (fun s => Ok (Z.of_nat (String.length s) # 10)%Q) "out" post example_world
    = (Ok info, example_world)
    /\ sub_comments info = Some items
    /\ map (@audio_filepath Q) items
       = ["out/audio/comments/comment_0.mp3";
          "out/audio/comments/comment_2.mp3"]%string
    /\ NoDup (map (@audio_filepath Q) items).
Proof.
  intros comments post.
  eexists. eexists.
  split; [reflexivity|]. split; [reflexivity|]. split; [reflexivity|].
  eapply (@comment_files_distinct Q _ (fun s => (Z.of_nat (String.length s) # 10)%Q)
            "out" "title" comments None example_world example_world); reflexivity.
Defined.

(** X20.  Sanitizing is a character filter: it leaves a sentence without
    asterisks as it is, sanitizing twice is sanitizing once, and the
    sanitized concatenation of two sentences is the concatenation of the
    two sanitized sentences. *)
Theorem sanitize_is_a_filter (a b : string) :
  (count_asterisks a = 0 -> sanitize_sentence_for_gtts a = a)
  /\ sanitize_sentence_for_gtts (sanitize_sentence_for_gtts a)
     = sanitize_sentence_for_gtts a
  /\ sanitize_sentence_for_gtts (a ++ b)
     = (sanitize_sentence_for_gtts a ++ sanitize_sentence_for_gtts b)%string.
Proof.
  unfold sanitize_sentence_for_gtts, re_sub_stars. rewrite !sub_scan_single.
  assert (Hclean : forall s, count_asterisks s = 0 -> remove_asterisks s = s).
  { induction s as [|c s IH]; simpl; [reflexivity|].
    destruct (Ascii.eqb c star); simpl; intros Hc; [lia|].
    now rewrite IH. }
  split; [apply Hclean|]. split.
  - apply Hclean. apply remove_asterisks_clean.
  - apply remove_asterisks_append.
Qed.

Lemma sanitize_is_a_filter_witness :
  count_asterisks "nothing censored here" = 0
  /\ sanitize_sentence_for_gtts "nothing censored here" = "nothing censored here"%string.
Proof.
  assert (Hclean : count_asterisks "nothing censored here" = 0) by reflexivity.
  split; [exact Hclean|].
  exact (proj1 (sanitize_is_a_filter "nothing censored here" "") Hclean).
Defined.

Section AdviceScript.

Context {F : Type} `{PyFloat F}.
Variable wrap : string -> Z -> list string.
Variable recording : string -> result F.

(** X21.  The advice script never produces a video.  Whatever the content
    file holds, no video is written, no background is selected (folder and
    marker are untouched and the random generator is not asked) and no
    success line is printed: an empty batch prints nothing, and on any other
    the first post fails while its audio is generated, the report of that
    failure is all that is printed and the posts behind it are not looked
    at.  For a first post with title and body whose title can be recorded
    the failure is the NameError of the look-up of [wrap]. *)
Theorem advice_script_writes_no_video (args : Namespace) (now : DateTime)
    (json_file : result (list Post)) (w : World F) :
  let after := snd (generate_advice_tiktok_video wrap recording args now json_file w) in
  written after = written w
  /\ folder after = folder w
  /\ draws after = draws w
  /\ (json_file = Ok [] -> after = w)
  /\ (forall post rest, json_file = Ok (post :: rest) ->
      exists err, after = reported err w)
  /\ (forall post rest title body d,
        json_file = Ok (post :: rest) ->
        post_title post = Some title -> post_body post = Some body ->
        recording (sanitize_sentence_for_gtts title) = Ok d ->
        after = reported (NameError "wrap") w).
Proof.
  intros after.
  assert (Hrun : forall post rest e,
             advice_loop wrap recording args now
               (init (background_folder args) (literal 8 10)) 0 (post :: rest) w
             = (Raise e, w) ->
             generate_advice_tiktok_video wrap recording args now
               (Ok (post :: rest)) w
             = (Ok tt, reported e w)).
  { intros post rest e Hloop.
    unfold generate_advice_tiktok_video, try_except, mbind, lift. cbn beta iota zeta.
    rewrite Hloop. apply report_run. }
  assert (Hcases : after = w \/ exists err, after = reported err w).
  { unfold after. destruct json_file as [[|post rest]|err].
    - left. reflexivity.
    - right.
      destruct (advice_loop_raises wrap recording args now
                  (init (background_folder args) (literal 8 10)) 0 post rest w)
        as (e & Hloop & _).
      exists e. now rewrite (Hrun _ _ _ Hloop).
    - right. exists err.
      unfold generate_advice_tiktok_video, try_except, mbind, lift.
      cbn beta iota zeta. now rewrite report_run. }
  assert (Hfields : written after = written w /\ folder after = folder w
                    /\ draws after = draws w).
  { destruct Hcases as [->|[err ->]]; repeat split; reflexivity. }
  destruct Hfields as (Hw & Hf & Hd).
  split; [exact Hw|]. split; [exact Hf|]. split; [exact Hd|]. split; [|split].
  - intros Hjson. unfold after. rewrite Hjson. reflexivity.
  - intros post rest Hjson.
    destruct (advice_loop_raises wrap recording args now
                (init (background_folder args) (literal 8 10)) 0 post rest w)
      as (e & Hloop & _).
    exists e. unfold after. rewrite Hjson. now rewrite (Hrun _ _ _ Hloop).
  - intros post rest title body d Hjson Ht Hb Hrec.
    unfold after. rewrite Hjson.
    erewrite Hrun; [reflexivity|].
    eapply advice_loop_name_error; eassumption.
Qed.

End AdviceScript.

Lemma advice_script_writes_no_video_witness :
  post_title complete_post = Some "What is the best advice you got?"%string
  /\ post_body complete_post = Some "I keep hearing the same thing."%string
  /\ example_recording (sanitize_sentence_for_gtts "What is the best advice you got?")
     = Ok (32 # 10)%Q
  /\ stdout (snd (generate_advice_tiktok_video no_wrap example_recording example_args
                    example_now (Ok [complete_post; complete_post]) example_world))
     = ["---------------------------------------------------";
        "Exception was raised during the execution of script";
        "Err Type: <class 'NameError'>";
        "Err Msg: name 'wrap' is not defined";
        "---------------------------------------------------"]%string.
Proof.
  assert (Ht : post_title complete_post = Some "What is the best advice you got?"%string)
    by reflexivity.
  assert (Hb : post_body complete_post = Some "I keep hearing the same thing."%string)
    by reflexivity.
  assert (Hr : example_recording
                 (sanitize_sentence_for_gtts "What is the best advice you got?")
               = Ok (32 # 10)%Q) by reflexivity.
  split; [exact Ht|]. split; [exact Hb|]. split; [exact Hr|].
  destruct (@advice_script_writes_no_video Q _ no_wrap example_recording example_args
              example_now (Ok [complete_post; complete_post]) example_world)
    as (_ & _ & _ & _ & _ & Hname).
  rewrite (Hname complete_post [complete_post] _ _ _ eq_refl Ht Hb Hr).
  reflexivity.
Defined.

(* ================================================================== *)
(** * Properties of the content generator *)
(* ================================================================== *)

Local Open Scope Z_scope.

Section ContentFacts.

Variable censor : string -> string.
Variable top : string -> Z -> string -> list Reddit.RedditSubmission.

Lemma comments_loop_run (limit char_limit : Z) (top_level : list Reddit.RedditComment) :
  forall acc,
    Reddit.comments_loop censor top_level limit char_limit acc
    = acc
      ++ map (fun rc => {| comment := censor (Reddit.body rc);
                           comment_score := Reddit.score rc |})
             (filter (fun rc => (limit <? Reddit.score rc)
                                && (Z.of_nat (String.length (Reddit.body rc))
                                    <=? char_limit))
                     top_level).
Proof.
  induction top_level as [|rc rest IH]; intros acc; simpl.
  - now rewrite app_nil_r.
  - destruct ((limit <? Reddit.score rc)
              && (Z.of_nat (String.length (Reddit.body rc)) <=? char_limit)).
    + rewrite IH, <- app_assoc. reflexivity.
    + apply IH.
Qed.

Lemma qna_posts_loop_run (limit char_limit threshold : Z) (sort : string)
    (submissions : list Reddit.RedditSubmission) :
  forall acc,
    Reddit.qna_posts_loop censor submissions limit char_limit threshold sort acc
    = acc
      ++ map (fun s =>
                {| post_title := Some (Reddit.title s);
                   post_body := None;
                   post_comments :=
                     Some (Reddit.comments_loop censor
                             (Reddit.comments s sort threshold) limit char_limit []) |})
             submissions.
Proof.
  induction submissions as [|s rest IH]; intros acc; simpl.
  - now rewrite app_nil_r.
  - rewrite IH, <- app_assoc. reflexivity.
Qed.

Lemma advice_posts_loop_run (submissions : list Reddit.RedditSubmission) :
  forall acc,
    Reddit.advice_posts_loop submissions acc
    = acc
      ++ map (fun s => {| post_title := Some (Reddit.title s);
                          post_body := Some (Reddit.selftext s);
                          post_comments := None |})
             submissions.
Proof.
  induction submissions as [|s rest IH]; intros acc; simpl.
  - now rewrite app_nil_r.
  - rewrite IH, <- app_assoc. reflexivity.
Qed.

(** X22.  [get_top_qna_posts] answers with one post per submission of the
    API, in the order of the API, each with its title and with the comments
    that pass both limits, in their order, censored and with their score;
    a post whose comments all fail is still returned, with no comment. *)
Theorem get_top_qna_posts_maps (sub_name : string) (post_limit : Z)
    (time_filter : string) (limit char_limit threshold : Z) (sort : string) :
  Reddit.get_top_qna_posts censor top sub_name post_limit time_filter limit
    char_limit threshold sort
  = map (fun s =>
           {| post_title := Some (Reddit.title s);
              post_body := None;
              post_comments :=
                Some (map (fun rc => {| comment := censor (Reddit.body rc);
                                        comment_score := Reddit.score rc |})
                          (filter (fun rc =>
                                     (limit <? Reddit.score rc)
                                     && (Z.of_nat (String.length (Reddit.body rc))
                                         <=? char_limit))
                                  (Reddit.comments s sort threshold))) |})
        (top sub_name post_limit time_filter).
Proof.
  unfold Reddit.get_top_qna_posts. rewrite qna_posts_loop_run. simpl.
  apply map_ext. intros s. now rewrite comments_loop_run.
Qed.

(** X23.  The limits of [get_top_qna_posts] are a strict lower bound on the
    score and an inclusive upper bound on the length of the uncensored
    body: every comment of a returned post comes from a top-level comment
    with score above [comment_score_limit] and at most [comment_char_limit]
    characters, and every such top-level comment of the submission is in
    its post. *)
Theorem qna_comments_within_limits (sub_name : string) (post_limit : Z)
    (time_filter : string) (limit char_limit threshold : Z) (sort : string)
    (post : Post) :
  In post (Reddit.get_top_qna_posts censor top sub_name post_limit time_filter
             limit char_limit threshold sort) ->
  exists s kept,
    In s (top sub_name post_limit time_filter)
    /\ post_title post = Some (Reddit.title s)
    /\ post_comments post = Some kept
    /\ (forall c, In c kept ->
          limit < comment_score c
          /\ exists rc, In rc (Reddit.comments s sort threshold)
                        /\ comment c = censor (Reddit.body rc)
                        /\ comment_score c = Reddit.score rc
                        /\ Z.of_nat (String.length (Reddit.body rc)) <= char_limit)
    /\ (forall rc, In rc (Reddit.comments s sort threshold) ->
          limit < Reddit.score rc ->
          Z.of_nat (String.length (Reddit.body rc)) <= char_limit ->
          In {| comment := censor (Reddit.body rc);
                comment_score := Reddit.score rc |} kept).
Proof.
  unfold Reddit.get_top_qna_posts. rewrite qna_posts_loop_run. simpl.
  intros Hin. apply in_map_iff in Hin. destruct Hin as (s & <- & Hs).
  exists s. eexists. split; [exact Hs|]. split; [reflexivity|].
  split; [reflexivity|]. rewrite comments_loop_run. simpl. split.
  - intros c Hc. apply in_map_iff in Hc. destruct Hc as (rc & <- & Hrc).
    apply filter_In in Hrc. destruct Hrc as [Hrc Hkeep].
    apply andb_true_iff in Hkeep. destruct Hkeep as [Hscore Hlen].
    apply Z.ltb_lt in Hscore. apply Z.leb_le in Hlen.
    split; [exact Hscore|]. exists rc. repeat split; assumption.
  - intros rc Hrc Hscore Hlen. apply in_map_iff. exists rc.
    split; [reflexivity|]. apply filter_In. split; [exact Hrc|].
    apply andb_true_iff. split; [now apply Z.ltb_lt | now apply Z.leb_le].
Qed.

(** [get_top_advice_posts] answers with one post per submission, in
    order, with the title and the body as the API gave them: nothing is
    filtered and, unlike the comments of the QnA posts, the body is not
    censored. *)
Lemma get_top_advice_posts_maps (sub_name : string) (post_limit : Z)
    (time_filter : string) :
  Reddit.get_top_advice_posts top sub_name post_limit time_filter
  = map (fun s => {| post_title := Some (Reddit.title s);
                     post_body := Some (Reddit.selftext s);
                     post_comments := None |})
        (top sub_name post_limit time_filter).
Proof.
  unfold Reddit.get_top_advice_posts. now rewrite advice_posts_loop_run.
Qed.

End ContentFacts.

Section ContentPipeline.

Context {F : Type} `{PyFloat F}.
Variable dur : string -> F.
Variable censor : string -> string.
Variable top : string -> Z -> string -> list Reddit.RedditSubmission.

(** X24.  The posts of the content generator in the two audio variants,
    with recordings that do not fail.  A post of [get_top_qna_posts] passes
    [generate_audio_from_qna_submission] and raises KeyError 'postbody' in
    the advice variant.  A post of [get_top_advice_posts] raises KeyError
    'comments' in the QnA variant and, in the advice variant it was made
    for, the NameError of the look-up of [wrap]: no post of the content
    generator passes the advice audio.  The two KeyErrors are raised before
    anything is recorded and leave the world as it was. *)
Theorem content_in_the_audio_variants (sub_name : string) (post_limit : Z)
    (time_filter : string) (limit char_limit threshold : Z) (sort : string)
    (post : Post) (base : string) (w : World F) :
  let recording := fun sanitized_text : string => Ok (dur sanitized_text) in
  (In post (Reddit.get_top_qna_posts censor top sub_name post_limit time_filter
              limit char_limit threshold sort) ->
   (exists info, fst (generate_audio_from_qna_submission recording base post w)
                 = Ok info)
   /\ generate_audio_from_advice_submission recording base post w
      = (Raise (KeyError "postbody"), w))
  /\
  (In post (Reddit.get_top_advice_posts top sub_name post_limit time_filter) ->
   fst (generate_audio_from_advice_submission recording base post w)
   = Raise (NameError "wrap")
   /\ generate_audio_from_qna_submission recording base post w
      = (Raise (KeyError "comments"), w)).
Proof.
  intros recording. subst recording. split; intros Hin.
  - unfold Reddit.get_top_qna_posts in Hin. rewrite qna_posts_loop_run in Hin.
    simpl in Hin. apply in_map_iff in Hin. destruct Hin as (s & <- & _). split.
    + eexists. unfold generate_audio_from_qna_submission.
      cbn [post_title post_comments]. unfold mbind, getitem. unfold ret at 1 2.
      rewrite generate_audio_and_save_run, comment_loop_run. reflexivity.
    + reflexivity.
  - unfold Reddit.get_top_advice_posts in Hin. rewrite advice_posts_loop_run in Hin.
    simpl in Hin. apply in_map_iff in Hin. destruct Hin as (s & <- & _). split.
    + unfold generate_audio_from_advice_submission.
      cbn [post_title post_body]. unfold mbind, getitem. unfold ret at 1 2.
      rewrite generate_audio_and_save_run. reflexivity.
    + reflexivity.
Qed.

End ContentPipeline.

Section ContentScript.

Variable censor : string -> string.
Variable top : string -> Z -> string -> list Reddit.RedditSubmission.

(** X25.  In QnA mode the script never writes a content file.  The call of
    [get_top_qna_posts] passes the keyword [comment_score_min], which is no
    parameter of the method (the parameter is [comment_score_limit]): the
    binding of the arguments raises TypeError before the API is asked, and
    the script prints its report, whatever the arguments, the credentials'
    outcome apart, and whatever the API would answer. *)
Theorem qna_mode_never_writes (args : Reddit.Namespace)
    (credentials : Reddit.outcome unit) (writable : string -> bool)
    (disk : Reddit.Disk) :
  Reddit.subreddit_type args = "qna"%string ->
  let after := Reddit.generate_reddit_json censor top args credentials writable disk in
  Reddit.json_files after = Reddit.json_files disk
  /\ (credentials = Reddit.Done tt ->
      exists msg,
        Reddit.console after
        = Reddit.console disk
          ++ ["---------------------------------------------------";
              "Exception was raised during the execution of script";
              "Err Type: <class 'TypeError'>";
              ("Err Msg: " ++ msg)%string;
              "---------------------------------------------------"]%string).
Proof.
  intros Hqna after. unfold after, Reddit.generate_reddit_json,
    Reddit.generate_reddit_json_body.
  rewrite Hqna. cbn [String.eqb Ascii.eqb Bool.eqb].
  destruct credentials as [[]|e].
  - split; [reflexivity|]. intros _. eexists. cbn.
    repeat rewrite <- app_assoc. reflexivity.
  - split; [reflexivity|]. intros Hdone. discriminate.
Qed.

(** X26.  In advice mode, with working credentials and an API that
    answers, the script writes the
    posts of [get_top_advice_posts] for the subreddit, limit and time filter
    of the command line to one file and prints one line.  The file is
    reddit_advice_content.json when no output folder is given; with an
    output folder it is reddit_qna_content.json in that folder.  When the
    file cannot be opened nothing is written and the report is printed. *)
Theorem advice_mode_output (args : Reddit.Namespace) (writable : string -> bool)
    (disk : Reddit.Disk) :
  Reddit.subreddit_type args = "advice"%string ->
  let after :=
    Reddit.generate_reddit_json censor top args (Reddit.Done tt) writable disk in
  let path :=
    if String.eqb (Reddit.output_folder args) ""
    then "reddit_advice_content.json"%string
    else join (Reddit.output_folder args) "reddit_qna_content.json" in
  (writable path = true ->
   Reddit.json_files after
   = Reddit.json_files disk
     ++ [(path, Reddit.get_top_advice_posts top (Reddit.subreddit args)
                  (Reddit.post_limit args) (Reddit.time_filter args))]
   /\ List.length (Reddit.console after) = S (List.length (Reddit.console disk)))
  /\ (writable path = false ->
      Reddit.json_files after = Reddit.json_files disk
      /\ List.length (Reddit.console after)
         = (5 + List.length (Reddit.console disk))%nat).
Proof.
  intros Hadvice after path. unfold after, Reddit.generate_reddit_json,
    Reddit.generate_reddit_json_body.
  rewrite Hadvice. cbn [String.eqb Ascii.eqb Bool.eqb].
  unfold Reddit.call_get_top_advice_posts. cbn [Reddit.unexpected_keyword existsb
    Reddit.get_top_advice_posts_params String.eqb Ascii.eqb Bool.eqb orb].
  unfold Reddit.dump. fold path.
  split; intros Hw; rewrite Hw.
  - split; [reflexivity|]. cbn. rewrite length_app. simpl. lia.
  - split; [reflexivity|]. cbn. rewrite !length_app. simpl. lia.
Qed.

End ContentScript.

Lemma qna_comments_within_limits_witness :
  let submission :=
    {| Reddit.title := "What is the best advice you got?";
       Reddit.selftext := "";
       Reddit.comments := fun _ _ =>
         [{| Reddit.body := "Sleep on it."; Reddit.score := 1500 |};
          {| Reddit.body := "At the limit."; Reddit.score := 1000 |}] |} in
  let top := fun (_ : string) (_ : Z) (_ : string) => [submission] in
  let post := {| post_title := Some "What is the best advice you got?";
                 post_body := None;
                 post_comments := Some [{| comment := "Sleep on it.";
                                           comment_score := 1500 |}] |} in
  In post (Reddit.get_top_qna_posts (fun s => s) top "askreddit" 1 "day" 1000 250 50
             "confidence")
  /\ exists s kept,
       In s (top "askreddit" 1 "day")
       /\ post_comments post = Some kept
       /\ forall c, In c kept -> 1000 < comment_score c.
Proof.
  intros submission top post.
  assert (Hin : In post (Reddit.get_top_qna_posts (fun s => s) top "askreddit" 1 "day"
                           1000 250 50 "confidence")) by (left; reflexivity).
  split; [exact Hin|].
  destruct (@qna_comments_within_limits (fun s => s) top "askreddit" 1 "day" 1000 250
              50 "confidence" post Hin) as (s & kept & Hs & _ & Hkept & Hsound & _).
  exists s, kept. split; [exact Hs|]. split; [exact Hkept|].
  intros c Hc. exact (proj1 (Hsound c Hc)).
Defined.

Lemma content_in_the_audio_variants_witness :
  let submission :=
    {| Reddit.title := "Should I move?";
       Reddit.selftext := "It is a long story.";
       Reddit.comments := fun _ _ => [] |} in
  let top := fun (_ : string) (_ : Z) (_ : string) => [submission] in
  let post := {| post_title := Some "Should I move?";
                 post_body := Some "It is a long story.";
                 post_comments := None |} in
  let recording := fun s : string => Ok (Z.of_nat (String.length s) # 10)%Q in
  In post (Reddit.get_top_advice_posts top "AmItheAsshole" 1 "day")
  /\ fst (generate_audio_from_advice_submission recording "out" post example_world)
     = Raise (NameError "wrap")
  /\ generate_audio_from_qna_submission recording "out" post example_world
     = (Raise (KeyError "comments"), example_world).
Proof.
  intros submission top post recording.
  assert (Hin : In post (Reddit.get_top_advice_posts top "AmItheAsshole" 1 "day"))
    by (left; reflexivity).
  split; [exact Hin|].
  destruct (@content_in_the_audio_variants Q
              (fun s => (Z.of_nat (String.length s) # 10)%Q) (fun s => s) top
              "AmItheAsshole" 1 "day" 1000 250 50 "confidence" post "out"
              example_world) as [_ Hadvice].
  exact (Hadvice Hin).
Defined.

Lemma qna_mode_never_writes_witness :
  let args := {| Reddit.credential_json := "secrets/reddit_credentials.json";
                 Reddit.output_folder := "";
                 Reddit.subreddit := "askreddit";
                 Reddit.subreddit_type := "qna";
                 Reddit.post_limit := 1;
                 Reddit.time_filter := "day";
                 Reddit.comment_score_min := 1000;
                 Reddit.comment_char_limit := 250;
                 Reddit.comment_sort := "confidence" |} in
  let disk := {| Reddit.json_files := []; Reddit.console := [] |} in
  Reddit.subreddit_type args = "qna"%string
  /\ Reddit.json_files
       (Reddit.generate_reddit_json (fun s => s) (fun _ _ _ => []) args
          (Reddit.Done tt) (fun _ => true) disk) = [].
Proof.
  intros args disk.
  assert (Hqna : Reddit.subreddit_type args = "qna"%string) by reflexivity.
  split; [exact Hqna|].
  exact (proj1 (@qna_mode_never_writes (fun s => s) (fun _ _ _ => []) args
                  (Reddit.Done tt) (fun _ => true) disk Hqna)).
Defined.

Lemma advice_mode_output_witness :
  let args := {| Reddit.credential_json := "secrets/reddit_credentials.json";
                 Reddit.output_folder := "content";
                 Reddit.subreddit := "AmItheAsshole";
                 Reddit.subreddit_type := "advice";
                 Reddit.post_limit := 1;
                 Reddit.time_filter := "day";
                 Reddit.comment_score_min := 1000;
                 Reddit.comment_char_limit := 250;
                 Reddit.comment_sort := "confidence" |} in
  let disk := {| Reddit.json_files := []; Reddit.console := [] |} in
  Reddit.subreddit_type args = "advice"%string
  /\ map fst (Reddit.json_files
                (Reddit.generate_reddit_json (fun s => s) (fun _ _ _ => []) args
                   (Reddit.Done tt) (fun _ => true) disk))
     = ["content/reddit_qna_content.json"]%string.
Proof.
  intros args disk.
  assert (Hadvice : Reddit.subreddit_type args = "advice"%string) by reflexivity.
  split; [exact Hadvice|].
  destruct (@advice_mode_output (fun s => s) (fun _ _ _ => []) args (fun _ => true)
              disk Hadvice) as [Hwritten _].
  destruct (Hwritten eq_refl) as [Hfiles _].
  rewrite Hfiles. reflexivity.
Defined.
